(** * python_debugger: the control core of the interactive debugger

    A shallow embedding of [src/python_debugger.py]: the stepping state
    ([_StateManager]), the breakpoint registry ([_BreakpointInfo],
    [_BreakpointManager]), the symbolic location finder
    ([_FunctionFinder], with the interpreter's recursion limit), and the
    event dispatcher, the command loop and the navigation commands of
    [PyDebugger].  Python objects that are shared and mutated
    ([_BreakpointInfo] instances) live in an explicit object store; Python
    integers are [Z]; text is [string]. *)

From Stdlib Require Import ZArith String Ascii List Bool Lia.
From stdpp Require Import base option list gmap strings.

Set Warnings "-register-all".
Local Open Scope string_scope.
Local Open Scope Z_scope.

(** ** Python dictionaries whose iteration order is observed

    [dict] keeps insertion order; [breakpoints_by_id] is iterated with
    [.items()], so it is an association list in insertion order. *)
Module PyDict.
Section dict.
Context {K V : Type} `{EqDecision K}.

(** [d[k]] / [k in d] *)
Fixpoint get (d : list (K * V)) (k : K) : option V :=
  match d with
  | [] => None
  | (k', v) :: d' => if decide (k' = k) then Some v else get d' k
  end.

(** [d[k] = v]: an existing key keeps its position, a new one goes last. *)
Fixpoint set (d : list (K * V)) (k : K) (v : V) : list (K * V) :=
  match d with
  | [] => [(k, v)]
  | (k', v') :: d' =>
      if decide (k' = k) then (k', v) :: d' else (k', v') :: set d' k v
  end.

(** [del d[k]] on a key that is present ([d.pop(k)] drops the same entry). *)
Fixpoint remove (d : list (K * V)) (k : K) : list (K * V) :=
  match d with
  | [] => []
  | (k', v) :: d' => if decide (k' = k) then d' else (k', v) :: remove d' k
  end.

Definition keys (d : list (K * V)) : list K := map fst d.
End dict.
End PyDict.

(** ** Exceptions that escape the modelled methods *)
Inductive exn := KeyError | TypeError | NameError | RecursionError.

Inductive result (A : Type) :=
| Ok (a : A)
| Raise (e : exn).
Arguments Ok {A} a.
Arguments Raise {A} e.

(** Python truthiness of the values that the code tests with [if x:]. *)
Definition truthy_int (n : Z) : bool := negb (n =? 0).
Definition truthy_str (s : string) : bool := negb (String.eqb s "").
Definition truthy_opt_int (o : option Z) : bool :=
  match o with Some n => truthy_int n | None => false end.

(** ** The host: what the debugger consumes from the runtime

    [abspath] is [os.path.abspath]; [eval_bool src globals locals] is
    [bool(eval(src, globals, locals))], with [None] when the evaluation raises
    an [Exception].  Both are opaque to the debugger; an evaluation is taken
    to leave the scopes as they are. *)
Class Host := {
  Scope : Type;
  abspath : string -> string;
  eval_bool : string -> Scope -> Scope -> option bool
}.

(** ** Frames: the caller chain delivered with every trace event *)
Inductive frame `{Host} := Frame {
  f_id : nat;                 (* object identity *)
  co_filename : string;       (* frm.f_code.co_filename *)
  co_name : string;           (* frm.f_code.co_name *)
  f_lineno : Z;
  f_globals : Scope;
  f_locals : Scope;
  f_back : option frame
}.

Inductive event := Call | Line | Return | Exception.

(** ** _StateManager *)
Record StateManager := {
  request_stop_at_next_suitable_event : bool;
  step_into : bool;
  step_over : bool;
  step_over_target_depth : Z;
  step_out : bool;
  step_out_target_depth : Z;
  run_until_line_info : option (string * Z)
}.

Module StateManager.
(** [_StateManager.__init__] *)
Definition init : StateManager :=
  {| request_stop_at_next_suitable_event := true;
     step_into := false;
     step_over := false;
     step_over_target_depth := -1;
     step_out := false;
     step_out_target_depth := -1;
     run_until_line_info := None |}.

Definition set_request_stop (b : bool) (sm : StateManager) : StateManager :=
  {| request_stop_at_next_suitable_event := b;
     step_into := step_into sm;
     step_over := step_over sm;
     step_over_target_depth := step_over_target_depth sm;
     step_out := step_out sm;
     step_out_target_depth := step_out_target_depth sm;
     run_until_line_info := run_until_line_info sm |}.

Definition set_run_until (r : option (string * Z)) (sm : StateManager)
  : StateManager :=
  {| request_stop_at_next_suitable_event :=
       request_stop_at_next_suitable_event sm;
     step_into := step_into sm;
     step_over := step_over sm;
     step_over_target_depth := step_over_target_depth sm;
     step_out := step_out sm;
     step_out_target_depth := step_out_target_depth sm;
     run_until_line_info := r |}.

Definition reset_stepping_flags (sm : StateManager) : StateManager :=
  {| request_stop_at_next_suitable_event :=
       request_stop_at_next_suitable_event sm;
     step_into := false;
     step_over := false;
     step_over_target_depth := step_over_target_depth sm;
     step_out := false;
     step_out_target_depth := step_out_target_depth sm;
     run_until_line_info := run_until_line_info sm |}.

Definition configure_for_run (sm : StateManager) : StateManager :=
  set_run_until None (reset_stepping_flags (set_request_stop false sm)).

Definition configure_for_step_into (sm : StateManager) : StateManager :=
  {| request_stop_at_next_suitable_event := true;
     step_into := true;
     step_over := false;
     step_over_target_depth := step_over_target_depth sm;
     step_out := false;
     step_out_target_depth := step_out_target_depth sm;
     run_until_line_info := None |}.

Definition configure_for_step_over (depth : Z) (sm : StateManager)
  : StateManager :=
  {| request_stop_at_next_suitable_event := true;
     step_into := false;
     step_over := true;
     step_over_target_depth := depth;
     step_out := false;
     step_out_target_depth := step_out_target_depth sm;
     run_until_line_info := None |}.

Definition configure_for_step_out (depth : Z) (sm : StateManager)
  : StateManager :=
  {| request_stop_at_next_suitable_event := true;
     step_into := false;
     step_over := false;
     step_over_target_depth := step_over_target_depth sm;
     step_out := true;
     step_out_target_depth := depth;
     run_until_line_info := None |}.

Definition configure_for_run_until (file : string) (line : Z)
  (sm : StateManager) : StateManager :=
  set_run_until (Some (file, line))
    (reset_stepping_flags (set_request_stop true sm)).
End StateManager.

(** ** _BreakpointInfo *)
Record BreakpointInfo := {
  lineno : Z;
  file_abs : string;
  condition_str : option string;
  initial_ignore_count : Z;
  current_ignore_left : Z;
  hit_count : Z;
  enabled : bool
}.

Module BreakpointInfo.
(** [_BreakpointInfo.__init__] *)
Definition init (lineno : Z) (file_abs : string)
  (condition_str : option string) (initial_ignore_count : Z)
  : BreakpointInfo :=
  {| lineno := lineno;
     file_abs := file_abs;
     condition_str := condition_str;
     initial_ignore_count := initial_ignore_count;
     current_ignore_left := initial_ignore_count;
     hit_count := 0;
     enabled := true |}.

Definition set_hit_count (n : Z) (bp : BreakpointInfo) : BreakpointInfo :=
  {| lineno := lineno bp;
     file_abs := file_abs bp;
     condition_str := condition_str bp;
     initial_ignore_count := initial_ignore_count bp;
     current_ignore_left := current_ignore_left bp;
     hit_count := n;
     enabled := enabled bp |}.

Definition set_ignore_left (n : Z) (bp : BreakpointInfo) : BreakpointInfo :=
  {| lineno := lineno bp;
     file_abs := file_abs bp;
     condition_str := condition_str bp;
     initial_ignore_count := initial_ignore_count bp;
     current_ignore_left := n;
     hit_count := hit_count bp;
     enabled := enabled bp |}.

Definition set_initial_ignore (n : Z) (bp : BreakpointInfo) : BreakpointInfo :=
  {| lineno := lineno bp;
     file_abs := file_abs bp;
     condition_str := condition_str bp;
     initial_ignore_count := n;
     current_ignore_left := current_ignore_left bp;
     hit_count := hit_count bp;
     enabled := enabled bp |}.

(** [_BreakpointInfo.should_stop]: the answer and the mutated object.  A
    condition that raises is reported and counts as [False]. *)
Definition should_stop `{Host} (bp : BreakpointInfo)
  (frame_globals frame_locals : Scope) : bool * BreakpointInfo :=
  if negb (enabled bp) then (false, bp)
  else
    let bp := set_hit_count (hit_count bp + 1) bp in
    if current_ignore_left bp >? 0 then
      (false, set_ignore_left (current_ignore_left bp - 1) bp)
    else
      match condition_str bp with
      | Some c =>
          if truthy_str c then
            match eval_bool c frame_globals frame_locals with
            | Some b => (b, bp)
            | None => (false, bp)
            end
          else (true, bp)
      | None => (true, bp)
      end.
End BreakpointInfo.

(** ** _BreakpointManager

    [objects] is the store of [_BreakpointInfo] instances; an instance is
    named by its index there, and both dictionaries hold such references, so
    a mutation through one index is seen through the other.  The cache of
    parsed files is not part of the model: [_FunctionFinder] below receives
    the tree that [_load_ast_with_cache] returns. *)
Record BreakpointManager := {
  objects : list BreakpointInfo;
  breakpoints_by_file : gmap string (gmap Z nat);
  next_bp_id : Z;
  breakpoints_by_id : list (Z * nat)
}.

Module BreakpointManager.
(** [_BreakpointManager.__init__] *)
Definition init : BreakpointManager :=
  {| objects := [];
     breakpoints_by_file := ∅;
     next_bp_id := 1;
     breakpoints_by_id := [] |}.

Definition set_objects (o : list BreakpointInfo) (m : BreakpointManager)
  : BreakpointManager :=
  {| objects := o;
     breakpoints_by_file := breakpoints_by_file m;
     next_bp_id := next_bp_id m;
     breakpoints_by_id := breakpoints_by_id m |}.

(** [self.breakpoints_by_file[file_abs][lineno]], when both keys exist. *)
Definition at_location (m : BreakpointManager) (file_abs : string)
  (lineno : Z) : option nat :=
  match breakpoints_by_file m !! file_abs with
  | Some lines => lines !! lineno
  | None => None
  end.

(** [_BreakpointManager.add_breakpoint]: the new state and the new id. *)
Definition add_breakpoint (m : BreakpointManager) (file_abs : string)
  (lineno : Z) (condition_str : option string) (initial_ignore_count : Z)
  : BreakpointManager * Z :=
  let by_file :=
    match breakpoints_by_file m !! file_abs with
    | Some _ => breakpoints_by_file m
    | None => <[file_abs := ∅]> (breakpoints_by_file m)
    end in
  let bp_info :=
    BreakpointInfo.init lineno file_abs condition_str initial_ignore_count in
  let ref := length (objects m) in
  let by_file := <[file_abs := <[lineno := ref]> (by_file !!! file_abs)]> by_file in
  let bp_id := next_bp_id m in
  ({| objects := objects m ++ [bp_info];
      breakpoints_by_file := by_file;
      next_bp_id := bp_id + 1;
      breakpoints_by_id := PyDict.set (breakpoints_by_id m) bp_id ref |},
   bp_id).

(** The loop [for bp_id, info in self.breakpoints_by_id.items(): if info ==
    bp_info: ...; break], also the body of [PyDebugger._get_bp_id]:
    instances have no [__eq__], so [==] is identity. *)
Fixpoint id_of_object (by_id : list (Z * nat)) (ref : nat) : option Z :=
  match by_id with
  | [] => None
  | (bp_id, info) :: rest =>
      if decide (info = ref) then Some bp_id else id_of_object rest ref
  end.

(** The second half of [clear_breakpoint], from [if bp_to_remove_id and
    bp_to_remove_id in self.breakpoints_by_id]. *)
Definition remove_by_id (m : BreakpointManager) (bp_to_remove_id : option Z)
  : BreakpointManager * result bool :=
  match bp_to_remove_id with
  | Some id =>
      if truthy_int id then
        match PyDict.get (breakpoints_by_id m) id with
        | Some ref =>
            let m :=
              {| objects := objects m;
                 breakpoints_by_file := breakpoints_by_file m;
                 next_bp_id := next_bp_id m;
                 breakpoints_by_id := PyDict.remove (breakpoints_by_id m) id |} in
            match objects m !! ref with
            | Some bp_info =>
                match breakpoints_by_file m !! file_abs bp_info with
                | Some lines =>
                    match lines !! lineno bp_info with
                    | Some _ =>
                        let lines := delete (lineno bp_info) lines in
                        let by_file :=
                          if decide (lines = ∅)
                          then delete (file_abs bp_info) (breakpoints_by_file m)
                          else <[file_abs bp_info := lines]> (breakpoints_by_file m) in
                        ({| objects := objects m;
                            breakpoints_by_file := by_file;
                            next_bp_id := next_bp_id m;
                            breakpoints_by_id := breakpoints_by_id m |},
                         Ok true)
                    | None => (m, Raise KeyError)
                    end
                | None => (m, Raise KeyError)
                end
            | None => (m, Raise KeyError)
            end
        | None => (m, Ok false)
        end
      else (m, Ok false)
  | None => (m, Ok false)
  end.

(** The argument of [clear_breakpoint]: an [int], or a location string
    given here by what [parse_location_string] returns for it ([None] for
    the pair [(None, None)]). *)
Inductive clear_arg :=
| ById (bp_id : Z)
| ByLocation (parsed : option (string * Z)).

(** [_BreakpointManager.clear_breakpoint].  The id [0] is falsy and is
    handed to [parse_location_string], whose [":" in loc_str] raises
    [TypeError] on an [int]. *)
Definition clear_breakpoint (m : BreakpointManager) (arg : clear_arg)
  : BreakpointManager * result bool :=
  match arg with
  | ById id =>
      if truthy_int id then remove_by_id m (Some id)
      else (m, Raise TypeError)
  | ByLocation parsed =>
      match parsed with
      | Some (file_abs, lineno) =>
          if truthy_str file_abs && truthy_int lineno then
            match at_location m file_abs lineno with
            | Some ref => remove_by_id m (id_of_object (breakpoints_by_id m) ref)
            | None => (m, Ok false)
            end
          else (m, Ok false)
      | None => (m, Ok false)
      end
  end.

(** [_BreakpointManager.clear_all_breakpoints] *)
Definition clear_all_breakpoints (m : BreakpointManager) : BreakpointManager :=
  {| objects := objects m;
     breakpoints_by_file := ∅;
     next_bp_id := next_bp_id m;
     breakpoints_by_id := [] |}.

(** [_BreakpointManager.check_breakpoint]: the state with the mutated
    instance, and the reference returned ([None] for Python's [None]). *)
Definition check_breakpoint `{Host} (m : BreakpointManager)
  (file_abs : string) (lineno : Z) (frame_globals frame_locals : Scope)
  : BreakpointManager * option nat :=
  match at_location m file_abs lineno with
  | Some ref =>
      match objects m !! ref with
      | Some bp_info =>
          let '(stop, bp_info) :=
            BreakpointInfo.should_stop bp_info frame_globals frame_locals in
          (set_objects (<[ref := bp_info]> (objects m)) m,
           if stop then Some ref else None)
      | None => (m, None)
      end
  | None => (m, None)
  end.

(** [_BreakpointManager.set_ignore_count] *)
Definition set_ignore_count (m : BreakpointManager) (bp_id count : Z)
  : BreakpointManager * bool :=
  match PyDict.get (breakpoints_by_id m) bp_id with
  | Some ref =>
      match objects m !! ref with
      | Some bp_info =>
          let bp_info :=
            BreakpointInfo.set_ignore_left count
              (BreakpointInfo.set_initial_ignore count bp_info) in
          (set_objects (<[ref := bp_info]> (objects m)) m, true)
      | None => (m, false)
      end
  | None => (m, false)
  end.

(** Insertion of a row by id, for [sorted(self.breakpoints_by_id.items())]:
    the ids are distinct keys, so the order is the order of the ids. *)
Fixpoint insert_row (row : Z * BreakpointInfo)
  (rows : list (Z * BreakpointInfo)) : list (Z * BreakpointInfo) :=
  match rows with
  | [] => [row]
  | r :: rest =>
      if fst row <=? fst r then row :: r :: rest
      else r :: insert_row row rest
  end.

(** [_BreakpointManager.list_breakpoints]: the rows printed, in order. *)
Definition list_breakpoints (m : BreakpointManager)
  : list (Z * BreakpointInfo) :=
  foldr insert_row []
    (omap (fun '(bp_id, ref) => (fun bp => (bp_id, bp)) <$> objects m !! ref)
       (breakpoints_by_id m)).
End BreakpointManager.

(** ** PyDebugger *)

(** A command argument that the code passes to [int]: absent (empty),
    an integer, or text on which [int] raises [ValueError]. *)
Inductive int_arg := NoArg | IntArg (n : Z) | NotInt.

(** The commands of the operator that the command loop below knows: the
    ones that resume and the two that move the inspection cursor, each
    standing for its [do_] method with its argument.  The commands that only
    print or that edit the registry are not part of the command loop; the
    registry is modelled by its own methods. *)
Inductive command :=
| CmdNext
| CmdStep
| CmdContinue
| CmdQuit
| CmdFinish
| CmdRunUntil (arg : int_arg)
| CmdUpStack (arg : int_arg)
| CmdDownStack (arg : int_arg).

(** A line read at the prompt, after [strip]: the empty line; a command
    written with the name of its method (["next"], ["rununtil 12"],
    ["up_stack 2"]); a command written with its alias (["n"], ["until 12"],
    ["up 2"]: each of the eight commands has one in [self.aliases]); or the
    line ["EOF"], which [Cmd.cmdloop] also reads at the end of the input. *)
Inductive line :=
| Blank
| Named (c : command)
| Aliased (c : command)
| EndOfFile.

(** The fields that the dispatcher and the modelled commands read or write.
    [last_non_empty_cmd] holds the last line that was not empty, as typed
    ([Blank] for the empty text it starts with).  The watch list, the
    history and the alias table belong to the textual front end. *)
Record PyDebugger `{Host} := {
  execution_frame : option frame;
  interaction_frame : option frame;
  _full_stack_at_stop : list frame;
  _interaction_stack_idx : Z;
  state_manager : StateManager;
  breakpoint_manager : BreakpointManager;
  last_non_empty_cmd : line;
  quit_debugger : bool
}.

(** [reason_for_stop], the label printed at a stop: ["Initial entry"],
    [f"Step into {name}"], ["Until"], ["Step"], ["Next"], ["Finish"],
    ["First line"], ["Exception"] and [f"BP {id}"] (with ["?"] for an
    instance that has no id). *)
Inductive reason :=
| InitialEntry
| StepIntoCall (name : string)
| Until
| Step
| Next
| Finish
| FirstLine
| ExceptionRaised
| BP (bp_id : option Z).

(** What a navigation command prints: a fixed text, or the location of the
    frame it moved to ([print_current_location] with [f"Frame {n_idx}"]). *)
Inductive printed :=
| Text (s : string)
| FrameLocation (n_idx : Z).

Module PyDebugger.
Section debugger.
Context `{Host}.

(** The frames from [frm] to the root, [frm] first. *)
Fixpoint caller_chain (frm : frame) : list frame :=
  frm :: match f_back frm with
         | Some caller => caller_chain caller
         | None => []
         end.

(** [PyDebugger._get_frame_depth] *)
Definition _get_frame_depth (frm : option frame) : Z :=
  match frm with
  | Some f => Z.of_nat (length (caller_chain f))
  | None => 0
  end.

(** [x is y] on frames. *)
Definition same_frame (a b : frame) : bool := Nat.eqb (f_id a) (f_id b).

(** [stack.index(frm)], when [frm in stack]. *)
Fixpoint index_of (stack : list frame) (frm : frame) : option Z :=
  match stack with
  | [] => None
  | f :: rest =>
      if same_frame f frm then Some 0
      else match index_of rest frm with
           | Some i => Some (i + 1)
           | None => None
           end
  end.

Definition set_state_manager (sm : StateManager) (dbg : PyDebugger)
  : PyDebugger :=
  {| execution_frame := execution_frame dbg;
     interaction_frame := interaction_frame dbg;
     _full_stack_at_stop := _full_stack_at_stop dbg;
     _interaction_stack_idx := _interaction_stack_idx dbg;
     state_manager := sm;
     breakpoint_manager := breakpoint_manager dbg;
     last_non_empty_cmd := last_non_empty_cmd dbg;
     quit_debugger := quit_debugger dbg |}.

Definition set_breakpoint_manager (m : BreakpointManager) (dbg : PyDebugger)
  : PyDebugger :=
  {| execution_frame := execution_frame dbg;
     interaction_frame := interaction_frame dbg;
     _full_stack_at_stop := _full_stack_at_stop dbg;
     _interaction_stack_idx := _interaction_stack_idx dbg;
     state_manager := state_manager dbg;
     breakpoint_manager := m;
     last_non_empty_cmd := last_non_empty_cmd dbg;
     quit_debugger := quit_debugger dbg |}.

Definition set_execution_frame (frm : option frame) (dbg : PyDebugger)
  : PyDebugger :=
  {| execution_frame := frm;
     interaction_frame := interaction_frame dbg;
     _full_stack_at_stop := _full_stack_at_stop dbg;
     _interaction_stack_idx := _interaction_stack_idx dbg;
     state_manager := state_manager dbg;
     breakpoint_manager := breakpoint_manager dbg;
     last_non_empty_cmd := last_non_empty_cmd dbg;
     quit_debugger := quit_debugger dbg |}.

Definition set_last_non_empty_cmd (l : line) (dbg : PyDebugger)
  : PyDebugger :=
  {| execution_frame := execution_frame dbg;
     interaction_frame := interaction_frame dbg;
     _full_stack_at_stop := _full_stack_at_stop dbg;
     _interaction_stack_idx := _interaction_stack_idx dbg;
     state_manager := state_manager dbg;
     breakpoint_manager := breakpoint_manager dbg;
     last_non_empty_cmd := l;
     quit_debugger := quit_debugger dbg |}.

Definition set_inspection (idx : Z) (frm : option frame) (dbg : PyDebugger)
  : PyDebugger :=
  {| execution_frame := execution_frame dbg;
     interaction_frame := frm;
     _full_stack_at_stop := _full_stack_at_stop dbg;
     _interaction_stack_idx := idx;
     state_manager := state_manager dbg;
     breakpoint_manager := breakpoint_manager dbg;
     last_non_empty_cmd := last_non_empty_cmd dbg;
     quit_debugger := quit_debugger dbg |}.

(** [PyDebugger._capture_full_stack] *)
Definition _capture_full_stack (most_recent_frame : option frame)
  (dbg : PyDebugger) : PyDebugger :=
  let stack :=
    match most_recent_frame with
    | Some f => caller_chain f
    | None => []
    end in
  let dbg :=
    {| execution_frame := execution_frame dbg;
       interaction_frame := interaction_frame dbg;
       _full_stack_at_stop := stack;
       _interaction_stack_idx := _interaction_stack_idx dbg;
       state_manager := state_manager dbg;
       breakpoint_manager := breakpoint_manager dbg;
       last_non_empty_cmd := last_non_empty_cmd dbg;
       quit_debugger := quit_debugger dbg |} in
  match match execution_frame dbg with
        | Some ef => index_of stack ef
        | None => None
        end with
  | Some i => set_inspection i (execution_frame dbg) dbg
  | None =>
      match stack with
      | first :: _ => set_inspection 0 (Some first) dbg
      | [] => dbg
      end
  end.

(** [PyDebugger.__init__] *)
Definition init (entry_exec_frame : frame) : PyDebugger :=
  _capture_full_stack (Some entry_exec_frame)
    {| execution_frame := Some entry_exec_frame;
       interaction_frame := Some entry_exec_frame;
       _full_stack_at_stop := [];
       _interaction_stack_idx := 0;
       state_manager := StateManager.init;
       breakpoint_manager := BreakpointManager.init;
       last_non_empty_cmd := Blank;
       quit_debugger := false |}.

(** [reason_for_stop == "Initial entry"] *)
Definition is_initial_entry (r : option reason) : bool :=
  match r with
  | Some InitialEntry => true
  | _ => false
  end.

(** The stepping part of [trace_dispatch]: from reading
    [request_stop_at_next_suitable_event] to the end of the
    [if event == ...] chain.  Gives the state manager, [stop_now] and
    [reason_for_stop]. *)
Definition stepping_decision (sm : StateManager) (ev : event)
  (current_file_abs : string) (frm : frame) (current_depth : Z)
  : StateManager * bool * option reason :=
  let stop_now := request_stop_at_next_suitable_event sm in
  let sm := StateManager.set_request_stop false sm in
  let reason_for_stop := if stop_now then Some InitialEntry else None in
  match ev with
  | Call =>
      if step_into sm then (sm, true, Some (StepIntoCall (co_name frm)))
      else if step_over sm || step_out sm then (sm, false, reason_for_stop)
      else (sm, stop_now, reason_for_stop)
  | Line =>
      match run_until_line_info sm with
      | Some (r_file, r_ln) =>
          if String.eqb current_file_abs r_file && (f_lineno frm =? r_ln)
          then (StateManager.set_run_until None sm, true, Some Until)
          else (sm, stop_now, reason_for_stop)
      | None =>
          if step_into sm then (sm, true, Some Step)
          else if step_over sm && (current_depth <=? step_over_target_depth sm)
          then (sm, true, Some Next)
          else if step_out sm && (current_depth <=? step_out_target_depth sm)
          then (sm, true, Some Finish)
          else if stop_now && is_initial_entry reason_for_stop
          then (sm, stop_now, Some FirstLine)
          else (sm, stop_now, reason_for_stop)
      end
  | Exception => (sm, true, Some ExceptionRaised)
  | Return => (sm, stop_now, reason_for_stop)
  end.

(** [trace_dispatch] from [self.execution_frame = frm] to the breakpoint
    check: the state, [stop_now] and [reason_for_stop] before
    [if stop_now:]. *)
Definition decide_stop (dbg : PyDebugger) (frm : frame) (ev : event)
  : PyDebugger * bool * option reason :=
  let dbg := set_execution_frame (Some frm) dbg in
  let current_file_abs := abspath (co_filename frm) in
  let current_depth := _get_frame_depth (Some frm) in
  let '(sm, stop_now, reason_for_stop) :=
    stepping_decision (state_manager dbg) ev current_file_abs frm
      current_depth in
  let dbg := set_state_manager sm dbg in
  if stop_now then (dbg, true, reason_for_stop)
  else
    let '(m, bp_info) :=
      BreakpointManager.check_breakpoint (breakpoint_manager dbg)
        current_file_abs (f_lineno frm) (f_globals frm) (f_locals frm) in
    let dbg := set_breakpoint_manager m dbg in
    match bp_info with
    | Some ref =>
        (dbg, true,
         Some (BP (BreakpointManager.id_of_object
                     (breakpoints_by_id (breakpoint_manager dbg)) ref)))
    | None => (dbg, false, reason_for_stop)
    end.

(** The body of [if stop_now:] up to the call of [self.cmdloop()]: the
    state in which the operator is prompted. *)
Definition prepare_prompt (dbg : PyDebugger) : PyDebugger :=
  let dbg := _capture_full_stack (execution_frame dbg) dbg in
  let dbg := set_inspection 0 (execution_frame dbg) dbg in
  let sm := state_manager dbg in
  if step_into sm || step_over sm || step_out sm
  then set_state_manager (StateManager.reset_stepping_flags sm) dbg
  else dbg.

(** *** Commands: the new state and the value the method returns
    (a true value ends [cmdloop]). *)

Definition do_next (dbg : PyDebugger) : PyDebugger * bool :=
  (set_state_manager
     (StateManager.configure_for_step_over
        (_get_frame_depth (execution_frame dbg)) (state_manager dbg)) dbg,
   true).

Definition do_step (dbg : PyDebugger) : PyDebugger * bool :=
  (set_state_manager
     (StateManager.configure_for_step_into (state_manager dbg)) dbg,
   true).

Definition do_continue (dbg : PyDebugger) : PyDebugger * bool :=
  (set_state_manager
     (StateManager.configure_for_run (state_manager dbg)) dbg,
   true).

Definition do_quit (dbg : PyDebugger) : PyDebugger * bool :=
  ({| execution_frame := execution_frame dbg;
      interaction_frame := interaction_frame dbg;
      _full_stack_at_stop := _full_stack_at_stop dbg;
      _interaction_stack_idx := _interaction_stack_idx dbg;
      state_manager := state_manager dbg;
      breakpoint_manager := breakpoint_manager dbg;
      last_non_empty_cmd := last_non_empty_cmd dbg;
      quit_debugger := true |},
   true).

Definition do_rununtil (arg : int_arg) (dbg : PyDebugger)
  : PyDebugger * bool :=
  match arg with
  | NoArg => (dbg, false)
  | IntArg ln =>
      match execution_frame dbg with
      | Some ef =>
          (set_state_manager
             (StateManager.configure_for_run_until
                (abspath (co_filename ef)) ln (state_manager dbg)) dbg,
           true)
      | None => (dbg, false)
      end
  | NotInt => (dbg, false)
  end.

Definition do_finish (dbg : PyDebugger) : PyDebugger * bool :=
  match execution_frame dbg with
  | Some ef =>
      match f_back ef with
      | Some caller =>
          (set_state_manager
             (StateManager.configure_for_step_out
                (_get_frame_depth (Some caller)) (state_manager dbg)) dbg,
           true)
      | None => (dbg, false)
      end
  | None => (dbg, false)
  end.

(** The shared body of [do_up_stack] ([delta] is [c]) and [do_down_stack]
    ([delta] is [-c]), from [n_idx = idx + c] / [n_idx = idx - c] on. *)
Definition move_inspection (n_idx : Z) (refusal : string)
  (dbg : PyDebugger) : PyDebugger * printed :=
  if (0 <=? n_idx) && (n_idx <? Z.of_nat (length (_full_stack_at_stop dbg)))
  then (set_inspection n_idx (_full_stack_at_stop dbg !! Z.to_nat n_idx) dbg,
        FrameLocation n_idx)
  else (dbg, Text refusal).

Definition do_up_stack (arg_str : int_arg) (dbg : PyDebugger)
  : PyDebugger * printed :=
  match _full_stack_at_stop dbg with
  | [] => (dbg, Text "No stack.")
  | _ :: _ =>
      let idx := _interaction_stack_idx dbg in
      match arg_str with
      | NoArg => move_inspection (idx + 1) "Cannot move further up." dbg
      | IntArg c => move_inspection (idx + c) "Cannot move further up." dbg
      | NotInt => (dbg, Text "Invalid count.")
      end
  end.

Definition do_down_stack (arg_str : int_arg) (dbg : PyDebugger)
  : PyDebugger * printed :=
  match _full_stack_at_stop dbg with
  | [] => (dbg, Text "No stack.")
  | _ :: _ =>
      let idx := _interaction_stack_idx dbg in
      match arg_str with
      | NoArg => move_inspection (idx - 1) "Cannot move further down." dbg
      | IntArg c => move_inspection (idx - c) "Cannot move further down." dbg
      | NotInt => (dbg, Text "Invalid count.")
      end
  end.

(** [Cmd.onecmd] on a line that names a command by its method: the [do_]
    method is called with the argument and its value returned. *)
Definition onecmd (c : command) (dbg : PyDebugger) : PyDebugger * bool :=
  match c with
  | CmdNext => do_next dbg
  | CmdStep => do_step dbg
  | CmdContinue => do_continue dbg
  | CmdQuit => do_quit dbg
  | CmdFinish => do_finish dbg
  | CmdRunUntil arg => do_rununtil arg dbg
  | CmdUpStack arg => (fst (do_up_stack arg dbg), false)
  | CmdDownStack arg => (fst (do_down_stack arg dbg), false)
  end.

(** [PyDebugger.precmd], as far as the state goes: a line that is not
    empty is remembered as typed, before the alias is resolved. *)
Definition precmd (l : line) (dbg : PyDebugger) : PyDebugger :=
  match l with
  | Blank => dbg
  | _ => set_last_non_empty_cmd l dbg
  end.

(** [PyDebugger.emptyline]: [self.onecmd(self.last_non_empty_cmd)] on the
    remembered text, with the value dropped.  A text that names a method
    runs it again; a text that is an alias has no [do_] method, so
    [Cmd.onecmd] hands it to [default], which evaluates it in the inspected
    frame and prints (["EOF"] names [do_EOF], which is [do_quit]). *)
Definition emptyline (dbg : PyDebugger) : PyDebugger :=
  match last_non_empty_cmd dbg with
  | Blank => dbg
  | Named c => fst (onecmd c dbg)
  | Aliased _ => dbg
  | EndOfFile => fst (do_quit dbg)
  end.

(** One turn of [Cmd.cmdloop]: [line = self.precmd(line)] and
    [stop = self.onecmd(line)] ([postcmd] is the one of [Cmd], which
    returns [stop]).  After [precmd] both spellings of a command name its
    method; the empty line goes to [emptyline], which returns [None]. *)
Definition read_line (l : line) (dbg : PyDebugger) : PyDebugger * bool :=
  let dbg := precmd l dbg in
  match l with
  | Blank => (emptyline dbg, false)
  | Named c => onecmd c dbg
  | Aliased c => onecmd c dbg
  | EndOfFile => do_quit dbg
  end.

(** [Cmd.cmdloop] reading the operator's lines in order; at the end of the
    input it reads the line ["EOF"]. *)
Fixpoint cmdloop (input : list line) (dbg : PyDebugger) : PyDebugger :=
  match input with
  | [] => fst (read_line EndOfFile dbg)
  | l :: rest =>
      let '(dbg, stop) := read_line l dbg in
      if stop then dbg else cmdloop rest dbg
  end.


(** What one call of [trace_dispatch] does. *)
Record dispatched := {
  after : PyDebugger;            (* the debugger when the call returns *)
  stopped : bool;                (* [stop_now] at [if stop_now:] *)
  label : option reason;         (* [reason_for_stop] there *)
  at_prompt : option PyDebugger; (* the state when [cmdloop] was entered *)
  keeps_tracing : bool           (* returns [self.trace_dispatch], not [None] *)
}.

(** [PyDebugger.trace_dispatch]; [input] is what the operator types if this
    event stops. *)
Definition trace_dispatch (dbg : PyDebugger) (frm : frame) (ev : event)
  (input : list line) : dispatched :=
  if quit_debugger dbg then
    {| after := dbg; stopped := false; label := None; at_prompt := None;
       keeps_tracing := false |}
  else
    let '(dbg, stop_now, reason_for_stop) := decide_stop dbg frm ev in
    if stop_now then
      let prompt := prepare_prompt dbg in
      let dbg := cmdloop input prompt in
      {| after := dbg; stopped := true; label := reason_for_stop;
         at_prompt := Some prompt;
         keeps_tracing := negb (quit_debugger dbg) |}
    else
      {| after := dbg; stopped := false; label := reason_for_stop;
         at_prompt := None; keeps_tracing := true |}.

(** The events delivered after a resume, up to the first one that stops:
    its position and the label of the stop; [None] when none of them
    stops.  (The operator's input at that stop plays no part.) *)
Fixpoint next_stop (dbg : PyDebugger) (events : list (frame * event))
  : option (nat * option reason) :=
  match events with
  | [] => None
  | (frm, ev) :: rest =>
      let d := trace_dispatch dbg frm ev [] in
      if stopped d then Some (0%nat, label d)
      else match next_stop (after d) rest with
           | Some (i, r) => Some (S i, r)
           | None => None
           end
  end.
End debugger.
End PyDebugger.

(** ** _FunctionFinder: the symbolic location finder *)

(** The parsed tree, as far as the visitor distinguishes nodes: the three
    kinds it has a method for, and every other node, which [generic_visit]
    passes through.  [children] are the child nodes in the order
    [generic_visit] reaches them. *)
Inductive node :=
| FunctionDef (name : string) (lineno : Z) (children : list node)
| AsyncFunctionDef (name : string) (lineno : Z) (children : list node)
| ClassDef (name : string) (lineno : Z) (children : list node)
| OtherNode (children : list node).

Record FunctionFinder := {
  func_name_parts : list string;
  target_lineno : option Z;
  _current_path : list string
}.

Module FunctionFinder.
(** [_FunctionFinder.__init__] *)
Definition init (func_name_parts : list string) : FunctionFinder :=
  {| func_name_parts := func_name_parts;
     target_lineno := None;
     _current_path := [] |}.

Definition set_path (p : list string) (self : FunctionFinder)
  : FunctionFinder :=
  {| func_name_parts := func_name_parts self;
     target_lineno := target_lineno self;
     _current_path := p |}.

Definition set_target (t : option Z) (self : FunctionFinder)
  : FunctionFinder :=
  {| func_name_parts := func_name_parts self;
     target_lineno := t;
     _current_path := _current_path self |}.

(** [self._current_path.append(name)] and [self._current_path.pop()] *)
Definition push (name : string) (self : FunctionFinder) : FunctionFinder :=
  set_path (_current_path self ++ [name]) self.
Definition pop (self : FunctionFinder) : FunctionFinder :=
  set_path (removelast (_current_path self)) self.

(** [self.func_name_parts[: len(self._current_path)] == self._current_path] *)
Definition prefix_matches (self : FunctionFinder) : bool :=
  bool_decide
    (take (length (_current_path self)) (func_name_parts self)
     = _current_path self).

(** A call of a Python function enters a frame.  [frames] is how many
    more frames the interpreter lets the thread enter (the recursion limit
    less the depth of the stack); with none left the call raises
    [RecursionError], otherwise the body runs with one fewer. *)
Definition call {A : Type} (frames : nat) (body : nat -> result A)
  : result A :=
  match frames with
  | O => Raise RecursionError
  | S frames => body frames
  end.

(** [visit_FunctionDef]; [generic_visit] is the call
    [self.generic_visit(node)]. *)
Definition visit_FunctionDef (name : string) (lineno : Z)
  (generic_visit : FunctionFinder -> result FunctionFinder)
  (self : FunctionFinder) : result FunctionFinder :=
  let self := push name self in
  let self :=
    if Nat.eqb (length (_current_path self)) (length (func_name_parts self))
       && bool_decide (_current_path self = func_name_parts self)
    then set_target (Some lineno) self
    else self in
  if negb (truthy_opt_int (target_lineno self))
     && Nat.ltb (length (_current_path self)) (length (func_name_parts self))
     && prefix_matches self
  then match generic_visit self with
       | Ok self => Ok (pop self)
       | Raise e => Raise e
       end
  else Ok (pop self).

(** [visit_ClassDef] *)
Definition visit_ClassDef (name : string)
  (generic_visit : FunctionFinder -> result FunctionFinder)
  (self : FunctionFinder) : result FunctionFinder :=
  let self := push name self in
  if Nat.leb (length (_current_path self)) (length (func_name_parts self))
     && prefix_matches self
  then match generic_visit self with
       | Ok self => Ok (pop self)
       | Raise e => Raise e
       end
  else Ok (pop self).

(** The loop of [NodeVisitor.generic_visit]: [visit] on each child in
    turn, until one raises. *)
Definition visit_each (visit : node -> FunctionFinder -> result FunctionFinder)
  (children : list node) (self : FunctionFinder) : result FunctionFinder :=
  fold_left (fun acc c =>
               match acc with
               | Ok self => visit c self
               | Raise e => Raise e
               end) children (Ok self).

(** [NodeVisitor.visit]: the frame of [visit], then the method for the
    class of the node in a frame of its own ([visit_AsyncFunctionDef] calls
    [visit_FunctionDef]; a node of any other class goes to
    [generic_visit]).  [generic_visit] runs in its frame, resumes the
    generator [iter_fields] in one more, and calls [visit] on each child. *)
Fixpoint visit (n : node) (frames : nat) (self : FunctionFinder) {struct n}
  : result FunctionFinder :=
  let generic_visit (children : list node) (frames : nat)
        (self : FunctionFinder) :=
    call frames (fun frames =>
      call frames (fun _ =>
        visit_each (fun c self => visit c frames self) children self)) in
  call frames (fun frames =>
    match n with
    | FunctionDef name lineno children =>
        call frames (fun frames =>
          visit_FunctionDef name lineno (generic_visit children frames) self)
    | AsyncFunctionDef name lineno children =>
        call frames (fun frames =>
          call frames (fun frames =>
            visit_FunctionDef name lineno (generic_visit children frames)
              self))
    | ClassDef name _ children =>
        call frames (fun frames =>
          visit_ClassDef name (generic_visit children frames) self)
    | OtherNode children => generic_visit children frames self
    end).

(** [NodeVisitor.generic_visit] on the children of a node. *)
Definition generic_visit (children : list node) (frames : nat)
  (self : FunctionFinder) : result FunctionFinder :=
  call frames (fun frames =>
    call frames (fun _ =>
      visit_each (fun c self => visit c frames self) children self)).

(** [str.split(sep)] for a one-character separator. *)
Fixpoint split (sep : ascii) (s : string) : list string :=
  match s with
  | EmptyString => [EmptyString]
  | String c rest =>
      if Ascii.eqb c sep then EmptyString :: split sep rest
      else match split sep rest with
           | first :: others => String c first :: others
           | [] => [String c EmptyString]
           end
  end.

(** [_BreakpointManager._find_func_lineno_using_ast], given what
    [_load_ast_with_cache] returned and the frames left at the call
    [finder.visit(tree)].  With no tree, the second line evaluates the name
    [_FunctionFinder], which is bound in the class body only and not visible
    from the method: [NameError].  A [RecursionError] of the visit
    escapes. *)
Definition _find_func_lineno_using_ast (frames : nat) (tree : option node)
  (func_spec : string) : result (option Z) :=
  match tree with
  | None => Raise NameError
  | Some tree =>
      match visit tree frames (init (split "." func_spec)) with
      | Ok finder => Ok (target_lineno finder)
      | Raise e => Raise e
      end
  end.
End FunctionFinder.

(** What the finder looks for: a function ([def] or [async def]) with the
    nested-name path [path] inside a tree.  The path lists the names of the
    enclosing class and function declarations, outermost first, and ends
    with the function's name; [line] is the line where the function
    begins. *)
Inductive declared_at : list string -> node -> Z -> Prop :=
| declared_function name line children :
    declared_at [name] (FunctionDef name line children) line
| declared_async_function name line children :
    declared_at [name] (AsyncFunctionDef name line children) line
| declared_in_function name l children c path line :
    In c children -> declared_at path c line ->
    declared_at (name :: path) (FunctionDef name l children) line
| declared_in_async_function name l children c path line :
    In c children -> declared_at path c line ->
    declared_at (name :: path) (AsyncFunctionDef name l children) line
| declared_in_class name l children c path line :
    In c children -> declared_at path c line ->
    declared_at (name :: path) (ClassDef name l children) line
| declared_in_block children c path line :
    In c children -> declared_at path c line ->
    declared_at path (OtherNode children) line.

(** The number of nodes on the longest chain from a node down to a leaf. *)
Fixpoint depth (n : node) : nat :=
  match n with
  | FunctionDef _ _ children => S (list_max (map depth children))
  | AsyncFunctionDef _ _ children => S (list_max (map depth children))
  | ClassDef _ _ children => S (list_max (map depth children))
  | OtherNode children => S (list_max (map depth children))
  end.

(** ** What the specification says, for comparison with the code *)
Module Spec.
(** A declaration with the nested-name path [path] inside a tree, in the
    words of section 4.1 and of the claim on ["A.b"]: the declaration named
    by the last part, nested inside the declarations named by the parts
    before it.  Functions, coroutines and classes are declarations; [line]
    is the line where the declaration begins. *)
Inductive declaration_at : list string -> node -> Z -> Prop :=
| declaration_of_function name line children :
    declaration_at [name] (FunctionDef name line children) line
| declaration_of_async_function name line children :
    declaration_at [name] (AsyncFunctionDef name line children) line
| declaration_of_class name line children :
    declaration_at [name] (ClassDef name line children) line
| declaration_in_function name l children c path line :
    In c children -> declaration_at path c line ->
    declaration_at (name :: path) (FunctionDef name l children) line
| declaration_in_async_function name l children c path line :
    In c children -> declaration_at path c line ->
    declaration_at (name :: path) (AsyncFunctionDef name l children) line
| declaration_in_class name l children c path line :
    In c children -> declaration_at path c line ->
    declaration_at (name :: path) (ClassDef name l children) line
| declaration_in_block children c path line :
    In c children -> declaration_at path c line ->
    declaration_at path (OtherNode children) line.

(** The position of the first [line] event whose depth is at most
    [depth]. *)
Fixpoint first_line_at_depth_le `{Host} (depth : Z)
  (events : list (frame * event)) : option nat :=
  match events with
  | [] => None
  | (frm, Line) :: rest =>
      if PyDebugger._get_frame_depth (Some frm) <=? depth then Some 0%nat
      else S <$> first_line_at_depth_le depth rest
  | _ :: rest => S <$> first_line_at_depth_le depth rest
  end.

(** The position of the first [line] event at the given file and line. *)
Fixpoint first_line_at `{Host} (file : string) (line : Z)
  (events : list (frame * event)) : option nat :=
  match events with
  | [] => None
  | (frm, Line) :: rest =>
      if String.eqb (abspath (co_filename frm)) file && (f_lineno frm =? line)
      then Some 0%nat
      else S <$> first_line_at file line rest
  | _ :: rest => S <$> first_line_at file line rest
  end.

(** The stop decision of the stepping modes as section 4.3 lists it: an
    [until] target stops on a [line] event at exactly that file and line;
    step-into on any [call] or [line] event; step-over and step-out on a
    [line] event at or above their target depth; an [exception] event
    always. *)
Definition mode_stops `{Host} (sm : StateManager) (e : frame * event)
  : bool :=
  let '(frm, ev) := e in
  match ev with
  | Call => step_into sm
  | Line =>
      match run_until_line_info sm with
      | Some (file, line) =>
          String.eqb (abspath (co_filename frm)) file && (f_lineno frm =? line)
      | None =>
          step_into sm
          || step_over sm
             && (PyDebugger._get_frame_depth (Some frm)
                 <=? step_over_target_depth sm)
          || step_out sm
             && (PyDebugger._get_frame_depth (Some frm)
                 <=? step_out_target_depth sm)
      end
  | Return => false
  | Exception => true
  end.

(** The position of the first event that satisfies [stops]. *)
Fixpoint first_position `{Host} (stops : frame * event -> bool)
  (events : list (frame * event)) : option nat :=
  match events with
  | [] => None
  | e :: rest =>
      if stops e then Some 0%nat else S <$> first_position stops rest
  end.
End Spec.

(** Successive hits of one location: [check_breakpoint] called once per
    pair of scopes, in order, with the answers collected. *)
Fixpoint successive_hits `{Host} (m : BreakpointManager) (file_abs : string)
  (lineno : Z) (scopes : list (Scope * Scope))
  : BreakpointManager * list (option nat) :=
  match scopes with
  | [] => (m, [])
  | (frame_globals, frame_locals) :: rest =>
      let '(m, answer) :=
        BreakpointManager.check_breakpoint m file_abs lineno
          frame_globals frame_locals in
      let '(m, answers) := successive_hits m file_abs lineno rest in
      (m, answer :: answers)
  end.


(** The count that [up [N]] / [down [N]] moves by, when there is one. *)
Definition count_of (arg_str : int_arg) : option Z :=
  match arg_str with
  | NoArg => Some 1
  | IntArg c => Some c
  | NotInt => None
  end.

(** The two navigation commands, addressed by direction. *)
Inductive direction := Up | Down.

Definition navigate `{Host} (dir : direction) (arg_str : int_arg)
  (dbg : PyDebugger) : PyDebugger * printed :=
  match dir with
  | Up => PyDebugger.do_up_stack arg_str dbg
  | Down => PyDebugger.do_down_stack arg_str dbg
  end.

(** The position a move by [c] asks for. *)
Definition requested_index `{Host} (dir : direction) (c : Z)
  (dbg : PyDebugger) : Z :=
  match dir with
  | Up => _interaction_stack_idx dbg + c
  | Down => _interaction_stack_idx dbg - c
  end.

(** The text printed when a move is refused. *)
Definition refusal `{Host} (dir : direction) (dbg : PyDebugger) : string :=
  match _full_stack_at_stop dbg, dir with
  | [], _ => "No stack."
  | _ :: _, Up => "Cannot move further up."
  | _ :: _, Down => "Cannot move further down."
  end.

(** The value of the request flag in a session. *)
Definition request_pending `{Host} (dbg : PyDebugger) : bool :=
  request_stop_at_next_suitable_event (state_manager dbg).

(** The command whose method a line runs in a session, if it runs one: the
    command it names, under either spelling, or for the empty line the
    command that [emptyline] repeats (["EOF"] runs the method of [quit]). *)
Definition command_run `{Host} (l : line) (dbg : PyDebugger)
  : option command :=
  match l with
  | Named c => Some c
  | Aliased c => Some c
  | EndOfFile => Some CmdQuit
  | Blank =>
      match last_non_empty_cmd dbg with
      | Named c => Some c
      | EndOfFile => Some CmdQuit
      | _ => None
      end
  end.

(** [k] hits absorbed by the ignore budget: [k] more on the counter, [k]
    fewer left to ignore. *)
Definition absorbed (k : Z) (bp : BreakpointInfo) : BreakpointInfo :=
  BreakpointInfo.set_ignore_left (current_ignore_left bp - k)
    (BreakpointInfo.set_hit_count (hit_count bp + k) bp).

(** The answer of a breakpoint whose budget is used up: its condition, when
    it has one (a condition that raises counts as false). *)
Definition condition_answer `{Host} (bp : BreakpointInfo) (g l : Scope)
  : bool :=
  match condition_str bp with
  | Some c =>
      if truthy_str c
      then match eval_bool c g l with Some b => b | None => false end
      else true
  | None => true
  end.

(** The session runs freely: nothing requested, no stepping mode, no
    [until] target (the state that [continue] leaves). *)
Definition running (sm : StateManager) : Prop :=
  request_stop_at_next_suitable_event sm = false
  /\ step_into sm = false /\ step_over sm = false /\ step_out sm = false
  /\ run_until_line_info sm = None.

(** The character [c] occurs in [s]. *)
Fixpoint has_char (c : ascii) (s : string) : bool :=
  match s with
  | EmptyString => false
  | String c' rest => Ascii.eqb c' c || has_char c rest
  end.

(** The dotted location ["A.b"]. *)
Definition dotted (A b : string) : string := String.append A (String "." b).

(** What one visit that returns may have done to the finder: it keeps the
    wanted path and the current path, and either keeps the target or sets it
    to a line that [found] allows for the rest of the wanted path. *)
Definition visit_effect (found : list string -> Z -> Prop)
  (f : FunctionFinder -> result FunctionFinder) : Prop :=
  forall self self',
    f self = Ok self' ->
    func_name_parts self' = func_name_parts self
    /\ _current_path self' = _current_path self
    /\ (target_lineno self' = target_lineno self
        \/ exists (rest : list string) (line : Z),
            func_name_parts self = (_current_path self ++ rest)%list
            /\ found rest line
            /\ target_lineno self' = Some line).

(** The wanted path starts with the current nesting extended by [name]. *)
Definition on_path (self : FunctionFinder) (name : string) : Prop :=
  take (length (_current_path self ++ [name])) (func_name_parts self)
  = (_current_path self ++ [name])%list.

(** A live session with no request pending and no breakpoint set. *)
Definition quiet `{Host} (dbg : PyDebugger) : Prop :=
  quit_debugger dbg = false
  /\ request_pending dbg = false
  /\ breakpoints_by_file (breakpoint_manager dbg) = ∅.

(** ** A concrete host and program, for the worked examples

    Scopes map names to integers, paths are already absolute, and the only
    expression the evaluator knows is ["x > 3"] (a name that is not bound
    raises, like [NameError] in Python). *)
Module Sample.
Definition scope := list (string * Z).

Definition eval (src : string) (frame_globals frame_locals : scope)
  : option bool :=
  if String.eqb src "x > 3" then
    match PyDict.get frame_locals "x" with
    | Some x => Some (x >? 3)
    | None =>
        match PyDict.get frame_globals "x" with
        | Some x => Some (x >? 3)
        | None => None
        end
    end
  else None.

#[export] Instance host : Host :=
  {| Scope := scope; abspath := fun p => p; eval_bool := eval |}.

Definition file : string := "/app/demo.py".

(** An empty scope, and the scope in which [x] is bound to [v]. *)
Definition no_names : Scope := [].
Definition x_is (v : Z) : Scope := [("x", v)].

(** The module level, a function [work] called from it, and a function
    [helper] called from [work]: depths 1, 2 and 3. *)
Definition in_module (line : Z) : frame :=
  Frame host 0 file "<module>" line [] [] None.
Definition in_work (line : Z) (locals : scope) : frame :=
  Frame host 1 file "work" line [] locals (Some (in_module 30)).
Definition in_helper (line : Z) : frame :=
  Frame host 2 file "helper" line [] [] (Some (in_work 11 [])).

(** The session attached on entry to [work], before its first event. *)
Definition entry : frame := in_work 9 [].
Definition attached : PyDebugger := PyDebugger.init entry.

(** That session stopped at its first event (the [call] of [work], at
    line 9). *)
Definition entered : PyDebugger :=
  PyDebugger.prepare_prompt (PyDebugger.decide_stop attached entry Call).1.1.

(** The same session suspended on a line of [work] after a [step]. *)
Definition suspended_in_work (line : Z) : PyDebugger :=
  PyDebugger.prepare_prompt
    (PyDebugger.decide_stop (PyDebugger.do_step entered).1
       (in_work line []) Line).1.1.

(** A breakpoint at line 10 with the condition ["x > 3"]. *)
Definition conditional_breakpoint (ignore : Z) : BreakpointManager :=
  (BreakpointManager.add_breakpoint BreakpointManager.init file 10
     (Some "x > 3") ignore).1.

(** The session suspended in [work] after the operator has set that
    breakpoint with no ignore count. *)
Definition with_conditional_breakpoint : PyDebugger :=
  PyDebugger.set_breakpoint_manager (conditional_breakpoint 0)
    (suspended_in_work 9).

(** Two breakpoints set one after the other at line 10. *)
Definition two_at_line_10 : BreakpointManager :=
  (BreakpointManager.add_breakpoint
     (BreakpointManager.add_breakpoint BreakpointManager.init file 10
        None 0).1 file 10 None 0).1.

(** The outline of
    [[
    def b(): ...            # line 1
    class A:                # line 3
        def b(self): ...    # line 4
    ]] *)
Definition tree : node :=
  OtherNode
    [FunctionDef "b" 1 [OtherNode []];
     ClassDef "A" 3 [FunctionDef "b" 4 [OtherNode []]]].

(** The outline of
    [[
    class A:                # line 1
        class b: ...        # line 2
    ]] *)
Definition class_in_class : node :=
  OtherNode [ClassDef "A" 1 [ClassDef "b" 2 [OtherNode []]]].

(** A node with [k] nodes nested below it, one inside the other (a long
    sum or a deep parenthesis in the source). *)
Fixpoint nested (k : nat) : node :=
  match k with
  | O => OtherNode []
  | S k => OtherNode [nested k]
  end.

(** The class [A] with its method [b], followed by a statement nested 600
    levels deep. *)
Definition deep_tree : node :=
  OtherNode [ClassDef "A" 3 [FunctionDef "b" 4 [OtherNode []]]; nested 600].

Definition after_next : PyDebugger :=
  (PyDebugger.read_line (Named CmdNext) entered).1.
Definition stopped_after_next : PyDebugger :=
  PyDebugger.prepare_prompt
    (PyDebugger.decide_stop after_next (in_work 10 []) Line).1.1.
End Sample.

(** ** Sequences of calls on the registry *)
Module Registry.
Section calls.
Context `{Host}.

(** One call of a method of [_BreakpointManager]. *)
Inductive call :=
| Add (file_abs : string) (lineno : Z) (condition_str : option string)
    (initial_ignore_count : Z)
| Clear (arg : BreakpointManager.clear_arg)
| ClearAll
| Check (file_abs : string) (lineno : Z) (frame_globals frame_locals : Scope)
| SetIgnore (bp_id count : Z).

(** The registry when the call returns (or raises). *)
Definition after_call (m : BreakpointManager) (c : call) : BreakpointManager :=
  match c with
  | Add file_abs lineno condition_str initial_ignore_count =>
      (BreakpointManager.add_breakpoint m file_abs lineno condition_str
         initial_ignore_count).1
  | Clear arg => (BreakpointManager.clear_breakpoint m arg).1
  | ClearAll => BreakpointManager.clear_all_breakpoints m
  | Check file_abs lineno frame_globals frame_locals =>
      (BreakpointManager.check_breakpoint m file_abs lineno frame_globals
         frame_locals).1
  | SetIgnore bp_id count =>
      (BreakpointManager.set_ignore_count m bp_id count).1
  end.

(** The registry after a sequence of calls on a new [_BreakpointManager]. *)
Definition after_calls (calls : list call) : BreakpointManager :=
  fold_left after_call calls BreakpointManager.init.

(** How many of the calls are [add_breakpoint]. *)
Fixpoint additions (calls : list call) : nat :=
  match calls with
  | [] => 0%nat
  | Add _ _ _ _ :: rest => S (additions rest)
  | _ :: rest => additions rest
  end.

(** Every [add_breakpoint] of the sequence, run from [m], is at a location
    that holds no breakpoint at that moment. *)
Fixpoint adds_at_free_locations (m : BreakpointManager) (calls : list call)
  : Prop :=
  match calls with
  | [] => True
  | c :: rest =>
      match c with
      | Add file_abs lineno _ _ =>
          BreakpointManager.at_location m file_abs lineno = None
      | _ => True
      end
      /\ adds_at_free_locations (after_call m c) rest
  end.
End calls.

(** The ids are between 1 and the next id, the references are allocated,
    and every instance is enabled. *)
Definition well_formed (m : BreakpointManager) : Prop :=
  1 <= next_bp_id m
  /\ Forall (fun entry => 1 <= entry.1 < next_bp_id m
                          /\ (entry.2 < length (objects m))%nat)
       (breakpoints_by_id m)
  /\ NoDup (PyDict.keys (breakpoints_by_id m))
  /\ (forall file_abs lineno ref,
        BreakpointManager.at_location m file_abs lineno = Some ref ->
        (ref < length (objects m))%nat)
  /\ Forall (fun bp => enabled bp = true) (objects m).

(** The two indices agree: every id names its own instance, and that
    instance is the one found at its location. *)
Definition consistent (m : BreakpointManager) : Prop :=
  NoDup (map snd (breakpoints_by_id m))
  /\ forall bp_id ref,
      PyDict.get (breakpoints_by_id m) bp_id = Some ref ->
      exists bp,
        objects m !! ref = Some bp
        /\ BreakpointManager.at_location m (file_abs bp) (lineno bp) = Some ref.
End Registry.

(** The rows are in strictly increasing order of id. *)
Fixpoint ascending (rows : list (Z * BreakpointInfo)) : Prop :=
  match rows with
  | [] => True
  | row :: rest => Forall (fun r => row.1 < r.1) rest /\ ascending rest
  end.

(** More concrete data for the worked examples. *)
Module Examples.
Import Sample.

(** Two breakpoints at lines 10 and 12, the first cleared by its id, then
    a hit on line 12. *)
Definition calls : list Registry.call :=
  [Registry.Add file 10 None 0;
   Registry.Add file 12 (Some "x > 3") 0;
   Registry.Clear (BreakpointManager.ById 1);
   Registry.Check file 12 no_names (x_is 5)].

(** A breakpoint at line 10 whose condition names a variable the
    evaluator does not know. *)
Definition with_failing_condition : BreakpointManager :=
  (BreakpointManager.add_breakpoint BreakpointManager.init file 10
     (Some "y > 3") 0).1.

(** The lines of the sample file as [linecache.getline] gives them: twelve
    lines, each ending in a newline; any other line is the empty text. *)
Definition getline (name : string) (n : Z) : string :=
  if (String.eqb name file && (1 <=? n) && (n <=? 12))%bool
  then String.append "pass" (String (ascii_of_nat 10) EmptyString)
  else "".

(** The sample session after a breakpoint was set at line 10 and cleared
    by its id: no breakpoint is left, and the next id is 2. *)
Definition once_cleared : PyDebugger :=
  PyDebugger.set_breakpoint_manager
    (Registry.after_calls
       [Registry.Add file 10 None 0;
        Registry.Clear (BreakpointManager.ById 1)])
    entered.

(** The sample session resumed with [until 12]. *)
Definition running_until_12 : PyDebugger :=
  (PyDebugger.do_rununtil (IntArg 12) entered).1.
End Examples.

(** ** Whole sessions *)

(** A session driven by the host: each event comes with what the operator
    types if the debugger stops on it. *)
Fixpoint run_session `{Host} (dbg : PyDebugger)
  (steps : list (frame * event * list line)) : PyDebugger :=
  match steps with
  | [] => dbg
  | (frm, ev, input) :: rest =>
      run_session (PyDebugger.after (PyDebugger.trace_dispatch dbg frm ev input))
        rest
  end.

(** How many of step-into, step-over, step-out and the [until] target are
    set. *)
Definition active_modes (sm : StateManager) : nat :=
  (Nat.b2n (step_into sm) + Nat.b2n (step_over sm) + Nat.b2n (step_out sm)
   + match run_until_line_info sm with Some _ => 1 | None => 0 end)%nat.

(** The inspection cursor designates a frame of the captured stack. *)
Definition cursor_in_snapshot `{Host} (dbg : PyDebugger) : Prop :=
  0 <= _interaction_stack_idx dbg
     < Z.of_nat (length (_full_stack_at_stop dbg))
  /\ interaction_frame dbg
     = _full_stack_at_stop dbg !! Z.to_nat (_interaction_stack_idx dbg).

(** A sequence of [up] and [down] commands. *)
Definition navigate_all `{Host} (moves : list (direction * int_arg))
  (dbg : PyDebugger) : PyDebugger :=
  fold_left (fun dbg move => (navigate move.1 move.2 dbg).1) moves dbg.

(** The other direction. *)
Definition opposite (dir : direction) : direction :=
  match dir with Up => Down | Down => Up end.

(** ** Resolving locations: the file cache and [parse_location_string] *)

(** What the resolver consumes besides the host: the type of the
    modification times, which the code only compares with [==], and [int]
    on a text ([None] when it raises [ValueError]). *)
Class Runtime := {
  Mtime : Type;
  Mtime_eq_dec :: EqDecision Mtime;
  int_of : string -> option Z
}.

(** The files at the moment of a call: [os.path.getmtime] ([None] when it
    raises) and the tree that opening, reading and [ast.parse] give ([None]
    when one of them raises). *)
Record Disk `{Runtime} := {
  getmtime : string -> option Mtime;
  read_and_parse : string -> option node
}.

Module Locations.
Section resolver.
Context `{Host} `{Runtime}.

(** [_BreakpointManager._load_ast_with_cache] on the dictionary
    [self.ast_cache]: the cache afterwards and the tree returned ([None]
    for Python's [None], which every exception inside is turned into). *)
Definition _load_ast_with_cache (disk : Disk)
  (ast_cache : gmap string (Mtime * node)) (filename_abs : string)
  : gmap string (Mtime * node) * option node :=
  match getmtime disk filename_abs with
  | None => (ast_cache, None)
  | Some mtime =>
      match ast_cache !! filename_abs with
      | Some (cached_mtime, cached_tree) =>
          if decide (mtime = cached_mtime) then (ast_cache, Some cached_tree)
          else
            match read_and_parse disk filename_abs with
            | Some tree =>
                (<[filename_abs := (mtime, tree)]> ast_cache, Some tree)
            | None => (ast_cache, None)
            end
      | None =>
          match read_and_parse disk filename_abs with
          | Some tree =>
              (<[filename_abs := (mtime, tree)]> ast_cache, Some tree)
          | None => (ast_cache, None)
          end
      end
  end.

(** [s.rsplit(sep, 1)] when [sep in s]: the text before the last [sep] and
    the text after it; [None] when [sep] does not occur. *)
Fixpoint rsplit_once (sep : ascii) (s : string) : option (string * string) :=
  match s with
  | EmptyString => None
  | String c rest =>
      match rsplit_once sep rest with
      | Some (before, after) => Some (String c before, after)
      | None => if Ascii.eqb c sep then Some (EmptyString, rest) else None
      end
  end.

(** [_BreakpointManager.parse_location_string]: the cache afterwards and
    the pair returned, [None] standing for [(None, None)].  [frames] is the
    number of frames left where the finder is started. *)
Definition parse_location_string (frames : nat) (disk : Disk)
  (ast_cache : gmap string (Mtime * node)) (loc_str : string)
  (current_file_for_context : string)
  : gmap string (Mtime * node) * result (option (string * Z)) :=
  let '(file_part_str, loc_part_str) :=
    match rsplit_once ":" loc_str with
    | Some parts => parts
    | None => (current_file_for_context, loc_str)
    end in
  let abs_file_path := abspath file_part_str in
  match int_of loc_part_str with
  | Some n => (ast_cache, Ok (Some (abs_file_path, n)))
  | None =>
      let '(ast_cache, tree) :=
        _load_ast_with_cache disk ast_cache abs_file_path in
      match FunctionFinder._find_func_lineno_using_ast frames tree
              loc_part_str with
      | Ok lineno =>
          (ast_cache,
           Ok (if truthy_opt_int lineno
               then match lineno with
                    | Some n => Some (abs_file_path, n)
                    | None => None
                    end
               else None))
      | Raise e => (ast_cache, Raise e)
      end
  end.

(** [str.lower] on the letters of ASCII. *)
Definition lower_char (c : ascii) : ascii :=
  let n := nat_of_ascii c in
  if (Nat.leb 65 n && Nat.leb n 90)%bool then ascii_of_nat (n + 32) else c.

Fixpoint lower (s : string) : string :=
  match s with
  | EmptyString => EmptyString
  | String c rest => String (lower_char c) (lower rest)
  end.

(** [PyDebugger.do_break] with [arg.split(" if ", 1)] already done: [loc]
    is the first part and [cond] the second, if there is one (so the
    argument is empty exactly when [loc] is empty and there is no [cond]).
    [own_file] is [__file__], [frames] the number of frames left where the
    finder is started.  Gives the cache and, unless the resolver raises,
    the session and the listing that [do_info("breakpoints")] prints
    ([None] when the command returns before it). *)
Definition do_break (own_file : string) (frames : nat) (disk : Disk)
  (ast_cache : gmap string (Mtime * node)) (loc : string)
  (cond : option string) (dbg : PyDebugger)
  : gmap string (Mtime * node)
    * result (PyDebugger * option (list (Z * BreakpointInfo))) :=
  if negb (truthy_str loc) && negb (bool_decide (is_Some cond))
  then (ast_cache, Ok (dbg, None))
  else
    let ctx_file :=
      match interaction_frame dbg with
      | Some frm => co_filename frm
      | None => own_file
      end in
    match parse_location_string frames disk ast_cache loc ctx_file with
    | (ast_cache, Ok parsed) =>
        let m :=
          match parsed with
          | Some (file_abs, line_no) =>
              if truthy_str file_abs && truthy_int line_no
              then (BreakpointManager.add_breakpoint (breakpoint_manager dbg)
                      file_abs line_no cond 0).1
              else breakpoint_manager dbg
          | None => breakpoint_manager dbg
          end in
        (ast_cache,
         Ok (PyDebugger.set_breakpoint_manager m dbg,
             Some (BreakpointManager.list_breakpoints m)))
    | (ast_cache, Raise e) => (ast_cache, Raise e)
    end.

(** [PyDebugger.do_clear].  The first attempt is
    [clear_breakpoint(int(arg), None)]; only the [ValueError] of [int]
    leads to the second, by location.  An exception of [clear_breakpoint]
    or of the resolver escapes. *)
Definition do_clear (own_file : string) (frames : nat) (disk : Disk)
  (ast_cache : gmap string (Mtime * node)) (arg : string) (dbg : PyDebugger)
  : gmap string (Mtime * node)
    * result (PyDebugger * option (list (Z * BreakpointInfo))) :=
  if negb (truthy_str arg) then (ast_cache, Ok (dbg, None))
  else if String.eqb (lower arg) "all" then
    (ast_cache,
     Ok (PyDebugger.set_breakpoint_manager
           (BreakpointManager.clear_all_breakpoints (breakpoint_manager dbg))
           dbg, None))
  else
    match int_of arg with
    | Some bp_id =>
        match BreakpointManager.clear_breakpoint (breakpoint_manager dbg)
                (BreakpointManager.ById bp_id) with
        | (m, Ok _) =>
            (ast_cache,
             Ok (PyDebugger.set_breakpoint_manager m dbg,
                 Some (BreakpointManager.list_breakpoints m)))
        | (m, Raise e) => (ast_cache, Raise e)
        end
    | None =>
        let ctx_file :=
          match interaction_frame dbg with
          | Some frm => co_filename frm
          | None => own_file
          end in
        match parse_location_string frames disk ast_cache arg ctx_file with
        | (ast_cache, Ok parsed) =>
            match BreakpointManager.clear_breakpoint (breakpoint_manager dbg)
                    (BreakpointManager.ByLocation parsed) with
            | (m, Ok _) =>
                (ast_cache,
                 Ok (PyDebugger.set_breakpoint_manager m dbg,
                     Some (BreakpointManager.list_breakpoints m)))
            | (m, Raise e) => (ast_cache, Raise e)
            end
        | (ast_cache, Raise e) => (ast_cache, Raise e)
        end
    end.
End resolver.
End Locations.

(** ** The watch list *)
Module WatchList.
Section watch.
Context `{Runtime}.

(** [list.remove(x)]: drops the first occurrence. *)
Fixpoint remove_first (x : string) (l : list string) : list string :=
  match l with
  | [] => []
  | y :: rest => if String.eqb y x then rest else y :: remove_first x rest
  end.

(** [PyDebugger.do_watch_expr] on [self.watched_expressions]. *)
Definition do_watch_expr (arg : string) (watched : list string)
  : list string :=
  if negb (truthy_str arg) then watched
  else if bool_decide (arg ∈ watched) then watched
  else (watched ++ [arg])%list.

(** [PyDebugger.do_unwatch_expr] on [self.watched_expressions]: by
    position when [int(arg)] succeeds, by text otherwise. *)
Definition do_unwatch_expr (arg : string) (watched : list string)
  : list string :=
  if negb (truthy_str arg) then watched
  else
    match int_of arg with
    | Some idx =>
        if (0 <=? idx) && (idx <? Z.of_nat (length watched))
        then delete (Z.to_nat idx) watched
        else watched
    | None =>
        if bool_decide (arg ∈ watched) then remove_first arg watched
        else watched
    end.

Inductive call := Watch (arg : string) | Unwatch (arg : string).

Definition after_call (watched : list string) (c : call) : list string :=
  match c with
  | Watch arg => do_watch_expr arg watched
  | Unwatch arg => do_unwatch_expr arg watched
  end.

(** The watch list of a new session after a sequence of commands. *)
Definition after_calls (calls : list call) : list string :=
  fold_left after_call calls [].
End watch.
End WatchList.

(** ** The source window of [print_current_location] *)
Module SourceView.
Section view.
Context `{Host}.

(** [linecache.getline]. *)
Variable getline : string -> Z -> string.

(** [s.rstrip("\n")] *)
Fixpoint rstrip_newlines (s : string) : string :=
  match s with
  | EmptyString => EmptyString
  | String c rest =>
      match rstrip_newlines rest with
      | EmptyString =>
          if Ascii.eqb c "010" then EmptyString else String c EmptyString
      | kept => String c kept
      end
  end.

(** One printed line of source: whether it carries the arrow, its number,
    whether it is coloured as the current line, and its text. *)
Record row := {
  marked : bool;
  number : Z;
  highlighted : bool;
  text : string
}.

(** [range(sline, eline + 1)] for the line [ln]. *)
Definition window (ln : Z) : list Z :=
  let ctx := 5 in
  let sline := Z.max 1 (ln - ctx / 2) in
  let eline := sline + ctx - 1 in
  map (fun k => sline + Z.of_nat k) (seq 0 (Z.to_nat (eline + 1 - sline))).

(** The source lines that [PyDebugger.print_current_location] prints for a
    frame. *)
Definition source_rows (dbg : PyDebugger) (frm : frame) : list row :=
  omap (fun i =>
          let txt := rstrip_newlines (getline (co_filename frm) i) in
          if truthy_str txt then
            Some {| marked :=
                      (i =? f_lineno frm)
                      && match execution_frame dbg with
                         | Some ef => PyDebugger.same_frame frm ef
                         | None => false
                         end;
                    number := i;
                    highlighted := i =? f_lineno frm;
                    text := txt |}
          else None)
    (window (f_lineno frm)).
End view.
End SourceView.

(** A concrete runtime and disk for the worked examples: times are
    integers, [int] reads a non-empty run of decimal digits, and the only
    file is the sample file, whose outline is the sample tree. *)
Module SampleFiles.
Import Sample.

Fixpoint digits (s : string) (acc : Z) : option Z :=
  match s with
  | EmptyString => Some acc
  | String c rest =>
      let n := nat_of_ascii c in
      if (Nat.leb 48 n && Nat.leb n 57)%bool
      then digits rest (10 * acc + Z.of_nat (n - 48))
      else None
  end.

Definition decimal (s : string) : option Z :=
  match s with
  | EmptyString => None
  | _ => digits s 0
  end.

#[export] Instance runtime : Runtime :=
  {| Mtime := Z; int_of := decimal |}.

Definition disk (mtime : Z) (outline : option node) : Disk :=
  {| getmtime := fun name => if String.eqb name file then Some mtime else None;
     read_and_parse := fun name => if String.eqb name file then outline else None |}.
End SampleFiles.

(** * Properties *)

(** ** The stepping state across one event *)
Section stepping_facts.
Context `{Host}.
Import PyDebugger.

Ltac break_decision :=
  repeat match goal with
         | |- context [match ?x with _ => _ end] => destruct x eqn:?; simpl
         | |- context [if ?b then _ else _] => destruct b eqn:?; simpl
         end.

(** The dispatcher reads the request flag once and leaves it cleared. *)
Lemma stepping_decision_consumes_request sm ev file frm depth :
  request_stop_at_next_suitable_event
    (stepping_decision sm ev file frm depth).1.1 = false.
Proof. unfold stepping_decision. destruct ev; break_decision; reflexivity. Qed.

(** It never touches the three stepping flags. *)
Lemma stepping_decision_keeps_flags sm ev file frm depth :
  let sm' := (stepping_decision sm ev file frm depth).1.1 in
  step_into sm' = step_into sm /\ step_over sm' = step_over sm
  /\ step_out sm' = step_out sm.
Proof. unfold stepping_decision. destruct ev; break_decision; auto. Qed.

(** A pending request decides every event but [call]: the event stops,
    whatever the stepping mode and the depth. *)
Lemma pending_request_stops sm ev file frm depth :
  request_stop_at_next_suitable_event sm = true -> ev <> Call ->
  (stepping_decision sm ev file frm depth).1.2 = true.
Proof.
  intros Hreq Hev. unfold stepping_decision. rewrite Hreq.
  destruct ev; try congruence; break_decision; reflexivity.
Qed.

(** With no request pending, the stepping modes alone decide. *)
Lemma stepping_decision_without_request sm ev file frm depth :
  request_stop_at_next_suitable_event sm = false ->
  (stepping_decision sm ev file frm depth).1.2 =
    match ev with
    | Call => step_into sm
    | Line =>
        match run_until_line_info sm with
        | Some (r_file, r_ln) =>
            String.eqb file r_file && (f_lineno frm =? r_ln)
        | None =>
            step_into sm
            || step_over sm && (depth <=? step_over_target_depth sm)
            || step_out sm && (depth <=? step_out_target_depth sm)
        end
    | Return => false
    | Exception => true
    end.
Proof.
  intros Hreq. unfold stepping_decision. rewrite Hreq.
  destruct ev; simpl; break_decision; reflexivity.
Qed.

Lemma decide_stop_state_manager dbg frm ev :
  state_manager (decide_stop dbg frm ev).1.1
  = (stepping_decision (state_manager dbg) ev (abspath (co_filename frm))
       frm (_get_frame_depth (Some frm))).1.1.
Proof.
  unfold decide_stop. simpl.
  destruct (stepping_decision _ _ _ _ _) as [[sm stop] r]. simpl.
  destruct stop; [reflexivity|].
  destruct (BreakpointManager.check_breakpoint _ _ _ _ _) as [m [ref|]];
    reflexivity.
Qed.

Lemma capture_keeps_state_manager frm dbg :
  state_manager (_capture_full_stack frm dbg) = state_manager dbg.
Proof.
  unfold _capture_full_stack. simpl.
  destruct (match execution_frame dbg with
            | Some ef => _ | None => None end); [reflexivity|].
  destruct (match frm with Some f => caller_chain f | None => [] end);
    reflexivity.
Qed.


Lemma prepare_prompt_keeps_request dbg :
  request_stop_at_next_suitable_event (state_manager (prepare_prompt dbg))
  = request_stop_at_next_suitable_event (state_manager dbg).
Proof.
  unfold prepare_prompt. simpl. rewrite !capture_keeps_state_manager.
  destruct (_ || _ || _); simpl; rewrite ?capture_keeps_state_manager;
    reflexivity.
Qed.

(** A command that does not end the command loop leaves the stepping
    state as it was. *)
Lemma onecmd_stays_keeps_state_manager c dbg :
  (onecmd c dbg).2 = false ->
  state_manager (onecmd c dbg).1 = state_manager dbg.
Proof.
  destruct c; simpl; try discriminate.
  - unfold do_finish. break_decision; try discriminate; reflexivity.
  - unfold do_rununtil. break_decision; try discriminate; reflexivity.
  - intros _. unfold do_up_stack, move_inspection.
    break_decision; reflexivity.
  - intros _. unfold do_down_stack, move_inspection.
    break_decision; reflexivity.
Qed.

(** The remembered line plays no part in what a command does. *)
Lemma onecmd_after_precmd c l dbg :
  state_manager (onecmd c (precmd l dbg)).1 = state_manager (onecmd c dbg).1
  /\ (onecmd c (precmd l dbg)).2 = (onecmd c dbg).2.
Proof.
  assert (Hset : forall l', state_manager (onecmd c (set_last_non_empty_cmd l' dbg)).1
                            = state_manager (onecmd c dbg).1
                            /\ (onecmd c (set_last_non_empty_cmd l' dbg)).2
                               = (onecmd c dbg).2).
  { intros l'. destruct c; simpl; auto.
    - unfold do_finish. simpl. break_decision; auto.
    - unfold do_rununtil. simpl. break_decision; auto.
    - unfold do_up_stack, move_inspection. simpl. break_decision; auto.
    - unfold do_down_stack, move_inspection. simpl. break_decision; auto. }
  destruct l; simpl; auto.
Qed.

(** A line runs the method of at most one command: the state and the
    value of [read_line] are those of that method, except that the value
    of a repeated command is dropped. *)
Lemma read_line_runs l dbg :
  match command_run l dbg with
  | Some c =>
      state_manager (read_line l dbg).1 = state_manager (onecmd c dbg).1
      /\ (read_line l dbg).2
         = match l with Blank => false | _ => (onecmd c dbg).2 end
  | None =>
      state_manager (read_line l dbg).1 = state_manager dbg
      /\ (read_line l dbg).2 = false
  end.
Proof.
  destruct l as [|c|c|]; unfold read_line, command_run.
  - simpl precmd. unfold emptyline.
    destruct (last_non_empty_cmd dbg); simpl; auto.
  - apply (onecmd_after_precmd c (Named c) dbg).
  - apply (onecmd_after_precmd c (Aliased c) dbg).
  - simpl. auto.
Qed.

End stepping_facts.

(** ** Stops, prompts and resume commands *)
Section prompt_claims.
Context `{Host}.
Import PyDebugger.


(** C4 (as amended).  The request flag is set when the session is
    constructed, and the dispatcher clears it on every event that a live
    session handles: it is false after an event that passes and false when
    the command loop is entered at a stop.  In the command loop [continue]
    clears it, [next] and [step] set it, [finish] and [until <line>] set it
    when they are accepted, and every other line leaves it as it is; an
    empty line that repeats a command written by name does to the flag what
    the command does, and does not end the loop. *)
Theorem request_flag_after_resume
  (dbg : PyDebugger) (frm : frame) (ev : event) (input : list line) :
  quit_debugger dbg = false ->
  (forall entry, request_pending (init entry) = true)
  /\ (stopped (trace_dispatch dbg frm ev input) = false ->
      request_pending (after (trace_dispatch dbg frm ev input)) = false)
  /\ (forall prompt,
        at_prompt (trace_dispatch dbg frm ev input) = Some prompt ->
        request_pending prompt = false)
  /\ (forall l p,
        request_pending (read_line l p).1
        = match command_run l p with
          | Some CmdContinue => false
          | Some CmdNext => true
          | Some CmdStep => true
          | Some CmdFinish => (onecmd CmdFinish p).2 || request_pending p
          | Some (CmdRunUntil arg) =>
              (onecmd (CmdRunUntil arg) p).2 || request_pending p
          | _ => request_pending p
          end)
  /\ (forall c p,
        last_non_empty_cmd p = Named c ->
        read_line Blank p = ((onecmd c p).1, false)).
Proof.
  intros Hq. split.
  { intros entry. unfold request_pending, init.
    rewrite capture_keeps_state_manager. reflexivity. }
  assert (Hdecided : request_pending (decide_stop dbg frm ev).1.1 = false).
  { unfold request_pending. rewrite decide_stop_state_manager.
    apply stepping_decision_consumes_request. }
  split; [|split; [|split]].
  - unfold trace_dispatch. rewrite Hq.
    destruct (decide_stop dbg frm ev) as [[dbg' stop] r].
    destruct stop; [discriminate|]. intros _. exact Hdecided.
  - unfold trace_dispatch. rewrite Hq.
    destruct (decide_stop dbg frm ev) as [[dbg' stop] r].
    destruct stop; [|discriminate]. simpl. intros prompt [= <-].
    unfold request_pending in *. rewrite prepare_prompt_keeps_request.
    exact Hdecided.
  - intros l p. pose proof (read_line_runs l p) as Hrun.
    unfold request_pending.
    destruct (command_run l p) as [c|]; destruct Hrun as [-> _];
      [|reflexivity].
    destruct c; simpl; try reflexivity.
    + unfold do_finish. destruct (execution_frame p) as [ef|];
        [|reflexivity]. destruct (f_back ef); reflexivity.
    + unfold do_rununtil. destruct arg; try reflexivity.
      destruct (execution_frame p); reflexivity.
    + unfold do_up_stack, move_inspection.
      repeat match goal with
             | |- context [match ?x with _ => _ end] => destruct x; simpl
             | |- context [if ?b then _ else _] => destruct b; simpl
             end; reflexivity.
    + unfold do_down_stack, move_inspection.
      repeat match goal with
             | |- context [match ?x with _ => _ end] => destruct x; simpl
             | |- context [if ?b then _ else _] => destruct b; simpl
             end; reflexivity.
  - intros c p Hlast. unfold read_line, emptyline. simpl. rewrite Hlast.
    destruct (onecmd c p); reflexivity.
Qed.

(** C9.  A move of the inspection cursor, up or down and by any count,
    that asks for a position outside [0, len) of the captured stack is
    refused with a message and changes nothing: the cursor (index and
    frame) and the rest of the session are as before, so repeating the
    move gives the same refusal and the same state. *)
Theorem out_of_bounds_move_is_refused
  (dir : direction) (arg_str : int_arg) (c : Z) (dbg : PyDebugger) :
  count_of arg_str = Some c ->
  ~ (0 <= requested_index dir c dbg
     < Z.of_nat (length (_full_stack_at_stop dbg))) ->
  navigate dir arg_str dbg = (dbg, Text (refusal dir dbg))
  /\ navigate dir arg_str (navigate dir arg_str dbg).1
     = navigate dir arg_str dbg.
Proof.
  intros Hc Hout.
  assert (Hnav : navigate dir arg_str dbg = (dbg, Text (refusal dir dbg))).
  { unfold navigate, refusal, requested_index in *.
    destruct dir; unfold do_up_stack, do_down_stack, move_inspection;
      destruct (_full_stack_at_stop dbg) as [|f stack] eqn:Hstack;
      try reflexivity;
      destruct arg_str; simpl in Hc; inversion Hc; subst;
      match goal with
      | |- context [(0 <=? ?n) && (?n <? ?m)] =>
          destruct (Z.leb_spec 0 n); destruct (Z.ltb_spec n m); simpl;
            try reflexivity; exfalso; apply Hout; lia
      end. }
  split; [assumption|]. rewrite Hnav. simpl. assumption.
Qed.
End prompt_claims.

(** ** Hits on a breakpoint *)
Section breakpoint_facts.
Context `{Host}.
Import BreakpointManager.

Lemma absorbed_zero bp : absorbed 0 bp = bp.
Proof.
  destruct bp. unfold absorbed, BreakpointInfo.set_ignore_left,
    BreakpointInfo.set_hit_count. simpl. f_equal; lia.
Qed.

Lemma absorbed_more j k bp : absorbed j (absorbed k bp) = absorbed (k + j) bp.
Proof.
  unfold absorbed, BreakpointInfo.set_ignore_left,
    BreakpointInfo.set_hit_count. simpl. f_equal; lia.
Qed.

Lemma should_stop_ignored bp g l :
  enabled bp = true -> 0 < current_ignore_left bp ->
  BreakpointInfo.should_stop bp g l = (false, absorbed 1 bp).
Proof.
  intros He Hi. unfold BreakpointInfo.should_stop. rewrite He. simpl.
  destruct (Z.gtb_spec (current_ignore_left bp) 0); [|lia]. reflexivity.
Qed.

Lemma should_stop_spent bp g l :
  enabled bp = true -> current_ignore_left bp <= 0 ->
  BreakpointInfo.should_stop bp g l
  = (condition_answer bp g l,
     BreakpointInfo.set_hit_count (hit_count bp + 1) bp).
Proof.
  intros He Hi. unfold BreakpointInfo.should_stop, condition_answer.
  rewrite He. simpl.
  destruct (Z.gtb_spec (current_ignore_left bp) 0); [lia|].
  destruct (condition_str bp) as [c|]; [|reflexivity].
  destruct (truthy_str c); [|reflexivity].
  destruct (eval_bool c g l); reflexivity.
Qed.

Lemma should_stop_counts bp g l :
  enabled bp = true ->
  hit_count (BreakpointInfo.should_stop bp g l).2 = hit_count bp + 1.
Proof.
  intros He.
  destruct (Z.lt_ge_cases 0 (current_ignore_left bp)).
  - rewrite should_stop_ignored by assumption. reflexivity.
  - rewrite should_stop_spent by (assumption || lia). reflexivity.
Qed.

(** A hit on a location that holds a breakpoint: the instance is replaced
    in the store by what [should_stop] leaves, nothing else moves. *)
Lemma check_breakpoint_present m file line ref bp g l :
  at_location m file line = Some ref -> objects m !! ref = Some bp ->
  check_breakpoint m file line g l
  = (set_objects (<[ref := (BreakpointInfo.should_stop bp g l).2]> (objects m)) m,
     if (BreakpointInfo.should_stop bp g l).1 then Some ref else None).
Proof.
  intros Hat Hobj. unfold check_breakpoint. rewrite Hat, Hobj.
  destruct (BreakpointInfo.should_stop bp g l). reflexivity.
Qed.

Lemma lookup_after_store (objs : list BreakpointInfo) ref bp bp' :
  objs !! ref = Some bp -> <[ref := bp']> objs !! ref = Some bp'.
Proof.
  intros Hobj. apply list_lookup_insert_eq. eapply lookup_lt_Some, Hobj.
Qed.

(** Hits within the budget all answer [None] and are absorbed. *)
Lemma hits_within_budget file line ref scopes : forall m bp,
  at_location m file line = Some ref -> objects m !! ref = Some bp ->
  enabled bp = true ->
  Z.of_nat (length scopes) <= current_ignore_left bp ->
  (successive_hits m file line scopes).2 = replicate (length scopes) None
  /\ at_location (successive_hits m file line scopes).1 file line = Some ref
  /\ objects (successive_hits m file line scopes).1 !! ref
     = Some (absorbed (Z.of_nat (length scopes)) bp).
Proof.
  induction scopes as [|[g l] rest IH]; intros m bp Hat Hobj He Hlen.
  - simpl. rewrite absorbed_zero. auto.
  - simpl in Hlen. simpl successive_hits.
    rewrite (check_breakpoint_present m file line ref bp g l Hat Hobj).
    rewrite should_stop_ignored by (assumption || lia). simpl.
    specialize (IH (set_objects (<[ref := absorbed 1 bp]> (objects m)) m)
                   (absorbed 1 bp)).
    destruct IH as (Hans & Hat' & Hobj').
    + assumption.
    + simpl. eapply lookup_after_store, Hobj.
    + assumption.
    + simpl. lia.
    + destruct (successive_hits _ file line rest) as [m' answers].
      simpl in *. rewrite Hans, Hat', Hobj', absorbed_more.
      repeat split. do 2 f_equal. lia.
Qed.

Lemma at_location_added m file line c i :
  at_location (add_breakpoint m file line c i).1 file line
  = Some (length (objects m)).
Proof.
  unfold at_location, add_breakpoint. simpl.
  rewrite lookup_insert_eq. apply lookup_insert_eq.
Qed.

Lemma objects_added m file line c i :
  objects (add_breakpoint m file line c i).1 !! length (objects m)
  = Some (BreakpointInfo.init line file c i).
Proof.
  unfold add_breakpoint. simpl.
  rewrite lookup_app_r by lia. replace (_ - _)%nat with 0%nat by lia.
  reflexivity.
Qed.
End breakpoint_facts.

Section breakpoint_claims.
Context `{Host}.
Import BreakpointManager PyDebugger.
Local Arguments stepping_decision : simpl never.
Local Arguments check_breakpoint : simpl never.

(** C5.  An enabled breakpoint with ignore budget N > 0: its first N
    hits all answer [None] (no stop), each of them takes one from the
    remaining budget and adds one to the counter, and the hit after them
    is the one that is decided by the condition: it stops when there is no
    condition or the condition holds. *)
Theorem ignore_budget_skips_first_hits
  (m : BreakpointManager) (file : string) (line : Z) (ref : nat)
  (bp : BreakpointInfo) (N : Z) (scopes : list (Scope * Scope))
  (g l : Scope) :
  at_location m file line = Some ref -> objects m !! ref = Some bp ->
  enabled bp = true -> current_ignore_left bp = N -> 0 < N ->
  Z.of_nat (length scopes) = N ->
  (successive_hits m file line scopes).2 = replicate (length scopes) None
  /\ (forall k, (k <= length scopes)%nat ->
        objects (successive_hits m file line (take k scopes)).1 !! ref
        = Some (absorbed (Z.of_nat k) bp))
  /\ let m' := (successive_hits m file line scopes).1 in
     check_breakpoint m' file line g l
     = (set_objects
          (<[ref := BreakpointInfo.set_hit_count (hit_count bp + N + 1)
                      (absorbed N bp)]> (objects m')) m',
        if condition_answer bp g l then Some ref else None).
Proof.
  intros Hat Hobj He HN Hpos Hlen.
  destruct (hits_within_budget file line ref scopes m bp Hat Hobj He)
    as (Hans & Hat' & Hobj'); [lia|].
  split; [assumption|]. split.
  - intros k Hk.
    destruct (hits_within_budget file line ref (take k scopes) m bp
                Hat Hobj He) as (_ & _ & Hobjk).
    + rewrite length_take. lia.
    + rewrite Hobjk, length_take. do 2 f_equal. lia.
  - intros m'. subst m'.
    rewrite (check_breakpoint_present _ file line ref _ g l Hat' Hobj').
    rewrite Hlen.
    rewrite should_stop_spent by (simpl; (assumption || lia)).
    simpl. reflexivity.
Qed.

Lemma running_line_defers_to_breakpoints sm file frm depth :
  running sm ->
  let '(sm', stop_now, _) := stepping_decision sm Line file frm depth in
  running sm' /\ stop_now = false.
Proof.
  intros (Hr & Hi & Ho & Hu & Hl). unfold stepping_decision.
  rewrite Hr. simpl. rewrite Hl, Hi, Ho, Hu. simpl.
  unfold running. simpl. repeat split; assumption.
Qed.

Lemma prepare_prompt_keeps_breakpoints dbg :
  breakpoint_manager (prepare_prompt dbg) = breakpoint_manager dbg.
Proof.
  assert (Hcap : forall frm d,
             breakpoint_manager (_capture_full_stack frm d)
             = breakpoint_manager d).
  { intros frm d. unfold _capture_full_stack. simpl.
    destruct (match execution_frame d with
              | Some ef => _ | None => None end); [reflexivity|].
    destruct (match frm with Some f => caller_chain f | None => [] end);
      reflexivity. }
  unfold prepare_prompt. simpl.
  destruct (_ || _ || _); simpl; apply Hcap.
Qed.

(** A [line] event in a running session is decided by the breakpoint at
    its location alone. *)
Lemma running_line_event dbg frm input :
  quit_debugger dbg = false -> running (state_manager dbg) ->
  let hit :=
    check_breakpoint (breakpoint_manager dbg) (abspath (co_filename frm))
      (f_lineno frm) (f_globals frm) (f_locals frm) in
  let d := trace_dispatch dbg frm Line input in
  stopped d = bool_decide (is_Some hit.2)
  /\ (hit.2 = None ->
      quit_debugger (after d) = false /\ running (state_manager (after d))
      /\ breakpoint_manager (after d) = hit.1)
  /\ (forall ref, hit.2 = Some ref ->
      label d = Some (BP (id_of_object (breakpoints_by_id hit.1) ref))
      /\ exists prompt, at_prompt d = Some prompt
                        /\ breakpoint_manager prompt = hit.1).
Proof.
  intros Hq Hrun. simpl. unfold trace_dispatch, decide_stop. rewrite Hq.
  simpl.
  pose proof (running_line_defers_to_breakpoints (state_manager dbg)
                (abspath (co_filename frm)) frm
                (_get_frame_depth (Some frm)) Hrun) as Hdec.
  destruct (stepping_decision _ _ _ _ _) as [[sm' stop] r].
  destruct Hdec as [Hrun' ->]. simpl.
  destruct (check_breakpoint _ _ _ _ _) as [m' [ref|]]; simpl.
  - split; [reflexivity|]. split; [discriminate|].
    intros ref' [= <-]. split; [reflexivity|].
    eexists. split; [reflexivity|].
    rewrite prepare_prompt_keeps_breakpoints. reflexivity.
  - split; [reflexivity|]. split; [|discriminate].
    intros _. auto.
Qed.

(** C6.  A hit on a present, enabled breakpoint adds one to its hit
    counter whether or not it stops.  In a running session with one
    breakpoint at line 10, condition ["x > 3"] and ignore count 0, a first
    arrival at line 10 where the condition is false does not stop, a
    second one where it is true stops at that breakpoint, and the listing
    then shows 2 hits. *)
Theorem hit_counter_counts_every_hit
  (dbg0 : PyDebugger) (file : string) (frm2 frm5 : frame)
  (input1 input2 : list line) :
  quit_debugger dbg0 = false ->
  breakpoint_manager dbg0
  = (add_breakpoint BreakpointManager.init file 10 (Some "x > 3") 0).1 ->
  abspath (co_filename frm2) = file -> f_lineno frm2 = 10 ->
  abspath (co_filename frm5) = file -> f_lineno frm5 = 10 ->
  eval_bool "x > 3" (f_globals frm2) (f_locals frm2) = Some false ->
  eval_bool "x > 3" (f_globals frm5) (f_locals frm5) = Some true ->
  let d1 := trace_dispatch (do_continue dbg0).1 frm2 Line input1 in
  let d2 := trace_dispatch (after d1) frm5 Line input2 in
  (stopped d1 = false /\ stopped d2 = true
   /\ label d2 = Some (BP (Some 1))
   /\ exists prompt,
       at_prompt d2 = Some prompt
       /\ list_breakpoints (breakpoint_manager prompt)
          = [(1, BreakpointInfo.set_hit_count 2
                   (BreakpointInfo.init 10 file (Some "x > 3") 0))])
  /\ (forall m f line ref bp g l,
        at_location m f line = Some ref -> objects m !! ref = Some bp ->
        enabled bp = true ->
        exists bp',
          objects (check_breakpoint m f line g l).1 !! ref = Some bp'
          /\ hit_count bp' = hit_count bp + 1).
Proof.
  intros Hq Hbm Hf2 Hl2 Hf5 Hl5 He2 He5 d1 d2. split.
  - set (m1 := (add_breakpoint BreakpointManager.init file 10
                  (Some "x > 3") 0).1) in *.
    set (bp0 := BreakpointInfo.init 10 file (Some "x > 3") 0).
    assert (Hhit1 : check_breakpoint m1 file 10 (f_globals frm2) (f_locals frm2)
                    = (set_objects [BreakpointInfo.set_hit_count 1 bp0] m1, None)).
    { rewrite (check_breakpoint_present m1 file 10 0%nat bp0);
        [|exact (at_location_added BreakpointManager.init file 10 _ _)
         |exact (objects_added BreakpointManager.init file 10 _ _)].
      rewrite should_stop_spent by (reflexivity || (simpl; lia)).
      unfold condition_answer. simpl. rewrite He2. reflexivity. }
    assert (Hhit2 : check_breakpoint
                      (set_objects [BreakpointInfo.set_hit_count 1 bp0] m1)
                      file 10 (f_globals frm5) (f_locals frm5)
                    = (set_objects [BreakpointInfo.set_hit_count 2 bp0] m1,
                       Some 0%nat)).
    { rewrite (check_breakpoint_present _ file 10 0%nat
                 (BreakpointInfo.set_hit_count 1 bp0));
        [|exact (at_location_added BreakpointManager.init file 10 _ _)
         |reflexivity].
      rewrite should_stop_spent by (reflexivity || (simpl; lia)).
      unfold condition_answer. simpl. rewrite He5. reflexivity. }
    assert (Hq0 : quit_debugger (do_continue dbg0).1 = false) by exact Hq.
    assert (Hrun0 : running (state_manager (do_continue dbg0).1))
      by (unfold running; simpl; auto).
    assert (Hbm0 : breakpoint_manager (do_continue dbg0).1 = m1)
      by exact Hbm.
    subst d2 d1.
    generalize dependent (do_continue dbg0).1. intros dbg1 Hq0 Hrun0 Hbm0.
    destruct (running_line_event dbg1 frm2 input1 Hq0 Hrun0)
      as (Hs1 & Hgo & _).
    rewrite Hbm0, Hf2, Hl2, Hhit1 in Hs1, Hgo.
    destruct (Hgo eq_refl) as (Hq1 & Hrun1 & Hbm1).
    destruct (running_line_event _ frm5 input2 Hq1 Hrun1)
      as (Hs2 & _ & Hstop).
    rewrite Hbm1, Hf5, Hl5 in Hs2, Hstop. simpl in Hs2, Hstop.
    rewrite Hhit2 in Hs2, Hstop.
    destruct (Hstop 0%nat eq_refl) as (Hlabel & prompt & Hprompt & Hpbm).
    split; [exact Hs1|]. split; [exact Hs2|]. split; [exact Hlabel|].
    exists prompt. split; [exact Hprompt|]. rewrite Hpbm. reflexivity.
  - intros m f line ref bp g l Hat Hobj He.
    rewrite (check_breakpoint_present m f line ref bp g l Hat Hobj). simpl.
    eexists. split; [eapply lookup_after_store, Hobj|].
    apply should_stop_counts, He.
Qed.
End breakpoint_claims.

(** ** The symbolic location finder *)
Section finder_facts.
Import FunctionFinder Spec.

Lemma node_children_ind (P : node -> Prop) :
  (forall name l ch, Forall P ch -> P (FunctionDef name l ch)) ->
  (forall name l ch, Forall P ch -> P (AsyncFunctionDef name l ch)) ->
  (forall name l ch, Forall P ch -> P (ClassDef name l ch)) ->
  (forall ch, Forall P ch -> P (OtherNode ch)) ->
  forall n, P n.
Proof.
  intros HF HA HC HO. fix IH 1.
  intros [name l ch|name l ch|name l ch|ch];
    [apply HF|apply HA|apply HC|apply HO];
    induction ch as [|c r IHr]; constructor; solve [apply IH | apply IHr].
Qed.

Lemma visit_each_raised (v : node -> FunctionFinder -> result FunctionFinder)
  ch e :
  fold_left (fun acc c =>
               match acc with
               | Ok self => v c self
               | Raise e => Raise e
               end) ch (Raise e) = Raise e.
Proof. induction ch as [|c r IH]; [reflexivity | exact IH]. Qed.

Lemma visit_each_cons v c ch self :
  visit_each v (c :: ch) self
  = match v c self with
    | Ok self => visit_each v ch self
    | Raise e => Raise e
    end.
Proof.
  unfold visit_each. simpl. destruct (v c self); [reflexivity|].
  apply visit_each_raised.
Qed.

(** What [call] returns. *)
Lemma call_returns {A : Type} frames (body : nat -> result A) x :
  call frames body = Ok x ->
  exists left, frames = S left /\ body left = Ok x.
Proof. destruct frames as [|left]; [discriminate | eauto]. Qed.

Lemma call_raises {A : Type} frames (body : nat -> result A) e :
  call frames body = Raise e ->
  e = RecursionError \/ exists left, frames = S left /\ body left = Raise e.
Proof.
  destruct frames as [|left]; simpl; [intros [= <-]; auto | eauto].
Qed.

Lemma visit_unfold n frames self :
  visit n frames self
  = call frames (fun frames =>
      match n with
      | FunctionDef name lineno children =>
          call frames (fun frames =>
            visit_FunctionDef name lineno (generic_visit children frames) self)
      | AsyncFunctionDef name lineno children =>
          call frames (fun frames =>
            call frames (fun frames =>
              visit_FunctionDef name lineno (generic_visit children frames)
                self))
      | ClassDef name _ children =>
          call frames (fun frames =>
            visit_ClassDef name (generic_visit children frames) self)
      | OtherNode children => generic_visit children frames self
      end).
Proof. destruct n; reflexivity. Qed.

Lemma declared_path_nonempty path n line :
  declared_at path n line -> path <> [].
Proof. induction 1; congruence. Qed.

(** What the finder looks for is a declaration in the sense of the
    specification; the converse fails for classes. *)
Lemma function_is_a_declaration path n line :
  declared_at path n line -> declaration_at path n line.
Proof. induction 1; econstructor; eassumption. Qed.

(** Visiting the children in turn has the effect of one of them. *)
Lemma visit_each_effect v ch :
  Forall (fun c => visit_effect (fun p l => declared_at p c l) (v c)) ch ->
  visit_effect (fun p l => exists c, In c ch /\ declared_at p c l)
    (visit_each v ch).
Proof.
  induction 1 as [|c r Hc _ IH]; intros self self' Hres.
  - injection Hres as <-. auto.
  - rewrite visit_each_cons in Hres.
    destruct (v c self) as [mid|e] eqn:Hmid; [|discriminate].
    destruct (Hc self mid Hmid) as (Hp1 & Hc1 & Ht1).
    destruct (IH mid self' Hres) as (Hp2 & Hc2 & Ht2).
    rewrite Hp2, Hc2, Hp1, Hc1. split; [reflexivity|]. split; [reflexivity|].
    destruct Ht2 as [Ht2|(rest & line & Hparts & (c' & Hin & Hdecl) & Ht2)].
    + rewrite Ht2.
      destruct Ht1 as [Ht1|(rest & line & Hparts & Hdecl & Ht1)];
        [left; assumption|].
      right. exists rest, line. simpl. eauto 6.
    + right. exists rest, line. rewrite Hp1, Hc1 in Hparts. simpl. eauto 6.
Qed.

Lemma generic_visit_effect ch frames :
  Forall (fun c => forall room,
              visit_effect (fun p l => declared_at p c l) (visit c room)) ch ->
  visit_effect (fun p l => exists c, In c ch /\ declared_at p c l)
    (generic_visit ch frames).
Proof.
  intros Hch self self' Hres. unfold generic_visit in Hres.
  apply call_returns in Hres as (inside & _ & Hres).
  apply call_returns in Hres as (_ & _ & Hres).
  revert Hres. apply visit_each_effect.
  eapply Forall_impl; [exact Hch|]. intros c Hc. apply Hc.
Qed.

Lemma pop_push name self : pop (push name self) = self.
Proof.
  destruct self. unfold pop, push, set_path. simpl.
  rewrite removelast_last. reflexivity.
Qed.

Lemma visit_FunctionDef_effect name line ch gv
  (here : list string -> Z -> Prop) :
  here [name] line ->
  (forall c p l, In c ch -> declared_at p c l -> here (name :: p) l) ->
  visit_effect (fun p l => exists c, In c ch /\ declared_at p c l) gv ->
  visit_effect here (visit_FunctionDef name line gv).
Proof.
  intros Hhere Hin Hgv self self'. unfold visit_FunctionDef.
  destruct (Nat.eqb _ _ && bool_decide (_current_path (push name self)
                                        = func_name_parts (push name self)))
    eqn:Hmatch.
  - apply andb_true_iff in Hmatch as [Hlen Heq].
    apply bool_decide_eq_true in Heq. apply Nat.eqb_eq in Hlen.
    cbv zeta.
    destruct (negb _ && Nat.ltb _ _ && _) eqn:Hdesc.
    { apply andb_true_iff in Hdesc as [Hdesc _].
      apply andb_true_iff in Hdesc as [_ Hlt].
      apply Nat.ltb_lt in Hlt. simpl in Hlt, Hlen. lia. }
    intros [= <-]. unfold pop. simpl. rewrite removelast_last.
    split; [reflexivity|]. split; [reflexivity|].
    right. exists [name], line. simpl in Heq. auto.
  - cbv zeta. destruct (negb _ && _ && _) eqn:Hdesc.
    + destruct (gv (push name self)) as [inner|e] eqn:Hinner; [|discriminate].
      intros [= <-].
      destruct (Hgv (push name self) inner Hinner) as (Hp & Hc & Ht).
      unfold pop. simpl. rewrite Hc, Hp. simpl. rewrite removelast_last.
      split; [reflexivity|]. split; [reflexivity|].
      destruct Ht as [Ht|(rest & l & Hparts & (c & Hc' & Hdecl) & Ht)].
      * left. assumption.
      * right. exists (name :: rest), l. simpl in Hparts.
        rewrite <- app_assoc in Hparts. eauto.
    + intros [= <-]. rewrite pop_push. auto.
Qed.

Lemma visit_ClassDef_effect name ch gv (here : list string -> Z -> Prop) :
  (forall c p l, In c ch -> declared_at p c l -> here (name :: p) l) ->
  visit_effect (fun p l => exists c, In c ch /\ declared_at p c l) gv ->
  visit_effect here (visit_ClassDef name gv).
Proof.
  intros Hin Hgv self self'. unfold visit_ClassDef. cbv zeta.
  destruct (Nat.leb _ _ && _) eqn:Hdesc.
  - destruct (gv (push name self)) as [inner|e] eqn:Hinner; [|discriminate].
    intros [= <-].
    destruct (Hgv (push name self) inner Hinner) as (Hp & Hc & Ht).
    unfold pop. simpl. rewrite Hc, Hp. simpl. rewrite removelast_last.
    split; [reflexivity|]. split; [reflexivity|].
    destruct Ht as [Ht|(rest & l & Hparts & (c & Hc' & Hdecl) & Ht)].
    + left. assumption.
    + right. exists (name :: rest), l. simpl in Hparts.
      rewrite <- app_assoc in Hparts. eauto.
  - intros [= <-]. rewrite pop_push. auto.
Qed.

(** Soundness of the visitor: a target set by a visit that returns is the
    line of a function declared at the rest of the wanted path. *)
Lemma visit_effect_declared n : forall frames,
  visit_effect (fun p l => declared_at p n l) (visit n frames).
Proof.
  induction n as [name line ch IH|name line ch IH|name line ch IH|ch IH]
    using node_children_ind; intros frames self self' Hres;
    rewrite visit_unfold in Hres;
    apply call_returns in Hres as (f1 & _ & Hres).
  - apply call_returns in Hres as (f2 & _ & Hres). revert Hres.
    apply (visit_FunctionDef_effect name line ch (generic_visit ch f2)).
    + constructor.
    + intros. eapply declared_in_function; eassumption.
    + apply generic_visit_effect, IH.
  - apply call_returns in Hres as (f2 & _ & Hres).
    apply call_returns in Hres as (f3 & _ & Hres). revert Hres.
    apply (visit_FunctionDef_effect name line ch (generic_visit ch f3)).
    + constructor.
    + intros. eapply declared_in_async_function; eassumption.
    + apply generic_visit_effect, IH.
  - apply call_returns in Hres as (f2 & _ & Hres). revert Hres.
    apply (visit_ClassDef_effect name ch (generic_visit ch f2)).
    + intros. eapply declared_in_class; eassumption.
    + apply generic_visit_effect, IH.
  - destruct (generic_visit_effect ch f1 IH self self' Hres) as (Hp & Hc & Ht).
    split; [assumption|]. split; [assumption|].
    destruct Ht as [Ht|(rest & l & Hparts & (c & Hc' & Hdecl) & Ht)].
    + left. assumption.
    + right. exists rest, l. split; [assumption|]. split; [|assumption].
      eapply declared_in_block; eassumption.
Qed.

Lemma effect_keeps_target found f self self' :
  visit_effect found f -> f self = Ok self' ->
  is_Some (target_lineno self) -> is_Some (target_lineno self').
Proof.
  intros Hf Hres Hsome.
  destruct (Hf self self' Hres) as (_ & _ & [->|(? & ? & _ & _ & ->)]); eauto.
Qed.

Lemma generic_visit_effect_declared ch frames :
  visit_effect (fun p l => exists c, In c ch /\ declared_at p c l)
    (generic_visit ch frames).
Proof.
  apply generic_visit_effect, Forall_forall.
  intros c _ room. apply visit_effect_declared.
Qed.

Lemma visit_each_finds (c : node) (p : list string) ch frames :
  In c ch ->
  (forall room self self',
      func_name_parts self = (_current_path self ++ p)%list ->
      visit c room self = Ok self' -> is_Some (target_lineno self')) ->
  forall self self',
    func_name_parts self = (_current_path self ++ p)%list ->
    visit_each (fun c self => visit c frames self) ch self = Ok self' ->
    is_Some (target_lineno self').
Proof.
  intros Hin Hc. induction ch as [|c0 r IH]; intros self self' Hparts Hres;
    [destruct Hin|].
  rewrite visit_each_cons in Hres.
  destruct (visit c0 frames self) as [mid|e] eqn:Hmid; [|discriminate].
  destruct Hin as [->|Hin].
  - eapply effect_keeps_target; [|exact Hres|eapply Hc; eassumption].
    apply visit_each_effect, Forall_forall.
    intros c' _. apply visit_effect_declared.
  - apply (IH Hin mid self'); [|assumption].
    destruct (visit_effect_declared c0 frames self mid Hmid) as (-> & -> & _).
    assumption.
Qed.

Lemma generic_visit_finds (c : node) (p : list string) ch frames :
  In c ch ->
  (forall room self self',
      func_name_parts self = (_current_path self ++ p)%list ->
      visit c room self = Ok self' -> is_Some (target_lineno self')) ->
  forall self self',
    func_name_parts self = (_current_path self ++ p)%list ->
    generic_visit ch frames self = Ok self' ->
    is_Some (target_lineno self').
Proof.
  intros Hin Hc self self' Hparts Hres. unfold generic_visit in Hres.
  apply call_returns in Hres as (inside & _ & Hres).
  apply call_returns in Hres as (_ & _ & Hres).
  eapply visit_each_finds; eassumption.
Qed.

(** Completeness of the visitor: when a function is declared at the rest
    of the wanted path, a visit that returns leaves a target. *)
Lemma visit_finds p n line :
  declared_at p n line ->
  forall frames self self',
    func_name_parts self = (_current_path self ++ p)%list ->
    visit n frames self = Ok self' -> is_Some (target_lineno self').
Proof.
  assert (Hhere : forall name l gv found self self',
             visit_effect found gv ->
             func_name_parts self = (_current_path self ++ [name])%list ->
             visit_FunctionDef name l gv self = Ok self' ->
             is_Some (target_lineno self')).
  { intros name l gv found self self' Hgv Hparts. unfold visit_FunctionDef.
    replace (Nat.eqb _ _ && bool_decide (_current_path (push name self)
                                         = func_name_parts (push name self)))
      with true.
    2:{ symmetry. apply andb_true_iff. simpl. rewrite Hparts.
        split; [apply Nat.eqb_refl | apply bool_decide_eq_true; reflexivity]. }
    cbv zeta. destruct (negb _ && Nat.ltb _ _ && _).
    - destruct (gv _) as [inner|e] eqn:Hinner; [|discriminate].
      intros [= <-]. unfold pop. simpl.
      eapply effect_keeps_target; [exact Hgv|exact Hinner|]. simpl. eauto.
    - intros [= <-]. simpl. eauto. }
  assert (Hin_f : forall name l ch c rest frames,
             In c ch -> rest <> [] ->
             (forall room self self',
                 func_name_parts self = (_current_path self ++ rest)%list ->
                 visit c room self = Ok self' ->
                 is_Some (target_lineno self')) ->
             forall self self',
               func_name_parts self = (_current_path self ++ name :: rest)%list ->
               visit_FunctionDef name l (generic_visit ch frames) self
               = Ok self' ->
               is_Some (target_lineno self')).
  { intros name l ch c rest frames Hin Hrest Hc self self' Hparts.
    unfold visit_FunctionDef.
    replace (Nat.eqb _ _ && bool_decide (_current_path (push name self)
                                         = func_name_parts (push name self)))
      with false.
    2:{ symmetry. apply andb_false_iff. left. apply Nat.eqb_neq. simpl.
        rewrite Hparts, !length_app. simpl. destruct rest; [congruence|].
        simpl. lia. }
    cbv zeta. destruct (truthy_opt_int (target_lineno (push name self))) eqn:Ht.
    - simpl negb. rewrite !andb_false_l. intros [= <-]. simpl. simpl in Ht.
      destruct (target_lineno self); [eauto | discriminate].
    - replace (Nat.ltb _ _) with true.
      2:{ symmetry. apply Nat.ltb_lt. simpl. rewrite Hparts, !length_app.
          simpl. destruct rest; [congruence|]. simpl. lia. }
      replace (prefix_matches (push name self)) with true.
      2:{ symmetry. apply bool_decide_eq_true. simpl. rewrite Hparts.
          replace (_current_path self ++ name :: rest)%list
            with ((_current_path self ++ [name]) ++ rest)%list
            by (rewrite <- app_assoc; reflexivity).
          apply take_app_length. }
      simpl.
      destruct (generic_visit ch frames (push name self)) as [inner|e]
        eqn:Hinner; [|discriminate].
      intros [= <-]. simpl.
      apply (generic_visit_finds c rest ch frames Hin Hc (push name self) inner);
        [|exact Hinner].
      simpl. rewrite Hparts, <- app_assoc. reflexivity. }
  induction 1 as [name l ch|name l ch|name l ch c rest line Hin Hd IH
                 |name l ch c rest line Hin Hd IH
                 |name l ch c rest line Hin Hd IH
                 |ch c rest line Hin Hd IH]; intros frames self self' Hparts Hres;
    rewrite visit_unfold in Hres;
    apply call_returns in Hres as (f1 & _ & Hres).
  - apply call_returns in Hres as (f2 & _ & Hres).
    apply (Hhere name l _ _ self self'
             (generic_visit_effect_declared ch f2) Hparts Hres).
  - apply call_returns in Hres as (f2 & _ & Hres).
    apply call_returns in Hres as (f3 & _ & Hres).
    apply (Hhere name l _ _ self self'
             (generic_visit_effect_declared ch f3) Hparts Hres).
  - apply call_returns in Hres as (f2 & _ & Hres).
    apply (Hin_f name l ch c rest f2 Hin (declared_path_nonempty _ _ _ Hd) IH
             self self' Hparts Hres).
  - apply call_returns in Hres as (f2 & _ & Hres).
    apply call_returns in Hres as (f3 & _ & Hres).
    apply (Hin_f name l ch c rest f3 Hin (declared_path_nonempty _ _ _ Hd) IH
             self self' Hparts Hres).
  - apply call_returns in Hres as (f2 & _ & Hres).
    unfold visit_ClassDef in Hres. cbv zeta in Hres.
    replace (Nat.leb (length (_current_path (push name self)))
               (length (func_name_parts (push name self)))) with true in Hres.
    2:{ symmetry. apply Nat.leb_le. simpl. rewrite Hparts, !length_app.
        simpl. lia. }
    replace (prefix_matches (push name self)) with true in Hres.
    2:{ symmetry. apply bool_decide_eq_true. simpl. rewrite Hparts.
        replace (_current_path self ++ name :: rest)%list
          with ((_current_path self ++ [name]) ++ rest)%list
          by (rewrite <- app_assoc; reflexivity).
        apply take_app_length. }
    simpl in Hres.
    destruct (generic_visit ch f2 (push name self)) as [inner|e] eqn:Hinner;
      [|discriminate].
    injection Hres as <-. simpl.
    apply (generic_visit_finds c rest ch f2 Hin IH (push name self) inner);
      [|exact Hinner].
    simpl. rewrite Hparts, <- app_assoc. reflexivity.
  - apply (generic_visit_finds c rest ch f1 Hin IH self self' Hparts Hres).
Qed.

(** A scope whose name leaves the wanted path is not entered: the visit
    returns the finder as it was from within its own frames (three at
    most), whatever the scope contains. *)
Lemma off_path_scope_is_skipped name line ch frames self :
  ~ on_path self name -> (3 <= frames)%nat ->
  visit (FunctionDef name line ch) frames self = Ok self
  /\ visit (AsyncFunctionDef name line ch) frames self = Ok self
  /\ visit (ClassDef name line ch) frames self = Ok self.
Proof.
  intros Hoff Hframes.
  assert (Hprefix : prefix_matches (push name self) = false).
  { apply bool_decide_eq_false. exact Hoff. }
  assert (Hf : forall gv, visit_FunctionDef name line gv self = Ok self).
  { intros gv. unfold visit_FunctionDef.
    replace (bool_decide (_current_path (push name self)
                          = func_name_parts (push name self))) with false.
    2:{ symmetry. apply bool_decide_eq_false. intros Heq. apply Hoff.
        unfold on_path. simpl in Heq. rewrite Heq. apply firstn_all. }
    rewrite andb_false_r. cbv zeta. rewrite Hprefix, andb_false_r.
    rewrite pop_push. reflexivity. }
  destruct frames as [|[|[|frames]]]; try lia.
  rewrite !visit_unfold. simpl. rewrite !Hf.
  split; [reflexivity|]. split; [reflexivity|].
  unfold visit_ClassDef. cbv zeta. rewrite Hprefix, andb_false_r.
  rewrite pop_push. reflexivity.
Qed.

(** Only the recursion limit makes a visit raise. *)
Lemma visit_raises_recursion_error n : forall frames self e,
  visit n frames self = Raise e -> e = RecursionError.
Proof.
  assert (Heach : forall ch frames,
             Forall (fun c => forall frames self e,
                         visit c frames self = Raise e -> e = RecursionError)
               ch ->
             forall self e,
               generic_visit ch frames self = Raise e -> e = RecursionError).
  { intros ch frames Hch self e Hres. unfold generic_visit in Hres.
    apply call_raises in Hres as [->|(inside & _ & Hres)]; [reflexivity|].
    apply call_raises in Hres as [->|(_ & _ & Hres)]; [reflexivity|].
    revert self Hres. induction Hch as [|c r Hc _ IH]; intros self Hres;
      [discriminate|].
    rewrite visit_each_cons in Hres.
    destruct (visit c inside self) as [mid|e'] eqn:Hmid.
    - apply (IH mid Hres).
    - injection Hres as <-. apply (Hc _ _ _ Hmid). }
  assert (Hfun : forall name line gv self e,
             (forall s e', gv s = Raise e' -> e' = RecursionError) ->
             visit_FunctionDef name line gv self = Raise e ->
             e = RecursionError).
  { intros name line gv self e Hgv. unfold visit_FunctionDef. cbv zeta.
    destruct (negb _ && _ && _); [|discriminate].
    destruct (gv _) as [inner|e'] eqn:Hinner; [discriminate|].
    intros [= <-]. apply (Hgv _ _ Hinner). }
  induction n as [name line ch IH|name line ch IH|name line ch IH|ch IH]
    using node_children_ind; intros frames self e Hres;
    rewrite visit_unfold in Hres;
    apply call_raises in Hres as [->|(f1 & _ & Hres)]; try reflexivity.
  - apply call_raises in Hres as [->|(f2 & _ & Hres)]; [reflexivity|].
    apply (Hfun _ _ _ _ _ (Heach ch f2 IH) Hres).
  - apply call_raises in Hres as [->|(f2 & _ & Hres)]; [reflexivity|].
    apply call_raises in Hres as [->|(f3 & _ & Hres)]; [reflexivity|].
    apply (Hfun _ _ _ _ _ (Heach ch f3 IH) Hres).
  - apply call_raises in Hres as [->|(f2 & _ & Hres)]; [reflexivity|].
    unfold visit_ClassDef in Hres. cbv zeta in Hres.
    destruct (Nat.leb _ _ && _); [|discriminate].
    destruct (generic_visit ch f2 _) as [inner|e'] eqn:Hinner; [discriminate|].
    injection Hres as <-. apply (Heach ch f2 IH _ _ Hinner).
  - apply (Heach ch f1 IH _ _ Hres).
Qed.

Lemma depth_of_child c ch : In c ch -> (depth c <= list_max (map depth ch))%nat.
Proof.
  induction ch as [|c0 r IH]; [intros []|].
  intros [->|Hin]; simpl; [lia|]. specialize (IH Hin). lia.
Qed.

(** A visit returns when more than four frames are left for each level of
    the tree. *)
Lemma visit_returns n : forall frames self,
  (4 * depth n < frames)%nat -> exists self', visit n frames self = Ok self'.
Proof.
  assert (Heach : forall ch frames,
             Forall (fun c => forall frames self,
                         (4 * depth c < frames)%nat ->
                         exists self', visit c frames self = Ok self') ch ->
             (4 * list_max (map depth ch) + 1 < frames)%nat ->
             forall self, exists self', generic_visit ch frames self = Ok self').
  { intros ch frames Hch Hroom self. unfold generic_visit.
    destruct frames as [|[|inside]]; try lia. simpl.
    assert (Hall : Forall (fun c => forall self,
                               exists self', visit c (S inside) self = Ok self')
                     ch).
    { rewrite Forall_forall in *. intros c Hin s. apply (Hch c Hin).
      apply list_elem_of_In in Hin.
      pose proof (depth_of_child c ch Hin). lia. }
    clear Hch Hroom. revert self.
    induction Hall as [|c r Hc _ IH]; intros self; [eexists; reflexivity|].
    rewrite visit_each_cons. destruct (Hc self) as [mid ->]. apply IH. }
  assert (Hfun : forall name line gv self,
             (forall s, exists s', gv s = Ok s') ->
             exists self', visit_FunctionDef name line gv self = Ok self').
  { intros name line gv self Hgv. unfold visit_FunctionDef. cbv zeta.
    destruct (negb _ && _ && _); [|eauto].
    destruct (Hgv (if Nat.eqb (length (_current_path (push name self)))
                        (length (func_name_parts (push name self)))
                      && bool_decide (_current_path (push name self)
                                      = func_name_parts (push name self))
                   then set_target (Some line) (push name self)
                   else push name self)) as [inner ->].
    eauto. }
  induction n as [name line ch IH|name line ch IH|name line ch IH|ch IH]
    using node_children_ind; intros frames self Hroom;
    rewrite visit_unfold; simpl in Hroom.
  - destruct frames as [|[|f2]]; try lia. simpl.
    apply Hfun. apply Heach; [exact IH | lia].
  - destruct frames as [|[|[|f3]]]; try lia. simpl.
    apply Hfun. apply Heach; [exact IH | lia].
  - destruct frames as [|[|f2]]; try lia. simpl.
    unfold visit_ClassDef. cbv zeta.
    destruct (Nat.leb _ _ && _); [|eauto].
    destruct (Heach ch f2 IH) with (self := push name self) as [inner ->];
      [lia | eauto].
  - destruct frames as [|f1]; try lia. simpl.
    apply Heach; [exact IH | lia].
Qed.

Lemma split_without_separator sep s :
  has_char sep s = false -> split sep s = [s].
Proof.
  induction s as [|c s IH]; [reflexivity|]. simpl.
  intros Hno. apply orb_false_iff in Hno as [Hc Hs].
  rewrite Hc, (IH Hs). reflexivity.
Qed.

Lemma split_at_separator sep a rest :
  has_char sep a = false ->
  split sep (String.append a (String sep rest)) = a :: split sep rest.
Proof.
  induction a as [|c a IH]; simpl.
  - intros _. rewrite Ascii.eqb_refl. reflexivity.
  - intros Hno. apply orb_false_iff in Hno as [Hc Ha].
    rewrite Hc, (IH Ha). reflexivity.
Qed.

(** What the resolver does for any wanted path: it returns when the frames
    left exceed four times the depth of the tree and can only raise
    [RecursionError]; when it returns, an answer is the line of a function
    declared at the wanted path, and there is no answer only when no
    function is declared there. *)
Lemma resolver_sound_and_complete frames tree func_spec :
  ((4 * depth tree < frames)%nat ->
   exists answer,
     _find_func_lineno_using_ast frames (Some tree) func_spec = Ok answer)
  /\ (forall e,
        _find_func_lineno_using_ast frames (Some tree) func_spec = Raise e ->
        e = RecursionError)
  /\ (forall answer,
        _find_func_lineno_using_ast frames (Some tree) func_spec = Ok answer ->
        match answer with
        | Some line => declared_at (split "." func_spec) tree line
        | None => forall line, ~ declared_at (split "." func_spec) tree line
        end).
Proof.
  unfold _find_func_lineno_using_ast.
  split; [|split].
  - intros Hroom.
    destruct (visit_returns tree frames (init (split "." func_spec)) Hroom)
      as [finder ->].
    eauto.
  - intros e.
    destruct (visit tree frames _) as [finder|e'] eqn:Hres; [discriminate|].
    intros [= <-]. apply (visit_raises_recursion_error _ _ _ _ Hres).
  - intros answer.
    destruct (visit tree frames _) as [finder|e'] eqn:Hres; [|discriminate].
    intros [= <-].
    destruct (target_lineno finder) as [line|] eqn:Htarget.
    + destruct (visit_effect_declared tree frames _ _ Hres)
        as (_ & _ & [Hsame|(rest & l & Hparts & Hdecl & Hl)]).
      * rewrite Htarget in Hsame. discriminate.
      * simpl in Hparts. subst rest. congruence.
    + intros line Hdecl.
      destruct (visit_finds _ _ _ Hdecl frames (init (split "." func_spec))
                  finder eq_refl Hres) as [l Hl].
      congruence.
Qed.

(** C8 (as amended).  For a dotted location ["A.b"], whenever the resolver
    returns: an answer is the line where a function [b] declared directly
    inside a class or function [A] of the top level begins, and there is no
    answer exactly when no such function exists, whatever is declared under
    the name [b] elsewhere.  It returns when the frames left exceed four
    times the depth of the tree, and the only exception it raises is
    [RecursionError].  A class or function whose name leaves the wanted
    path is not searched: the visit returns from within three frames,
    whatever the scope contains. *)
Theorem dotted_location_resolves_nested_function
  (A b : string) (tree : node) (frames : nat) :
  has_char "." A = false -> has_char "." b = false ->
  (forall answer,
      _find_func_lineno_using_ast frames (Some tree) (dotted A b) = Ok answer ->
      match answer with
      | Some line => declared_at [A; b] tree line
      | None => forall line, ~ declared_at [A; b] tree line
      end)
  /\ ((4 * depth tree < frames)%nat ->
      exists answer,
        _find_func_lineno_using_ast frames (Some tree) (dotted A b)
        = Ok answer)
  /\ (forall e,
        _find_func_lineno_using_ast frames (Some tree) (dotted A b) = Raise e ->
        e = RecursionError)
  /\ (forall self name line ch room,
        func_name_parts self = [A; b] -> ~ on_path self name ->
        (3 <= room)%nat ->
        visit (FunctionDef name line ch) room self = Ok self
        /\ visit (AsyncFunctionDef name line ch) room self = Ok self
        /\ visit (ClassDef name line ch) room self = Ok self).
Proof.
  intros HA Hb.
  assert (Hsplit : split "." (dotted A b) = [A; b]).
  { unfold dotted. rewrite split_at_separator by assumption.
    rewrite split_without_separator by assumption. reflexivity. }
  destruct (resolver_sound_and_complete frames tree (dotted A b))
    as (Hreturns & Hraises & Hanswer).
  rewrite Hsplit in Hanswer.
  split; [exact Hanswer|]. split; [exact Hreturns|]. split; [exact Hraises|].
  intros self name line ch room _ Hoff Hroom.
  apply off_path_scope_is_skipped; assumption.
Qed.
End finder_facts.

(** ** The stepping modes when no request is pending

    With the request flag clear and no breakpoint set, the events that stop
    are the ones the stepping mode names, and an event that does not stop
    leaves the stepping state as it was. *)
Section modes_without_request.
Context `{Host}.
Import PyDebugger.
Local Arguments stepping_decision : simpl never.

Lemma set_request_stop_same sm :
  request_stop_at_next_suitable_event sm = false ->
  StateManager.set_request_stop false sm = sm.
Proof. destruct sm. simpl. intros ->. reflexivity. Qed.

Lemma stepping_decision_state_when_passing sm ev file frm depth :
  request_stop_at_next_suitable_event sm = false ->
  (stepping_decision sm ev file frm depth).1.2 = false ->
  (stepping_decision sm ev file frm depth).1.1 = sm.
Proof.
  intros Hreq. unfold stepping_decision. rewrite Hreq.
  rewrite (set_request_stop_same sm Hreq).
  destruct ev; simpl;
    repeat match goal with
           | |- context [match ?x with _ => _ end] => destruct x eqn:?; simpl
           end; try discriminate; reflexivity.
Qed.

Lemma check_breakpoint_none_set m file line g l :
  breakpoints_by_file m = ∅ ->
  BreakpointManager.check_breakpoint m file line g l = (m, None).
Proof.
  intros Hempty.
  unfold BreakpointManager.check_breakpoint, BreakpointManager.at_location.
  rewrite Hempty, lookup_empty. reflexivity.
Qed.

Lemma quiet_dispatch dbg frm ev input :
  quiet dbg ->
  stopped (trace_dispatch dbg frm ev input)
  = Spec.mode_stops (state_manager dbg) (frm, ev)
  /\ (stopped (trace_dispatch dbg frm ev input) = false ->
      quiet (after (trace_dispatch dbg frm ev input))
      /\ state_manager (after (trace_dispatch dbg frm ev input))
         = state_manager dbg).
Proof.
  intros (Hq & Hreq & Hbp). unfold request_pending in Hreq.
  unfold trace_dispatch, decide_stop. rewrite Hq. simpl.
  pose proof (stepping_decision_without_request (state_manager dbg) ev
                (abspath (co_filename frm)) frm
                (_get_frame_depth (Some frm)) Hreq) as Hdec.
  pose proof (stepping_decision_state_when_passing (state_manager dbg) ev
                (abspath (co_filename frm)) frm
                (_get_frame_depth (Some frm)) Hreq) as Hsame.
  destruct (stepping_decision _ _ _ _ _) as [[sm stop] r]. simpl in *.
  assert (Hmode : stop = Spec.mode_stops (state_manager dbg) (frm, ev)).
  { rewrite Hdec. destruct ev; reflexivity. }
  destruct stop; simpl.
  - split; [exact Hmode | discriminate].
  - rewrite (check_breakpoint_none_set _ _ _ _ _ Hbp). simpl.
    split; [exact Hmode|]. intros _.
    rewrite (Hsame eq_refl). unfold quiet, request_pending. simpl. auto.
Qed.

(** The next stop of a quiet session is at the first event that its mode
    stops on. *)
Lemma next_stop_of_quiet_session events : forall dbg,
  quiet dbg ->
  fst <$> next_stop dbg events
  = Spec.first_position (Spec.mode_stops (state_manager dbg)) events.
Proof.
  induction events as [|[frm ev] rest IH]; intros dbg Hquiet; [reflexivity|].
  destruct (quiet_dispatch dbg frm ev [] Hquiet) as [Hstop Hpass].
  cbn [next_stop Spec.first_position]. rewrite <- Hstop.
  destruct (stopped (trace_dispatch dbg frm ev [])); [reflexivity|].
  destruct (Hpass eq_refl) as [Hquiet' Hsm].
  specialize (IH _ Hquiet'). rewrite Hsm in IH. rewrite <- IH.
  destruct (next_stop _ rest) as [[i r]|]; reflexivity.
Qed.

(** Step-over with target depth [d], no request pending, no [exception]
    event on the way: no [call] event stops and the next stop is the first
    [line] event at depth [d] or less. *)
Lemma step_over_without_request d events dbg :
  quiet dbg ->
  step_into (state_manager dbg) = false ->
  step_over (state_manager dbg) = true ->
  step_over_target_depth (state_manager dbg) = d ->
  step_out (state_manager dbg) = false ->
  run_until_line_info (state_manager dbg) = None ->
  Forall (fun e => e.2 <> Exception) events ->
  fst <$> next_stop dbg events = Spec.first_line_at_depth_le d events.
Proof.
  intros Hquiet Hi Ho Hd Hu Hl Hev.
  rewrite (next_stop_of_quiet_session events dbg Hquiet).
  induction Hev as [|[frm ev] rest Hne _ IH]; [reflexivity|].
  cbn [Spec.first_position Spec.first_line_at_depth_le Spec.mode_stops].
  rewrite Hi, Ho, Hd, Hu, Hl. simpl in Hne.
  destruct ev; simpl; try congruence; rewrite IH; try reflexivity.
  rewrite orb_false_r. reflexivity.
Qed.

(** Step-out with target depth [d], under the same conditions. *)
Lemma step_out_without_request d events dbg :
  quiet dbg ->
  step_into (state_manager dbg) = false ->
  step_over (state_manager dbg) = false ->
  step_out (state_manager dbg) = true ->
  step_out_target_depth (state_manager dbg) = d ->
  run_until_line_info (state_manager dbg) = None ->
  Forall (fun e => e.2 <> Exception) events ->
  fst <$> next_stop dbg events = Spec.first_line_at_depth_le d events.
Proof.
  intros Hquiet Hi Ho Hu Hd Hl Hev.
  rewrite (next_stop_of_quiet_session events dbg Hquiet).
  induction Hev as [|[frm ev] rest Hne _ IH]; [reflexivity|].
  cbn [Spec.first_position Spec.first_line_at_depth_le Spec.mode_stops].
  rewrite Hi, Ho, Hd, Hu, Hl. simpl in Hne.
  destruct ev; simpl; try congruence; rewrite IH; reflexivity.
Qed.

(** An [until] target, under the same conditions. *)
Lemma run_until_without_request file line events dbg :
  quiet dbg ->
  step_into (state_manager dbg) = false ->
  run_until_line_info (state_manager dbg) = Some (file, line) ->
  Forall (fun e => e.2 <> Exception) events ->
  fst <$> next_stop dbg events = Spec.first_line_at file line events.
Proof.
  intros Hquiet Hi Hl Hev.
  rewrite (next_stop_of_quiet_session events dbg Hquiet).
  induction Hev as [|[frm ev] rest Hne _ IH]; [reflexivity|].
  cbn [Spec.first_position Spec.first_line_at Spec.mode_stops].
  rewrite Hi, Hl. simpl in Hne.
  destruct ev; simpl; try congruence; rewrite IH; reflexivity.
Qed.
End modes_without_request.

(** ** The code on concrete sessions *)
Section worked_examples.
Import Sample PyDebugger BreakpointManager.

(** C1 (the code at the failing input).  The session is suspended in
    [work] at depth 2 and the operator gives [finish], which arms step-out
    with target depth 1.  The first [line] event at depth 1 or less is the
    fourth event, back in the module; the debugger stops already at the
    first event, the next line of [work] at depth 2, and labels the stop
    "First line". *)
Theorem finish_stops_on_the_next_line :
  let dbg := suspended_in_work 10 in
  let events :=
    [(in_work 11 [], Line); (in_work 12 [], Line);
     (in_work 12 [], Return); (in_module 31, Line)] in
  _get_frame_depth (execution_frame dbg) = 2
  /\ (do_finish dbg).2 = true
  /\ step_out (state_manager (do_finish dbg).1) = true
  /\ step_out_target_depth (state_manager (do_finish dbg).1) = 1
  /\ Spec.first_line_at_depth_le 1 events = Some 3%nat
  /\ next_stop (do_finish dbg).1 events = Some (0%nat, Some FirstLine).
Proof. vm_compute. repeat split; reflexivity. Qed.

(** C2 (the code at the failing input).  The session is suspended in
    [work] at line 10 and the operator gives [until 42].  The first [line]
    event at line 42 of that file is the fifth event; the debugger stops
    at the first event, line 11, with the label "Initial entry", and the
    target is still set at that stop. *)
Theorem until_stops_on_the_next_event :
  let dbg := suspended_in_work 10 in
  let events :=
    [(in_work 11 [], Line); (in_helper 20, Call); (in_helper 21, Line);
     (in_helper 21, Return); (in_work 42 [], Line)] in
  (do_rununtil (IntArg 42) dbg).2 = true
  /\ run_until_line_info (state_manager (do_rununtil (IntArg 42) dbg).1)
     = Some (file, 42)
  /\ Spec.first_line_at file 42 events = Some 4%nat
  /\ next_stop (do_rununtil (IntArg 42) dbg).1 events
     = Some (0%nat, Some InitialEntry)
  /\ (fun p => run_until_line_info (state_manager p))
       <$> at_prompt (trace_dispatch (do_rununtil (IntArg 42) dbg).1
                        (in_work 11 []) Line [])
     = Some (Some (file, 42)).
Proof. vm_compute. repeat split; reflexivity. Qed.

(** C3 (the code at the failing input).  The session is suspended on the
    last line of [work], at depth 2, and the operator gives [next], which
    arms step-over with target depth 2.  The next event is the [return] of
    [work]; the first [line] event at depth 2 or less is the one after it,
    in the module.  The debugger stops on the [return] event, with the
    label "Initial entry".  When the first event after [next] is a [call],
    the stop is where the claim says. *)
Theorem next_stops_on_a_return_event :
  let dbg := suspended_in_work 12 in
  let events := [(in_work 12 [], Return); (in_module 31, Line)] in
  let with_call :=
    [(in_helper 20, Call); (in_helper 21, Line); (in_helper 21, Return);
     (in_work 12 [], Line)] in
  (do_next dbg).2 = true
  /\ step_over (state_manager (do_next dbg).1) = true
  /\ step_over_target_depth (state_manager (do_next dbg).1) = 2
  /\ Spec.first_line_at_depth_le 2 events = Some 1%nat
  /\ next_stop (do_next dbg).1 events = Some (0%nat, Some InitialEntry)
  /\ Spec.first_line_at_depth_le 2 with_call = Some 3%nat
  /\ next_stop (do_next dbg).1 with_call = Some (3%nat, Some Next).
Proof. vm_compute. repeat split; reflexivity. Qed.

(** C7 (the code at the failing input).  Two breakpoints are set at the
    same line.  The second one is not rejected: both ids are in the id
    index, and the location index holds the second instance.  Clearing
    id 1 then succeeds, takes the location entry of breakpoint 2 away and
    leaves id 2 in the id index; clearing id 2 after that raises
    [KeyError]. *)
Theorem second_breakpoint_at_a_location_breaks_the_registry :
  let m := two_at_line_10 in
  let cleared := clear_breakpoint m (ById 1) in
  PyDict.keys (breakpoints_by_id m) = [1; 2]
  /\ at_location m file 10 = Some 1%nat
  /\ id_of_object (breakpoints_by_id m) 1 = Some 2
  /\ cleared.2 = Ok true
  /\ PyDict.keys (breakpoints_by_id cleared.1) = [2]
  /\ at_location cleared.1 file 10 = None
  /\ (clear_breakpoint cleared.1 (ById 2)).2 = Raise KeyError.
Proof. vm_compute. repeat split; reflexivity. Qed.

(** C4 (counterexample).  At the first stop of a session, the initial
    entry, the operator gives [step]: the session resumes with the request
    flag set. *)
Lemma step_resumes_with_the_request_pending :
  stopped (trace_dispatch attached entry Call [Named CmdStep]) = true
  /\ label (trace_dispatch attached entry Call [Named CmdStep])
     = Some InitialEntry
  /\ request_pending
       (after (trace_dispatch attached entry Call [Named CmdStep])) = true.
Proof. vm_compute. repeat split; reflexivity. Qed.

(** C8 (counterexample).  A class [b] is declared inside a class [A], at
    line 2, and the resolver answers "not found" for ["A.b"]: the finder
    has no answer for a class.  And where a method [b] of a class [A] is
    declared in a file that also holds a statement nested 600 levels deep,
    resolving ["A.b"] with 1000 frames left raises [RecursionError]. *)
Lemma class_named_by_the_path_is_not_resolved :
  Spec.declaration_at ["A"; "b"] class_in_class 2
  /\ FunctionFinder._find_func_lineno_using_ast 1000 (Some class_in_class)
       (dotted "A" "b") = Ok None
  /\ Spec.declaration_at ["A"; "b"] deep_tree 4
  /\ FunctionFinder._find_func_lineno_using_ast 1000 (Some deep_tree)
       (dotted "A" "b") = Raise RecursionError.
Proof.
  split.
  { eapply Spec.declaration_in_block; [left; reflexivity|].
    eapply Spec.declaration_in_class; [left; reflexivity|].
    apply Spec.declaration_of_class. }
  split; [vm_compute; reflexivity|].
  split; [|vm_compute; reflexivity].
  eapply Spec.declaration_in_block; [left; reflexivity|].
  eapply Spec.declaration_in_class; [left; reflexivity|].
  apply Spec.declaration_of_function.
Qed.
End worked_examples.

(** ** The general statements at concrete inputs *)
Section witnesses.
Import Sample PyDebugger BreakpointManager FunctionFinder Spec.


Lemma request_flag_after_resume_witness :
  quit_debugger after_next = false
  /\ at_prompt (trace_dispatch after_next (in_work 10 []) Line
                  [Blank; Aliased CmdContinue]) = Some stopped_after_next
  /\ request_pending stopped_after_next = false
  /\ last_non_empty_cmd stopped_after_next = Named CmdNext
  /\ request_pending (read_line Blank stopped_after_next).1 = true
  /\ (read_line Blank stopped_after_next).2 = false.
Proof.
  assert (Hprompt : at_prompt (trace_dispatch after_next (in_work 10 []) Line
                                 [Blank; Aliased CmdContinue])
                    = Some stopped_after_next) by reflexivity.
  destruct (request_flag_after_resume after_next (in_work 10 []) Line
              [Blank; Aliased CmdContinue] eq_refl)
    as (_ & _ & Hclear & Hline & Hrepeat).
  split; [reflexivity|]. split; [exact Hprompt|].
  split; [exact (Hclear stopped_after_next Hprompt)|].
  split; [reflexivity|].
  split; [rewrite (Hline Blank stopped_after_next); reflexivity|].
  rewrite (Hrepeat CmdNext stopped_after_next eq_refl). reflexivity.
Defined.

Lemma out_of_bounds_move_is_refused_witness :
  count_of (IntArg 5) = Some 5
  /\ ~ (0 <= requested_index Up 5 entered
        < Z.of_nat (length (_full_stack_at_stop entered)))
  /\ navigate Up (IntArg 5) entered = (entered, Text (refusal Up entered))
  /\ navigate Up (IntArg 5) (navigate Up (IntArg 5) entered).1
     = navigate Up (IntArg 5) entered.
Proof.
  assert (Hout : ~ (0 <= requested_index Up 5 entered
                    < Z.of_nat (length (_full_stack_at_stop entered)))).
  { simpl. lia. }
  split; [reflexivity|]. split; [exact Hout|].
  apply (out_of_bounds_move_is_refused Up (IntArg 5) 5 entered);
    [reflexivity | exact Hout].
Defined.

Lemma ignore_budget_skips_first_hits_witness :
  at_location (conditional_breakpoint 2) file 10 = Some 0%nat
  /\ objects (conditional_breakpoint 2) !! 0%nat
     = Some (BreakpointInfo.init 10 file (Some "x > 3") 2)
  /\ (successive_hits (conditional_breakpoint 2) file 10
        [(no_names, x_is 5); (no_names, x_is 7)]).2 = [None; None]
  /\ (check_breakpoint
        (successive_hits (conditional_breakpoint 2) file 10
           [(no_names, x_is 5); (no_names, x_is 7)]).1
        file 10 no_names (x_is 9)).2 = Some 0%nat.
Proof.
  assert (Hat : at_location (conditional_breakpoint 2) file 10 = Some 0%nat)
    by (vm_compute; reflexivity).
  assert (Hobj : objects (conditional_breakpoint 2) !! 0%nat
                 = Some (BreakpointInfo.init 10 file (Some "x > 3") 2))
    by reflexivity.
  split; [exact Hat|]. split; [exact Hobj|].
  destruct (ignore_budget_skips_first_hits (conditional_breakpoint 2) file 10
              0%nat (BreakpointInfo.init 10 file (Some "x > 3") 2) 2
              [(no_names, x_is 5); (no_names, x_is 7)] no_names (x_is 9)
              Hat Hobj eq_refl eq_refl eq_refl eq_refl)
    as (Hanswers & _ & Hnext).
  split; [exact Hanswers|].
  cbv zeta in Hnext. rewrite Hnext. reflexivity.
Defined.

Lemma hit_counter_counts_every_hit_witness :
  quit_debugger with_conditional_breakpoint = false
  /\ breakpoint_manager with_conditional_breakpoint
     = (add_breakpoint BreakpointManager.init file 10 (Some "x > 3") 0).1
  /\ eval_bool "x > 3" (f_globals (in_work 10 (x_is 2)))
       (f_locals (in_work 10 (x_is 2))) = Some false
  /\ eval_bool "x > 3" (f_globals (in_work 10 (x_is 5)))
       (f_locals (in_work 10 (x_is 5))) = Some true
  /\ stopped (trace_dispatch (do_continue with_conditional_breakpoint).1
                (in_work 10 (x_is 2)) Line []) = false
  /\ stopped (trace_dispatch
                (after (trace_dispatch
                          (do_continue with_conditional_breakpoint).1
                          (in_work 10 (x_is 2)) Line []))
                (in_work 10 (x_is 5)) Line [Named CmdContinue]) = true.
Proof.
  split; [reflexivity|]. split; [reflexivity|].
  split; [reflexivity|]. split; [reflexivity|].
  destruct (hit_counter_counts_every_hit with_conditional_breakpoint file
              (in_work 10 (x_is 2)) (in_work 10 (x_is 5))
              [] [Named CmdContinue]
              eq_refl eq_refl eq_refl eq_refl eq_refl eq_refl eq_refl eq_refl)
    as ((Hfirst & Hsecond & _) & _).
  split; [exact Hfirst | exact Hsecond].
Defined.

Lemma dotted_location_resolves_nested_function_witness :
  has_char "." "A" = false /\ has_char "." "b" = false
  /\ _find_func_lineno_using_ast 1000 (Some tree) (dotted "A" "b")
     = Ok (Some 4)
  /\ declared_at ["A"; "b"] tree 4.
Proof.
  assert (Hanswer : _find_func_lineno_using_ast 1000 (Some tree)
                      (dotted "A" "b") = Ok (Some 4))
    by (vm_compute; reflexivity).
  split; [reflexivity|]. split; [reflexivity|]. split; [exact Hanswer|].
  destruct (dotted_location_resolves_nested_function "A" "b" tree 1000
              eq_refl eq_refl) as [Hsound _].
  exact (Hsound (Some 4) Hanswer).
Defined.
End witnesses.

(** ** The registry under sequences of calls *)
Section registry_facts.
Context `{Host}.
Import BreakpointManager Registry.
Local Arguments check_breakpoint : simpl never.

Lemma at_location_after_add m file line c i file' line' :
  at_location (add_breakpoint m file line c i).1 file' line'
  = if decide (file = file' /\ line = line')
    then Some (length (objects m))
    else at_location m file' line'.
Proof.
  unfold at_location, add_breakpoint. simpl.
  rewrite lookup_insert.
  destruct (decide (file = file')) as [<-|Hf].
  - rewrite lookup_insert.
    destruct (decide (line = line')) as [<-|Hl].
    + rewrite decide_True by auto. reflexivity.
    + rewrite decide_False by tauto.
      destruct (breakpoints_by_file m !! file) as [lines|] eqn:Hlines.
      * rewrite (lookup_total_correct _ _ _ Hlines). reflexivity.
      * rewrite lookup_total_insert_eq. apply lookup_empty.
  - rewrite decide_False by tauto.
    destruct (breakpoints_by_file m !! file) as [lines|] eqn:Hlines;
      [reflexivity|].
    rewrite lookup_insert_ne by assumption. reflexivity.
Qed.

(** What [remove_by_id] does on an id of the index whose location entry is
    still there. *)
Lemma remove_by_id_present m id ref bp other :
  id <> 0 -> PyDict.get (breakpoints_by_id m) id = Some ref ->
  objects m !! ref = Some bp ->
  at_location m (file_abs bp) (lineno bp) = Some other ->
  let m' := (remove_by_id m (Some id)).1 in
  (remove_by_id m (Some id)).2 = Ok true
  /\ objects m' = objects m /\ next_bp_id m' = next_bp_id m
  /\ breakpoints_by_id m' = PyDict.remove (breakpoints_by_id m) id
  /\ forall file line,
      at_location m' file line
      = if decide (file_abs bp = file /\ lineno bp = line)
        then None else at_location m file line.
Proof.
  intros Hid Hget Hobj Hat. unfold remove_by_id, truthy_int.
  destruct (Z.eqb_spec id 0) as [|_]; [contradiction|]. simpl.
  rewrite Hget. simpl. rewrite Hobj.
  unfold at_location in Hat.
  destruct (breakpoints_by_file m !! file_abs bp) as [lines|] eqn:Hlines;
    [|discriminate].
  rewrite Hat. simpl. repeat split.
  intros file line. unfold at_location. simpl.
  destruct (decide (delete (lineno bp) lines = ∅)) as [Hempty|Hne].
  - rewrite lookup_delete.
    destruct (decide (file_abs bp = file)) as [<-|Hf].
    + rewrite Hlines.
      destruct (decide (lineno bp = line)) as [<-|Hl].
      * rewrite decide_True by auto. reflexivity.
      * rewrite decide_False by tauto.
        assert (Hd : delete (lineno bp) lines !! line = None)
          by (rewrite Hempty; apply lookup_empty).
        rewrite lookup_delete_ne in Hd by assumption. auto.
    + rewrite decide_False by tauto. reflexivity.
  - rewrite lookup_insert.
    destruct (decide (file_abs bp = file)) as [<-|Hf].
    + rewrite Hlines, lookup_delete.
      destruct (decide (lineno bp = line)) as [<-|Hl].
      * rewrite decide_True by auto. reflexivity.
      * rewrite decide_False by tauto. reflexivity.
    + rewrite decide_False by tauto. reflexivity.
Qed.

(** *** The insertion-ordered dictionary *)
Lemma dict_get_set_eq (d : list (Z * nat)) k v :
  PyDict.get (PyDict.set d k v) k = Some v.
Proof.
  induction d as [|[k' v'] d IH]; simpl.
  - rewrite decide_True by reflexivity. reflexivity.
  - destruct (decide (k' = k)) as [->|Hne]; simpl.
    + rewrite decide_True by reflexivity. reflexivity.
    + rewrite decide_False by assumption. exact IH.
Qed.

Lemma dict_get_set_ne (d : list (Z * nat)) k v k' :
  k <> k' -> PyDict.get (PyDict.set d k v) k' = PyDict.get d k'.
Proof.
  intros Hne. induction d as [|[k0 v0] d IH]; simpl.
  - rewrite decide_False by assumption. reflexivity.
  - destruct (decide (k0 = k)) as [->|Hk0]; simpl.
    + rewrite !decide_False by assumption. reflexivity.
    + destruct (decide (k0 = k')); [reflexivity | exact IH].
Qed.

Lemma dict_get_In (d : list (Z * nat)) k v :
  PyDict.get d k = Some v -> In (k, v) d.
Proof.
  induction d as [|[k' v'] d IH]; simpl; [discriminate|].
  destruct (decide (k' = k)) as [->|Hne].
  - intros [= ->]. auto.
  - auto.
Qed.

Lemma dict_get_None (d : list (Z * nat)) k :
  PyDict.get d k = None <-> ~ In k (PyDict.keys d).
Proof.
  induction d as [|[k' v'] d IH]; simpl; [tauto|].
  destruct (decide (k' = k)) as [->|Hne].
  - split; [discriminate | tauto].
  - rewrite IH. tauto.
Qed.

Lemma dict_set_fresh (d : list (Z * nat)) k v :
  ~ In k (PyDict.keys d) -> PyDict.set d k v = (d ++ [(k, v)])%list.
Proof.
  induction d as [|[k' v'] d IH]; simpl; [reflexivity|].
  intros Hfresh. rewrite decide_False by tauto. rewrite IH by tauto.
  reflexivity.
Qed.

Lemma dict_remove_absent (d : list (Z * nat)) k :
  ~ In k (PyDict.keys d) -> PyDict.remove d k = d.
Proof.
  induction d as [|[k' v'] d IH]; simpl; [reflexivity|].
  intros Hfresh. rewrite decide_False by tauto. rewrite IH by tauto.
  reflexivity.
Qed.

Lemma dict_remove_set_fresh (d : list (Z * nat)) k v :
  ~ In k (PyDict.keys d) -> PyDict.remove (PyDict.set d k v) k = d.
Proof.
  induction d as [|[k' v'] d IH]; simpl.
  - intros _. rewrite decide_True by reflexivity. reflexivity.
  - intros Hfresh. rewrite decide_False by tauto. simpl.
    rewrite decide_False by tauto. rewrite IH by tauto. reflexivity.
Qed.

Lemma dict_remove_incl (d : list (Z * nat)) k entry :
  In entry (PyDict.remove d k) -> In entry d.
Proof.
  induction d as [|[k' v'] d IH]; simpl; [tauto|].
  destruct (decide (k' = k)); simpl; tauto.
Qed.

Lemma dict_get_remove (d : list (Z * nat)) k k' :
  NoDup (PyDict.keys d) ->
  PyDict.get (PyDict.remove d k) k'
  = if decide (k = k') then None else PyDict.get d k'.
Proof.
  induction d as [|[k0 v0] d IH]; simpl; intros Hnd.
  - destruct (decide (k = k')); reflexivity.
  - apply NoDup_cons in Hnd as [Hnotin Hnd].
    rewrite list_elem_of_In in Hnotin.
    destruct (decide (k0 = k)) as [->|Hk0].
    + destruct (decide (k = k')) as [<-|Hkk'].
      * apply dict_get_None. exact Hnotin.
      * reflexivity.
    + simpl. destruct (decide (k0 = k')) as [->|Hk0'].
      * rewrite decide_False by congruence. reflexivity.
      * apply IH, Hnd.
Qed.

Lemma dict_remove_keys_NoDup (d : list (Z * nat)) k :
  NoDup (PyDict.keys d) -> NoDup (PyDict.keys (PyDict.remove d k)).
Proof.
  induction d as [|[k0 v0] d IH]; simpl; intros Hnd; [constructor|].
  apply NoDup_cons in Hnd as [Hnotin Hnd].
  destruct (decide (k0 = k)); [assumption|]. simpl.
  apply NoDup_cons. split; [|auto].
  intros Hin. apply Hnotin. unfold PyDict.keys in *.
  apply list_elem_of_In, in_map_iff in Hin as ([k1 v1] & <- & Hin).
  apply list_elem_of_In, in_map_iff. exists (k1, v1). split; [reflexivity|].
  eapply dict_remove_incl, Hin.
Qed.

Lemma dict_remove_values_NoDup (d : list (Z * nat)) k :
  NoDup (map snd d) -> NoDup (map snd (PyDict.remove d k)).
Proof.
  induction d as [|[k0 v0] d IH]; simpl; intros Hnd; [constructor|].
  apply NoDup_cons in Hnd as [Hnotin Hnd].
  destruct (decide (k0 = k)); [assumption|]. simpl.
  apply NoDup_cons. split; [|auto].
  intros Hin. apply Hnotin.
  apply list_elem_of_In, in_map_iff in Hin as ([k1 v1] & <- & Hin).
  apply list_elem_of_In, in_map_iff. exists (k1, v1). split; [reflexivity|].
  eapply dict_remove_incl, Hin.
Qed.

(** *** What each call keeps *)
Lemma remove_by_id_shrinks m arg :
  let m' := (remove_by_id m arg).1 in
  objects m' = objects m /\ next_bp_id m' = next_bp_id m
  /\ (breakpoints_by_id m' = breakpoints_by_id m
      \/ exists id, breakpoints_by_id m'
                    = PyDict.remove (breakpoints_by_id m) id)
  /\ forall file line ref,
      at_location m' file line = Some ref ->
      at_location m file line = Some ref.
Proof.
  unfold remove_by_id.
  destruct arg as [id|]; [|simpl; auto].
  destruct (truthy_int id); [|simpl; auto].
  destruct (PyDict.get (breakpoints_by_id m) id) as [ref|]; [|simpl; auto].
  simpl.
  destruct (objects m !! ref) as [bp|]; [|simpl; eauto 6].
  destruct (breakpoints_by_file m !! file_abs bp) as [lines|] eqn:Hlines;
    [|simpl; eauto 6].
  destruct (lines !! lineno bp); [|simpl; eauto 6].
  simpl. split; [reflexivity|]. split; [reflexivity|]. split; [eauto|].
  intros file line ref'. unfold at_location. simpl.
  destruct (decide (delete (lineno bp) lines = ∅)).
  - rewrite lookup_delete.
    destruct (decide (file_abs bp = file)); [discriminate | auto].
  - rewrite lookup_insert.
    destruct (decide (file_abs bp = file)) as [<-|]; [|auto].
    rewrite Hlines, lookup_delete.
    destruct (decide (lineno bp = line)); [discriminate | auto].
Qed.

Lemma clear_breakpoint_shrinks m arg :
  let m' := (clear_breakpoint m arg).1 in
  objects m' = objects m /\ next_bp_id m' = next_bp_id m
  /\ (breakpoints_by_id m' = breakpoints_by_id m
      \/ exists id, breakpoints_by_id m'
                    = PyDict.remove (breakpoints_by_id m) id)
  /\ forall file line ref,
      at_location m' file line = Some ref ->
      at_location m file line = Some ref.
Proof.
  unfold clear_breakpoint. destruct arg as [id|[[file line]|]].
  - destruct (truthy_int id); [apply remove_by_id_shrinks | simpl; auto].
  - destruct (truthy_str file && truthy_int line); [|simpl; auto].
    destruct (at_location m file line); [apply remove_by_id_shrinks|].
    simpl; auto.
  - simpl; auto.
Qed.

Lemma should_stop_keeps_identity bp g l :
  let bp' := (BreakpointInfo.should_stop bp g l).2 in
  file_abs bp' = file_abs bp /\ lineno bp' = lineno bp
  /\ enabled bp' = enabled bp.
Proof.
  unfold BreakpointInfo.should_stop.
  destruct (negb (enabled bp)); simpl; [auto|].
  destruct (_ >? 0); simpl; [auto|].
  destruct (condition_str bp) as [c|]; simpl; [|auto].
  destruct (truthy_str c); simpl; [|auto].
  destruct (eval_bool c g l); simpl; auto.
Qed.

(** A hit or a change of the ignore count replaces at most one instance,
    by one with the same location and the same enabled flag. *)
Lemma store_update_shape (m m' : BreakpointManager) :
  (exists file line g l, m' = (check_breakpoint m file line g l).1)
  \/ (exists id n, m' = (set_ignore_count m id n).1) ->
  breakpoints_by_file m' = breakpoints_by_file m
  /\ breakpoints_by_id m' = breakpoints_by_id m
  /\ next_bp_id m' = next_bp_id m
  /\ length (objects m') = length (objects m)
  /\ forall ref bp',
      objects m' !! ref = Some bp' ->
      exists bp, objects m !! ref = Some bp
                 /\ file_abs bp' = file_abs bp /\ lineno bp' = lineno bp
                 /\ enabled bp' = enabled bp.
Proof.
  assert (Hupd : forall ref0 bp0 bp1,
             objects m !! ref0 = Some bp0 ->
             file_abs bp1 = file_abs bp0 -> lineno bp1 = lineno bp0 ->
             enabled bp1 = enabled bp0 ->
             forall ref bp',
               <[ref0 := bp1]> (objects m) !! ref = Some bp' ->
               exists bp, objects m !! ref = Some bp
                          /\ file_abs bp' = file_abs bp
                          /\ lineno bp' = lineno bp
                          /\ enabled bp' = enabled bp).
  { intros ref0 bp0 bp1 H0 Hf Hl He ref bp' Hlook.
    destruct (decide (ref0 = ref)) as [<-|Hne].
    - rewrite list_lookup_insert_eq in Hlook
        by (eapply lookup_lt_Some, H0).
      injection Hlook as <-. eauto.
    - rewrite list_lookup_insert_ne in Hlook by assumption. eauto. }
  intros [(file & line & g & l & ->)|(id & n & ->)].
  - unfold check_breakpoint.
    destruct (at_location m file line) as [ref0|]; [|simpl; eauto 10].
    destruct (objects m !! ref0) as [bp0|] eqn:H0; [|simpl; eauto 10].
    pose proof (should_stop_keeps_identity bp0 g l) as (Hf & Hl & He).
    destruct (BreakpointInfo.should_stop bp0 g l) as [stop bp1]. simpl in *.
    rewrite length_insert. repeat split. eapply Hupd; eassumption.
  - unfold set_ignore_count.
    destruct (PyDict.get (breakpoints_by_id m) id) as [ref0|];
      [|simpl; eauto 10].
    destruct (objects m !! ref0) as [bp0|] eqn:H0; [|simpl; eauto 10].
    simpl. rewrite length_insert. repeat split.
    eapply Hupd; [eassumption|reflexivity..].
Qed.

Lemma well_formed_init : well_formed BreakpointManager.init.
Proof.
  unfold well_formed. simpl. split; [lia|]. split; [constructor|].
  split; [constructor|]. split; [|constructor].
  intros file line ref. unfold at_location. simpl.
  rewrite lookup_empty. discriminate.
Qed.

Lemma well_formed_keys_below m :
  well_formed m ->
  forall id, In id (PyDict.keys (breakpoints_by_id m)) ->
             1 <= id < next_bp_id m.
Proof.
  intros (_ & Hids & _) id Hin. unfold PyDict.keys in Hin.
  apply in_map_iff in Hin as ([id' ref] & <- & Hin).
  rewrite Forall_forall in Hids.
  apply (Hids (id', ref)), list_elem_of_In, Hin.
Qed.

Lemma well_formed_after_call m c :
  well_formed m -> well_formed (after_call m c).
Proof.
  intros Hwf. pose proof (well_formed_keys_below m Hwf) as Hbelow.
  destruct Hwf as (Hnext & Hids & Hnd & Hloc & Hen).
  destruct c as [file line cond ign|arg| |file line g l|id n];
    unfold after_call.
  - (* add_breakpoint *)
    assert (Hfresh : ~ In (next_bp_id m) (PyDict.keys (breakpoints_by_id m))).
    { intros Hin. apply Hbelow in Hin. lia. }
    unfold well_formed. split; [simpl; lia|]. split; [|split; [|split]].
    + simpl. rewrite dict_set_fresh by assumption.
      rewrite length_app. apply Forall_app. split.
      * eapply Forall_impl; [exact Hids|]. simpl. intros [id ref]. simpl. lia.
      * constructor; [|constructor]. simpl. lia.
    + simpl. rewrite dict_set_fresh by assumption.
      unfold PyDict.keys. rewrite map_app. simpl.
      apply NoDup_app. split; [exact Hnd|]. split.
      * intros id Hin Hin2. apply Hfresh.
        apply list_elem_of_In in Hin, Hin2.
        destruct Hin2 as [->|[]]. exact Hin.
      * apply NoDup_singleton.
    + intros file' line' ref. rewrite at_location_after_add.
      destruct (decide _).
      * intros [= <-]. simpl. rewrite length_app. simpl. lia.
      * intros Hat. apply Hloc in Hat. simpl. rewrite length_app. lia.
    + simpl. apply Forall_app. split; [exact Hen|].
      constructor; [reflexivity | constructor].
  - (* clear_breakpoint *)
    destruct (clear_breakpoint_shrinks m arg) as (Hobj & Hn & Hby & Hat).
    unfold well_formed. rewrite Hobj, Hn. split; [exact Hnext|].
    split; [|split; [|split]].
    + destruct Hby as [->|[id ->]]; [exact Hids|].
      rewrite Forall_forall in *. intros entry Hin.
      apply Hids, list_elem_of_In, (dict_remove_incl _ id), list_elem_of_In, Hin.
    + destruct Hby as [->|[id ->]]; [exact Hnd|].
      apply dict_remove_keys_NoDup, Hnd.
    + intros file line ref Hl. eapply Hloc, Hat, Hl.
    + exact Hen.
  - (* clear_all_breakpoints *)
    unfold well_formed. simpl. split; [exact Hnext|]. split; [constructor|].
    split; [constructor|]. split; [|exact Hen].
    intros file line ref. unfold at_location. simpl.
    rewrite lookup_empty. discriminate.
  - (* check_breakpoint *)
    destruct (store_update_shape m (check_breakpoint m file line g l).1)
      as (Hbf & Hby & Hn & Hlen & Hobjs); [left; eauto|].
    unfold well_formed, at_location. rewrite Hbf, Hby, Hn, Hlen.
    split; [exact Hnext|]. split; [exact Hids|]. split; [exact Hnd|].
    split; [exact Hloc|].
    apply Forall_lookup. intros ref bp' Hl.
    destruct (Hobjs ref bp' Hl) as (bp & Hbp & _ & _ & ->).
    eapply Forall_lookup in Hen; eauto.
  - (* set_ignore_count *)
    destruct (store_update_shape m (set_ignore_count m id n).1)
      as (Hbf & Hby & Hn & Hlen & Hobjs); [right; eauto|].
    unfold well_formed, at_location. rewrite Hbf, Hby, Hn, Hlen.
    split; [exact Hnext|]. split; [exact Hids|]. split; [exact Hnd|].
    split; [exact Hloc|].
    apply Forall_lookup. intros ref bp' Hl.
    destruct (Hobjs ref bp' Hl) as (bp & Hbp & _ & _ & ->).
    eapply Forall_lookup in Hen; eauto.
Qed.

Lemma well_formed_after_calls calls : forall m,
  well_formed m -> well_formed (fold_left after_call calls m).
Proof.
  induction calls as [|c rest IH]; intros m Hwf; [exact Hwf|].
  simpl. apply IH, well_formed_after_call, Hwf.
Qed.

Lemma next_bp_id_after_calls calls : forall m,
  next_bp_id (fold_left after_call calls m)
  = next_bp_id m + Z.of_nat (additions calls).
Proof.
  induction calls as [|c rest IH]; intros m; simpl; [lia|].
  rewrite IH. destruct c as [file line cond ign|arg| |file line g l|id n].
  - simpl. lia.
  - destruct (clear_breakpoint_shrinks m arg) as (_ & Hn & _).
    unfold after_call. rewrite Hn. lia.
  - simpl. lia.
  - destruct (store_update_shape m (check_breakpoint m file line g l).1)
      as (_ & _ & Hn & _); [left; eauto|].
    unfold after_call. rewrite Hn. lia.
  - destruct (store_update_shape m (set_ignore_count m id n).1)
      as (_ & _ & Hn & _); [right; eauto|].
    unfold after_call. rewrite Hn. lia.
Qed.
End registry_facts.

(** ** The two indices of the registry *)
Section registry_indices.
Context `{Host}.
Import BreakpointManager Registry.
Local Arguments check_breakpoint : simpl never.

Lemma dict_In_get (d : list (Z * nat)) k v :
  NoDup (PyDict.keys d) -> In (k, v) d -> PyDict.get d k = Some v.
Proof.
  induction d as [|[k0 v0] d IH]; simpl; intros Hnd Hin; [destruct Hin|].
  apply NoDup_cons in Hnd as [Hnotin Hnd].
  destruct Hin as [[= -> ->]|Hin].
  - rewrite decide_True by reflexivity. reflexivity.
  - destruct (decide (k0 = k)) as [->|Hne]; [|auto].
    exfalso. apply Hnotin, list_elem_of_In.
    unfold PyDict.keys. apply in_map_iff. exists (k, v). auto.
Qed.

Lemma dict_value_names_one_key (d : list (Z * nat)) k k' v :
  NoDup (map snd d) -> In (k, v) d -> In (k', v) d -> k = k'.
Proof.
  induction d as [|[k0 v0] d IH]; simpl; intros Hnd Hin Hin';
    [destruct Hin|].
  apply NoDup_cons in Hnd as [Hnotin Hnd].
  assert (Hno : forall q, ~ In (q, v0) d).
  { intros q Hq. apply Hnotin, list_elem_of_In, in_map_iff.
    exists (q, v0). auto. }
  destruct Hin as [Heq|Hin], Hin' as [Heq'|Hin'].
  - congruence.
  - exfalso. injection Heq as _ <-. eapply Hno, Hin'.
  - exfalso. injection Heq' as _ <-. eapply Hno, Hin.
  - eauto.
Qed.

Lemma id_of_object_In by_id ref id :
  id_of_object by_id ref = Some id -> In (id, ref) by_id.
Proof.
  induction by_id as [|[k v] d IH]; simpl; [discriminate|].
  destruct (decide (v = ref)) as [->|Hne].
  - intros [= ->]. auto.
  - auto.
Qed.

Lemma id_of_object_last by_id id ref :
  Forall (fun entry => entry.2 <> ref) by_id ->
  id_of_object (by_id ++ [(id, ref)]) ref = Some id.
Proof.
  induction 1 as [|[k v] d Hne _ IH]; simpl.
  - rewrite decide_True by reflexivity. reflexivity.
  - simpl in Hne. rewrite decide_False by assumption. exact IH.
Qed.

Lemma consistent_init : consistent BreakpointManager.init.
Proof. split; [constructor | discriminate]. Qed.

(** Removing an id of a registry whose indices agree never raises and
    leaves them in agreement. *)
Lemma remove_by_id_consistent m arg :
  well_formed m -> consistent m ->
  consistent (remove_by_id m arg).1
  /\ (remove_by_id m arg).2
     = Ok (match arg with
           | Some id =>
               truthy_int id
               && bool_decide (id ∈ PyDict.keys (breakpoints_by_id m))
           | None => false
           end).
Proof.
  intros (_ & _ & Hkeys & _) [Hrefs Hcons].
  destruct arg as [id|]; [|split; [split; assumption | reflexivity]].
  unfold truthy_int.
  destruct (Z.eqb_spec id 0) as [->|Hid];
    [split; [split; assumption | reflexivity]|].
  simpl negb. rewrite andb_true_l.
  destruct (PyDict.get (breakpoints_by_id m) id) as [ref|] eqn:Hget.
  2:{ unfold remove_by_id, truthy_int.
      destruct (Z.eqb_spec id 0); [contradiction|]. simpl. rewrite Hget.
      split; [split; assumption|].
      rewrite bool_decide_eq_false_2; [reflexivity|].
      rewrite list_elem_of_In. apply dict_get_None, Hget. }
  destruct (Hcons id ref Hget) as (bp & Hobj & Hat).
  destruct (remove_by_id_present m id ref bp ref Hid Hget Hobj Hat)
    as (Hres & Hobjs & _ & Hby & Hloc).
  split.
  - split.
    + rewrite Hby. apply dict_remove_values_NoDup, Hrefs.
    + intros id' ref'. rewrite Hby, dict_get_remove by assumption.
      destruct (decide (id = id')) as [|Hne]; [discriminate|].
      intros Hget'. destruct (Hcons id' ref' Hget') as (bp' & Hobj' & Hat').
      exists bp'. rewrite Hobjs. split; [assumption|].
      rewrite Hloc. destruct (decide _) as [[Hf Hl]|]; [|assumption].
      exfalso. rewrite <- Hf, <- Hl, Hat in Hat'. injection Hat' as <-.
      apply Hne. eapply dict_value_names_one_key;
        [exact Hrefs | apply dict_get_In, Hget | apply dict_get_In, Hget'].
  - rewrite Hres, bool_decide_eq_true_2; [reflexivity|].
    apply list_elem_of_In. unfold PyDict.keys. apply in_map_iff.
    exists (id, ref). split; [reflexivity | apply dict_get_In, Hget].
Qed.

Lemma consistent_after_call m c :
  well_formed m -> consistent m ->
  match c with
  | Add file line _ _ => at_location m file line = None
  | _ => True
  end ->
  consistent (after_call m c).
Proof.
  intros Hwf Hcon Hfree.
  pose proof (well_formed_keys_below m Hwf) as Hbelow.
  pose proof Hwf as (_ & Hids & Hkeys & _).
  pose proof Hcon as [Hrefs Hcons].
  destruct c as [file line cond ign|arg| |file line g l|id n];
    unfold after_call.
  - (* add_breakpoint *)
    assert (Hfresh : ~ In (next_bp_id m) (PyDict.keys (breakpoints_by_id m))).
    { intros Hin. apply Hbelow in Hin. lia. }
    split.
    + simpl. rewrite dict_set_fresh by assumption. rewrite map_app.
      apply NoDup_app. split; [exact Hrefs|]. split; [|apply NoDup_singleton].
      intros ref Hin Hin2. apply list_elem_of_In in Hin, Hin2.
      destruct Hin2 as [<-|[]].
      apply in_map_iff in Hin as ([k v] & Hv & Hin). simpl in Hv. subst v.
      rewrite Forall_forall in Hids.
      apply list_elem_of_In, Hids in Hin. simpl in Hin. lia.
    + intros id ref Hget. simpl breakpoints_by_id in Hget.
      destruct (decide (next_bp_id m = id)) as [<-|Hne].
      * rewrite dict_get_set_eq in Hget. injection Hget as <-.
        exists (BreakpointInfo.init line file cond ign).
        split; [apply objects_added|].
        simpl file_abs. simpl lineno. rewrite at_location_after_add.
        rewrite decide_True by auto. reflexivity.
      * rewrite dict_get_set_ne in Hget by assumption.
        destruct (Hcons id ref Hget) as (bp & Hobj & Hat).
        exists bp. split.
        -- simpl. apply lookup_app_l_Some, Hobj.
        -- rewrite at_location_after_add.
           destruct (decide _) as [[Hf Hl]|]; [|assumption].
           rewrite <- Hf, <- Hl in Hat. congruence.
  - (* clear_breakpoint *)
    unfold clear_breakpoint. destruct arg as [id|[[file line]|]].
    + destruct (truthy_int id); [|exact Hcon].
      apply remove_by_id_consistent; assumption.
    + destruct (truthy_str file && truthy_int line); [|exact Hcon].
      destruct (at_location m file line); [|exact Hcon].
      apply remove_by_id_consistent; assumption.
    + exact Hcon.
  - (* clear_all_breakpoints *)
    split; [constructor | discriminate].
  - (* check_breakpoint *)
    destruct (store_update_shape m (check_breakpoint m file line g l).1)
      as (Hbf & Hby & _ & Hlen & Hobjs); [left; eauto|].
    split; [rewrite Hby; exact Hrefs|].
    intros id ref. rewrite Hby. intros Hget.
    destruct (Hcons id ref Hget) as (bp & Hobj & Hat).
    destruct (lookup_lt_is_Some_2 (objects (check_breakpoint m file line g l).1)
                ref) as [bp' Hbp'].
    { rewrite Hlen. eapply lookup_lt_Some, Hobj. }
    destruct (Hobjs ref bp' Hbp') as (bp0 & Hbp0 & Hf & Hl & _).
    rewrite Hobj in Hbp0. injection Hbp0 as <-.
    exists bp'. split; [assumption|].
    unfold at_location. rewrite Hbf, Hf, Hl. exact Hat.
  - (* set_ignore_count *)
    destruct (store_update_shape m (set_ignore_count m id n).1)
      as (Hbf & Hby & _ & Hlen & Hobjs); [right; eauto|].
    split; [rewrite Hby; exact Hrefs|].
    intros id' ref. rewrite Hby. intros Hget.
    destruct (Hcons id' ref Hget) as (bp & Hobj & Hat).
    destruct (lookup_lt_is_Some_2 (objects (set_ignore_count m id n).1) ref)
      as [bp' Hbp'].
    { rewrite Hlen. eapply lookup_lt_Some, Hobj. }
    destruct (Hobjs ref bp' Hbp') as (bp0 & Hbp0 & Hf & Hl & _).
    rewrite Hobj in Hbp0. injection Hbp0 as <-.
    exists bp'. split; [assumption|].
    unfold at_location. rewrite Hbf, Hf, Hl. exact Hat.
Qed.

Lemma consistent_after_calls calls : forall m,
  well_formed m -> consistent m -> adds_at_free_locations m calls ->
  consistent (fold_left after_call calls m).
Proof.
  induction calls as [|c rest IH]; intros m Hwf Hcon Hfree; [exact Hcon|].
  simpl in *. destruct Hfree as [Hc Hrest].
  apply IH; [apply well_formed_after_call, Hwf | | exact Hrest].
  apply consistent_after_call; [assumption..|].
  destruct c; auto.
Qed.
End registry_indices.

(** ** What the registry guarantees *)
Section registry_guarantees.
Context `{Host}.
Import BreakpointManager Registry.
Local Arguments check_breakpoint : simpl never.

(** X1.  Ids are given in the order of the additions and never reused:
    whatever was cleared in between, an [add_breakpoint] returns one more
    than the number of earlier additions, and the ids in the index are
    among those already given. *)
Theorem ids_count_the_additions
  (calls : list call) (file : string) (line : Z) (cond : option string)
  (ign : Z) :
  (add_breakpoint (after_calls calls) file line cond ign).2
  = 1 + Z.of_nat (additions calls)
  /\ Forall (fun id => 1 <= id <= Z.of_nat (additions calls))
       (PyDict.keys (breakpoints_by_id (after_calls calls))).
Proof.
  pose proof (next_bp_id_after_calls calls BreakpointManager.init) as Hnext.
  simpl in Hnext. fold (after_calls calls) in Hnext.
  split; [exact Hnext|].
  apply Forall_forall. intros id Hin.
  pose proof (well_formed_keys_below (after_calls calls)
                (well_formed_after_calls calls _ well_formed_init) id
                (proj1 (list_elem_of_In _ _) Hin)) as Hb.
  lia.
Qed.

(** X2.  No method of the registry disables a breakpoint: after any
    sequence of calls every instance in the store is enabled. *)
Theorem no_call_disables_a_breakpoint (calls : list call) :
  Forall (fun bp => enabled bp = true) (objects (after_calls calls)).
Proof.
  apply (well_formed_after_calls calls _ well_formed_init).
Qed.

(** X3.  As long as no breakpoint is added at a location that already
    holds one, [clear_breakpoint] never raises [KeyError]: by id it returns
    whether the id was in the index (and raises [TypeError] for the id 0),
    and by location it returns a boolean as well. *)
Theorem clear_is_safe_without_duplicates
  (calls : list call) (arg : clear_arg) :
  adds_at_free_locations BreakpointManager.init calls ->
  (clear_breakpoint (after_calls calls) arg).2 <> Raise KeyError
  /\ forall id,
      (clear_breakpoint (after_calls calls) (ById id)).2
      = if truthy_int id
        then Ok (bool_decide
                   (id ∈ PyDict.keys (breakpoints_by_id (after_calls calls))))
        else Raise TypeError.
Proof.
  intros Hfree.
  pose proof (well_formed_after_calls calls _ well_formed_init) as Hwf.
  pose proof (consistent_after_calls calls _ well_formed_init consistent_init
                Hfree) as Hcon.
  fold (after_calls calls) in Hwf, Hcon.
  assert (Hrem : forall a, (remove_by_id (after_calls calls) a).2
                           <> Raise KeyError).
  { intros a. destruct (remove_by_id_consistent _ a Hwf Hcon) as [_ ->].
    discriminate. }
  split.
  - unfold clear_breakpoint. destruct arg as [id|[[file line]|]].
    + destruct (truthy_int id); [apply Hrem | discriminate].
    + destruct (truthy_str file && truthy_int line); [|discriminate].
      destruct (at_location _ file line); [apply Hrem | discriminate].
    + discriminate.
  - intros id. unfold clear_breakpoint.
    destruct (truthy_int id) eqn:Hid; [|reflexivity].
    destruct (remove_by_id_consistent _ (Some id) Hwf Hcon) as [_ ->].
    rewrite Hid. reflexivity.
Qed.

Lemma rows_ignore_later_objects (objs extra : list BreakpointInfo)
  (by_id : list (Z * nat)) :
  Forall (fun entry => (entry.2 < length objs)%nat) by_id ->
  omap (fun '(bp_id, ref) =>
          (fun bp => (bp_id, bp)) <$> (objs ++ extra)%list !! ref) by_id
  = omap (fun '(bp_id, ref) => (fun bp => (bp_id, bp)) <$> objs !! ref) by_id.
Proof.
  induction 1 as [|[id ref] d Hlt _ IH]; [reflexivity|].
  simpl in Hlt. cbn. rewrite lookup_app_l by assumption.
  destruct (objs !! ref); cbn; [f_equal|]; exact IH.
Qed.

Lemma add_then_clear_round_trip
  (m : BreakpointManager) (file : string) (line : Z) (cond : option string)
  (ign : Z) :
  well_formed m -> file <> "" -> line <> 0 ->
  at_location m file line = None ->
  let added := (add_breakpoint m file line cond ign).1 in
  let cleared := clear_breakpoint added (ByLocation (Some (file, line))) in
  cleared.2 = Ok true
  /\ breakpoints_by_id cleared.1 = breakpoints_by_id m
  /\ (forall f l, at_location cleared.1 f l = at_location m f l)
  /\ list_breakpoints cleared.1 = list_breakpoints m.
Proof.
  intros Hwf Hfile Hline Hfree added cleared.
  pose proof (well_formed_keys_below m Hwf) as Hbelow.
  destruct Hwf as (Hnext & Hids & _).
  assert (Hfresh : ~ In (next_bp_id m) (PyDict.keys (breakpoints_by_id m))).
  { intros Hin. apply Hbelow in Hin. lia. }
  assert (Hby : breakpoints_by_id added
                = (breakpoints_by_id m ++ [(next_bp_id m, length (objects m))])%list).
  { subst added. simpl. apply dict_set_fresh, Hfresh. }
  assert (Hat : at_location added file line = Some (length (objects m))).
  { subst added. rewrite at_location_after_add, decide_True by auto.
    reflexivity. }
  assert (Hidof : id_of_object (breakpoints_by_id added) (length (objects m))
                  = Some (next_bp_id m)).
  { rewrite Hby. apply id_of_object_last.
    eapply Forall_impl; [exact Hids|]. intros [id ref]. simpl. lia. }
  assert (Hget : PyDict.get (breakpoints_by_id added) (next_bp_id m)
                 = Some (length (objects m)))
    by (subst added; simpl; apply dict_get_set_eq).
  assert (Hobj : objects added !! length (objects m)
                 = Some (BreakpointInfo.init line file cond ign))
    by apply objects_added.
  assert (Hobjs0 : objects added
                   = (objects m ++ [BreakpointInfo.init line file cond ign])%list)
    by reflexivity.
  assert (Hat_all : forall f l,
             at_location added f l
             = if decide (file = f /\ line = l)
               then Some (length (objects m)) else at_location m f l)
    by (intros f l; apply at_location_after_add).
  clearbody added.
  assert (Hclear : cleared = remove_by_id added (Some (next_bp_id m))).
  { subst cleared. unfold clear_breakpoint, truthy_str, truthy_int.
    destruct (String.eqb_spec file ""); [contradiction|].
    destruct (Z.eqb_spec line 0); [contradiction|].
    cbn [negb andb]. rewrite Hat, Hidof. reflexivity. }
  clearbody cleared. subst cleared.
  destruct (remove_by_id_present added (next_bp_id m) (length (objects m))
              (BreakpointInfo.init line file cond ign) (length (objects m)))
    as (Hres & Hobjs & _ & Hby' & Hloc); [lia | assumption..|].
  assert (Hsame : breakpoints_by_id (remove_by_id added (Some (next_bp_id m))).1
                  = breakpoints_by_id m).
  { rewrite Hby', Hby, <- (dict_set_fresh _ _ _ Hfresh).
    apply dict_remove_set_fresh, Hfresh. }
  split; [exact Hres|]. split; [exact Hsame|]. split.
  - intros f l. rewrite Hloc. simpl file_abs. simpl lineno.
    rewrite Hat_all.
    destruct (decide (file = f /\ line = l)) as [[<- <-]|Hne]; auto.
  - unfold list_breakpoints. rewrite Hsame, Hobjs, Hobjs0.
    rewrite rows_ignore_later_objects; [reflexivity|].
    eapply Forall_impl; [exact Hids|]. intros [id ref]. simpl. tauto.
Qed.

(** X4.  Setting a breakpoint at a free location and clearing it by that
    location is a round trip: the clear returns [True], and the id index,
    the breakpoint found at every location and the listing are as they were
    before the breakpoint was set. *)
Theorem add_then_clear_by_location
  (calls : list call) (file : string) (line : Z) (cond : option string)
  (ign : Z) :
  file <> "" -> line <> 0 ->
  at_location (after_calls calls) file line = None ->
  let added := (add_breakpoint (after_calls calls) file line cond ign).1 in
  let cleared := clear_breakpoint added (ByLocation (Some (file, line))) in
  cleared.2 = Ok true
  /\ breakpoints_by_id cleared.1 = breakpoints_by_id (after_calls calls)
  /\ (forall f l, at_location cleared.1 f l = at_location (after_calls calls) f l)
  /\ list_breakpoints cleared.1 = list_breakpoints (after_calls calls).
Proof.
  intros Hfile Hline Hfree.
  apply add_then_clear_round_trip; try assumption.
  apply (well_formed_after_calls calls _ well_formed_init).
Qed.

(** X5.  A condition that raises is never a stop, and the hit is still
    counted: for an enabled breakpoint whose ignore budget is spent and
    whose condition raises in the frame, [check_breakpoint] returns [None]
    and adds one to the hit counter. *)
Theorem failing_condition_counts_but_never_stops
  (m : BreakpointManager) (file : string) (line : Z) (ref : nat)
  (bp : BreakpointInfo) (c : string) (g l : Scope) :
  at_location m file line = Some ref -> objects m !! ref = Some bp ->
  enabled bp = true -> current_ignore_left bp <= 0 ->
  condition_str bp = Some c -> c <> "" -> eval_bool c g l = None ->
  check_breakpoint m file line g l
  = (set_objects
       (<[ref := BreakpointInfo.set_hit_count (hit_count bp + 1) bp]>
          (objects m)) m,
     None).
Proof.
  intros Hat Hobj He Hi Hc Hne Heval.
  rewrite (check_breakpoint_present m file line ref bp g l Hat Hobj).
  rewrite should_stop_spent by assumption.
  unfold condition_answer, truthy_str. rewrite Hc.
  destruct (String.eqb_spec c ""); [contradiction|]. simpl.
  rewrite Heval. reflexivity.
Qed.

(** X6.  An ignore count set through the id index is seen by the hits at
    the breakpoint's location: after [set_ignore_count(id, N)] on an
    enabled breakpoint, both of its counts are N and its next N hits all
    answer [None]. *)
Theorem ignore_count_set_by_id_applies_at_the_location
  (m : BreakpointManager) (id : Z) (ref : nat) (file : string) (line : Z)
  (bp : BreakpointInfo) (N : Z) (scopes : list (Scope * Scope)) :
  PyDict.get (breakpoints_by_id m) id = Some ref ->
  at_location m file line = Some ref -> objects m !! ref = Some bp ->
  enabled bp = true -> Z.of_nat (length scopes) = N ->
  let set := set_ignore_count m id N in
  set.2 = true
  /\ objects set.1 !! ref
     = Some (BreakpointInfo.set_ignore_left N
               (BreakpointInfo.set_initial_ignore N bp))
  /\ (successive_hits set.1 file line scopes).2
     = replicate (length scopes) None.
Proof.
  intros Hget Hat Hobj He Hlen set. subst set.
  unfold set_ignore_count. rewrite Hget, Hobj. simpl.
  split; [reflexivity|].
  assert (Hnew : <[ref := BreakpointInfo.set_ignore_left N
                            (BreakpointInfo.set_initial_ignore N bp)]>
                   (objects m) !! ref
                 = Some (BreakpointInfo.set_ignore_left N
                           (BreakpointInfo.set_initial_ignore N bp)))
    by (eapply lookup_after_store, Hobj).
  split; [exact Hnew|].
  eapply hits_within_budget; [exact Hat | exact Hnew | exact He |].
  simpl. lia.
Qed.

Lemma insert_row_In row rows x :
  In x (insert_row row rows) <-> x = row \/ In x rows.
Proof.
  induction rows as [|r rest IH]; simpl; [intuition|].
  destruct (row.1 <=? r.1); simpl; [intuition|].
  rewrite IH. intuition.
Qed.

Lemma insert_row_ascending row rows :
  ascending rows -> Forall (fun r => r.1 <> row.1) rows ->
  ascending (insert_row row rows).
Proof.
  induction rows as [|r rest IH]; simpl; intros Hasc Hne.
  - split; [constructor | exact I].
  - destruct Hasc as [Hr Hrest]. apply Forall_cons in Hne as [Hrne Hne].
    destruct (Z.leb_spec row.1 r.1) as [Hle|Hgt]; simpl.
    + split; [|auto]. constructor; [lia|].
      eapply Forall_impl; [exact Hr|]. simpl. intros. lia.
    + split; [|auto].
      apply Forall_forall. intros x Hin.
      apply list_elem_of_In, insert_row_In in Hin as [->|Hin]; [lia|].
      rewrite Forall_forall in Hr. apply Hr, list_elem_of_In, Hin.
Qed.

(** X7.  [list_breakpoints] shows the breakpoints of the id index, each
    one once, in increasing order of id, with the current state of its
    instance. *)
Theorem listing_is_ordered_by_id (calls : list call) (id : Z)
  (bp : BreakpointInfo) :
  ascending (list_breakpoints (after_calls calls))
  /\ (In (id, bp) (list_breakpoints (after_calls calls))
      <-> exists ref,
          PyDict.get (breakpoints_by_id (after_calls calls)) id = Some ref
          /\ objects (after_calls calls) !! ref = Some bp).
Proof.
  pose proof (well_formed_after_calls calls _ well_formed_init)
    as (_ & _ & Hkeys & _).
  fold (after_calls calls) in Hkeys.
  set (m := after_calls calls) in *. unfold list_breakpoints.
  set (row := fun '(bp_id, ref) =>
                (fun bp => (bp_id, bp)) <$> objects m !! ref).
  assert (Hrows : forall d x,
             In x (foldr insert_row [] (omap row d)) <-> In x (omap row d)).
  { intros d x. induction (omap row d) as [|r rest IH]; simpl; [tauto|].
    rewrite insert_row_In, IH. intuition. }
  assert (Hin : forall d i b,
             In (i, b) (omap row d)
             <-> exists ref, In (i, ref) d /\ objects m !! ref = Some b).
  { intros d i b. rewrite <- list_elem_of_In, list_elem_of_omap. split.
    - intros ([i' ref] & Hd & Hrow). unfold row in Hrow.
      destruct (objects m !! ref) as [b'|] eqn:Hobj; [|discriminate].
      injection Hrow as -> ->. exists ref. split; [|assumption].
      apply list_elem_of_In, Hd.
    - intros (ref & Hd & Hobj). exists (i, ref).
      split; [apply list_elem_of_In, Hd|]. unfold row. rewrite Hobj.
      reflexivity. }
  split.
  - revert Hkeys. generalize (breakpoints_by_id m) as d.
    induction d as [|[i ref] d IH]; intros Hnd; [exact I|].
    apply NoDup_cons in Hnd as [Hnotin Hnd]. specialize (IH Hnd).
    simpl. unfold row at 1. destruct (objects m !! ref) as [b|]; simpl;
      [|exact IH].
    apply insert_row_ascending; [exact IH|].
    apply Forall_forall. intros [i' b'] Hx Heq. simpl in Heq. subst i'.
    apply list_elem_of_In, Hrows, Hin in Hx as (ref' & Hd & _).
    apply Hnotin, list_elem_of_In. unfold PyDict.keys.
    apply in_map_iff. exists (i, ref'). auto.
  - rewrite Hrows, Hin. split; intros (ref & Hd & Hobj); exists ref.
    + split; [apply dict_In_get; assumption | assumption].
    + split; [apply dict_get_In; assumption | assumption].
Qed.
End registry_guarantees.

(** ** Sessions *)
Section session_guarantees.
Context `{Host}.
Import PyDebugger.
Local Arguments stepping_decision : simpl never.
Local Arguments BreakpointManager.check_breakpoint : simpl never.

Lemma stepping_decision_modes sm ev file frm depth :
  (active_modes (stepping_decision sm ev file frm depth).1.1
   <= active_modes sm)%nat.
Proof.
  unfold stepping_decision, active_modes.
  destruct sm as [r i o od u ud [[tf tl]|]]; simpl.
  all: destruct r, i, o, u, ev; simpl;
    repeat match goal with
           | |- context [if ?b then _ else _] => destruct b; simpl
           end; lia.
Qed.

Lemma prepare_prompt_modes dbg :
  (active_modes (state_manager (prepare_prompt dbg))
   <= active_modes (state_manager dbg))%nat.
Proof.
  unfold prepare_prompt. simpl. rewrite !capture_keeps_state_manager.
  destruct (_ || _ || _); simpl; rewrite ?capture_keeps_state_manager;
    [|lia].
  unfold active_modes. simpl.
  destruct (step_into _), (step_over _), (step_out _); simpl; lia.
Qed.

Lemma onecmd_modes c dbg :
  (active_modes (state_manager dbg) <= 1)%nat ->
  (active_modes (state_manager (onecmd c dbg).1) <= 1)%nat.
Proof.
  intros Hone.
  destruct ((onecmd c dbg).2) eqn:Hres.
  - destruct c; simpl in *; try discriminate;
      try (unfold active_modes; simpl; lia).
    + exact Hone.
    + unfold do_finish in *. destruct (execution_frame dbg) as [ef|];
        [|discriminate]. destruct (f_back ef); [|discriminate].
      unfold active_modes; simpl; lia.
    + unfold do_rununtil in *. destruct arg; try discriminate.
      destruct (execution_frame dbg); [|discriminate].
      unfold active_modes; simpl; lia.
  - rewrite onecmd_stays_keeps_state_manager by assumption. exact Hone.
Qed.

Lemma read_line_modes l dbg :
  (active_modes (state_manager dbg) <= 1)%nat ->
  (active_modes (state_manager (read_line l dbg).1) <= 1)%nat.
Proof.
  intros Hone. pose proof (read_line_runs l dbg) as Hrun.
  destruct (command_run l dbg) as [c|]; destruct Hrun as [-> _];
    [apply onecmd_modes|]; exact Hone.
Qed.

Lemma cmdloop_modes input : forall dbg,
  (active_modes (state_manager dbg) <= 1)%nat ->
  (active_modes (state_manager (cmdloop input dbg)) <= 1)%nat.
Proof.
  induction input as [|l rest IH]; intros dbg Hone;
    [apply (read_line_modes EndOfFile dbg Hone)|].
  simpl. pose proof (read_line_modes l dbg Hone) as Hl.
  destruct (read_line l dbg) as [dbg' stop]. simpl in Hl.
  destruct stop; auto.
Qed.

Lemma trace_dispatch_modes dbg frm ev input :
  (active_modes (state_manager dbg) <= 1)%nat ->
  (active_modes (state_manager (after (trace_dispatch dbg frm ev input)))
   <= 1)%nat.
Proof.
  intros Hone. unfold trace_dispatch.
  destruct (quit_debugger dbg); [exact Hone|].
  pose proof (decide_stop_state_manager dbg frm ev) as Hsm.
  pose proof (stepping_decision_modes (state_manager dbg) ev
                (abspath (co_filename frm)) frm
                (_get_frame_depth (Some frm))) as Hle.
  rewrite <- Hsm in Hle.
  destruct (decide_stop dbg frm ev) as [[dbg' stop] r]. simpl in *.
  destruct stop; simpl; [|lia].
  apply cmdloop_modes. pose proof (prepare_prompt_modes dbg'). lia.
Qed.

(** X8.  The stepping modes exclude one another: in every state a session
    reaches, through any events and any commands, at most one of step-into,
    step-over, step-out and the [until] target is set. *)
Theorem at_most_one_stepping_mode
  (entry_exec_frame : frame) (steps : list (frame * event * list line)) :
  (active_modes (state_manager (run_session (init entry_exec_frame) steps))
   <= 1)%nat.
Proof.
  assert (Hinit : (active_modes (state_manager (init entry_exec_frame))
                   <= 1)%nat).
  { unfold init. rewrite capture_keeps_state_manager. simpl.
    unfold active_modes. simpl. lia. }
  revert Hinit. generalize (init entry_exec_frame) as dbg.
  induction steps as [|[[frm ev] input] rest IH]; intros dbg Hone;
    [exact Hone|].
  simpl. apply IH, trace_dispatch_modes, Hone.
Qed.

Lemma stepping_stop_skips_breakpoints dbg frm ev input :
  quit_debugger dbg = false ->
  (stepping_decision (state_manager dbg) ev (abspath (co_filename frm)) frm
     (_get_frame_depth (Some frm))).1.2 = true ->
  stopped (trace_dispatch dbg frm ev input) = true
  /\ label (trace_dispatch dbg frm ev input)
     = (stepping_decision (state_manager dbg) ev (abspath (co_filename frm))
          frm (_get_frame_depth (Some frm))).2
  /\ exists prompt,
      at_prompt (trace_dispatch dbg frm ev input) = Some prompt
      /\ breakpoint_manager prompt = breakpoint_manager dbg.
Proof.
  intros Hq Hstop. unfold trace_dispatch, decide_stop. rewrite Hq. simpl.
  destruct (stepping_decision _ _ _ _ _) as [[sm stop] r]. simpl in Hstop.
  subst stop. simpl. split; [reflexivity|]. split; [reflexivity|].
  eexists. split; [reflexivity|].
  rewrite prepare_prompt_keeps_breakpoints. reflexivity.
Qed.

(** X9.  After [step] the very next event stops, whatever its kind and its
    depth, and no breakpoint is consulted for it: the registry at the
    prompt is the one the session had, with no hit counted. *)
Theorem step_stops_at_the_next_event
  (dbg : PyDebugger) (frm : frame) (ev : event) (input : list line) :
  quit_debugger dbg = false ->
  stopped (trace_dispatch (do_step dbg).1 frm ev input) = true
  /\ exists prompt,
      at_prompt (trace_dispatch (do_step dbg).1 frm ev input) = Some prompt
      /\ breakpoint_manager prompt = breakpoint_manager dbg.
Proof.
  intros Hq.
  destruct (stepping_stop_skips_breakpoints (do_step dbg).1 frm ev input)
    as (Hs & _ & Hp); [exact Hq | | exact (conj Hs Hp)].
  unfold stepping_decision. simpl. destruct ev; reflexivity.
Qed.

(** X10.  An [exception] event stops a live session in every state, with
    the label "Exception", and without a look at the breakpoints. *)
Theorem exception_always_stops
  (dbg : PyDebugger) (frm : frame) (input : list line) :
  quit_debugger dbg = false ->
  stopped (trace_dispatch dbg frm Exception input) = true
  /\ label (trace_dispatch dbg frm Exception input) = Some ExceptionRaised
  /\ exists prompt,
      at_prompt (trace_dispatch dbg frm Exception input) = Some prompt
      /\ breakpoint_manager prompt = breakpoint_manager dbg.
Proof.
  intros Hq.
  apply (stepping_stop_skips_breakpoints dbg frm Exception input Hq).
  reflexivity.
Qed.

(** X11.  After [continue], an event of any kind - [call] and [return]
    as well as [line] - stops exactly when it is an [exception] or when the
    breakpoint at its file and line answers; an event that passes leaves
    the session running. *)
Theorem continue_stops_only_for_breakpoints_and_exceptions
  (dbg : PyDebugger) (frm : frame) (ev : event) (input : list line) :
  quit_debugger dbg = false ->
  let hit :=
    BreakpointManager.check_breakpoint (breakpoint_manager dbg)
      (abspath (co_filename frm)) (f_lineno frm) (f_globals frm)
      (f_locals frm) in
  let d := trace_dispatch (do_continue dbg).1 frm ev input in
  stopped d
  = match ev with
    | Exception => true
    | _ => bool_decide (is_Some hit.2)
    end
  /\ (stopped d = false ->
      running (state_manager (after d)) /\ breakpoint_manager (after d) = hit.1).
Proof.
  intros Hq hit d. subst hit d.
  set (dbg1 := (do_continue dbg).1).
  assert (Hrun : running (state_manager dbg1))
    by (unfold running; simpl; auto).
  assert (Hbm : breakpoint_manager dbg1 = breakpoint_manager dbg)
    by reflexivity.
  assert (Hq1 : quit_debugger dbg1 = false) by exact Hq.
  clearbody dbg1. rewrite <- Hbm.
  unfold trace_dispatch, decide_stop. rewrite Hq1. simpl.
  pose proof Hrun as (Hr & Hi & Ho & Hu & Hl).
  pose proof (stepping_decision_without_request (state_manager dbg1) ev
                (abspath (co_filename frm)) frm
                (_get_frame_depth (Some frm)) Hr) as Hdec.
  pose proof (stepping_decision_state_when_passing (state_manager dbg1) ev
                (abspath (co_filename frm)) frm
                (_get_frame_depth (Some frm)) Hr) as Hsame.
  destruct (stepping_decision _ _ _ _ _) as [[sm stop] r]. simpl in *.
  rewrite Hi, Ho, Hu, Hl in Hdec.
  destruct ev; simpl in Hdec; subst stop; simpl;
    try (rewrite (Hsame eq_refl);
         destruct (BreakpointManager.check_breakpoint _ _ _ _ _)
           as [m [ref|]]; simpl;
         (split; [reflexivity|]); intros Hpass; try discriminate;
         split; [exact Hrun | reflexivity]).
  split; [reflexivity | discriminate].
Qed.

(** X12.  [quit] is final.  When the operator answers a stop with [quit],
    under either spelling, or the input ends there, the call returns [None]
    with the quit flag set, and from then on no event stops, changes the
    session or asks to keep tracing. *)
Theorem quit_is_final
  (dbg : PyDebugger) (frm : frame) (ev : event) (quit : line)
  (rest : list line) (steps : list (frame * event * list line)) :
  quit = Named CmdQuit \/ quit = Aliased CmdQuit \/ quit = EndOfFile ->
  stopped (trace_dispatch dbg frm ev (quit :: rest)) = true ->
  let quitted := after (trace_dispatch dbg frm ev (quit :: rest)) in
  keeps_tracing (trace_dispatch dbg frm ev (quit :: rest)) = false
  /\ quit_debugger quitted = true
  /\ run_session quitted steps = quitted
  /\ Forall (fun step =>
               stopped (trace_dispatch quitted step.1.1 step.1.2 step.2)
               = false
               /\ keeps_tracing
                    (trace_dispatch quitted step.1.1 step.1.2 step.2)
                  = false) steps.
Proof.
  intros Hquit Hstop quitted.
  assert (Hq : quit_debugger quitted = true).
  { subst quitted. unfold trace_dispatch in *.
    destruct (quit_debugger dbg); [discriminate|].
    destruct (decide_stop dbg frm ev) as [[dbg' stop] r].
    destruct stop; [|discriminate].
    destruct Hquit as [->|[->| ->]]; reflexivity. }
  assert (Hk : keeps_tracing (trace_dispatch dbg frm ev (quit :: rest))
               = false).
  { unfold trace_dispatch in *.
    destruct (quit_debugger dbg); [reflexivity|].
    destruct (decide_stop dbg frm ev) as [[dbg' stop] r].
    destruct stop; [|discriminate].
    destruct Hquit as [->|[->| ->]]; reflexivity. }
  clearbody quitted.
  assert (Hone : forall f e i,
             trace_dispatch quitted f e i
             = {| after := quitted; stopped := false; label := None;
                  at_prompt := None; keeps_tracing := false |}).
  { intros f e i. unfold trace_dispatch. rewrite Hq. reflexivity. }
  split; [exact Hk|]. split; [exact Hq|]. split.
  - induction steps as [|[[f e] i] more IH]; [reflexivity|].
    simpl. rewrite Hone. exact IH.
  - apply Forall_forall. intros [[f e] i] _. simpl. rewrite Hone. auto.
Qed.

Lemma caller_chain_starts_with_frame frm :
  exists rest, caller_chain frm = frm :: rest.
Proof. destruct frm. simpl. eauto. Qed.

Lemma index_of_first frm rest : index_of (frm :: rest) frm = Some 0.
Proof. simpl. unfold same_frame. rewrite Nat.eqb_refl. reflexivity. Qed.

Lemma prepare_prompt_snapshot dbg frm :
  execution_frame dbg = Some frm ->
  _full_stack_at_stop (prepare_prompt dbg) = caller_chain frm
  /\ _interaction_stack_idx (prepare_prompt dbg) = 0
  /\ interaction_frame (prepare_prompt dbg) = Some frm
  /\ execution_frame (prepare_prompt dbg) = Some frm.
Proof.
  intros Hex. unfold prepare_prompt, _capture_full_stack. rewrite Hex.
  destruct (caller_chain_starts_with_frame frm) as [rest Hchain].
  simpl. rewrite Hchain, index_of_first. simpl.
  destruct (_ || _ || _); simpl; rewrite ?Hex; auto.
Qed.

Lemma decide_stop_execution_frame dbg frm ev :
  execution_frame (decide_stop dbg frm ev).1.1 = Some frm.
Proof.
  unfold decide_stop. simpl.
  destruct (stepping_decision _ _ _ _ _) as [[sm stop] r]. simpl.
  destruct stop; [reflexivity|].
  destruct (BreakpointManager.check_breakpoint _ _ _ _ _) as [m [ref|]];
    reflexivity.
Qed.

(** X13.  Every stop takes a new snapshot: at the prompt the captured
    stack is the caller chain of the frame of the event, innermost first,
    with as many frames as the depth of that frame, and both the execution
    frame and the inspection cursor are that frame, at index 0. *)
Theorem stop_captures_the_stack
  (dbg : PyDebugger) (frm : frame) (ev : event) (input : list line)
  (prompt : PyDebugger) :
  at_prompt (trace_dispatch dbg frm ev input) = Some prompt ->
  _full_stack_at_stop prompt = caller_chain frm
  /\ Z.of_nat (length (_full_stack_at_stop prompt))
     = _get_frame_depth (Some frm)
  /\ _full_stack_at_stop prompt !! 0%nat = Some frm
  /\ _interaction_stack_idx prompt = 0
  /\ interaction_frame prompt = Some frm
  /\ execution_frame prompt = Some frm.
Proof.
  unfold trace_dispatch. destruct (quit_debugger dbg); [discriminate|].
  pose proof (decide_stop_execution_frame dbg frm ev) as Hex.
  destruct (decide_stop dbg frm ev) as [[dbg' stop] r]. simpl in Hex.
  destruct stop; [|discriminate]. simpl. intros [= <-].
  destruct (prepare_prompt_snapshot dbg' frm Hex) as (Hs & Hi & Hf & He).
  rewrite Hs. repeat split; try assumption.
  destruct (caller_chain_starts_with_frame frm) as [rest ->]. reflexivity.
Qed.

(** X14.  A command that does not resume changes nothing but the
    inspection cursor: the stepping state, the registry, the execution
    frame, the captured stack and the quit flag are as before. *)
Theorem command_that_stays_keeps_the_session
  (c : command) (dbg : PyDebugger) :
  (onecmd c dbg).2 = false ->
  state_manager (onecmd c dbg).1 = state_manager dbg
  /\ breakpoint_manager (onecmd c dbg).1 = breakpoint_manager dbg
  /\ execution_frame (onecmd c dbg).1 = execution_frame dbg
  /\ _full_stack_at_stop (onecmd c dbg).1 = _full_stack_at_stop dbg
  /\ quit_debugger (onecmd c dbg).1 = quit_debugger dbg.
Proof.
  destruct c; simpl; try discriminate.
  - unfold do_finish. destruct (execution_frame dbg) as [ef|] eqn:Hex;
      [destruct (f_back ef)|]; simpl; rewrite ?Hex;
      intros Hstay; try discriminate; repeat split; reflexivity.
  - unfold do_rununtil.
    destruct arg; [|destruct (execution_frame dbg) eqn:Hex|]; simpl;
      rewrite ?Hex; intros Hstay; try discriminate; repeat split;
      reflexivity.
  - intros _. unfold do_up_stack, move_inspection.
    destruct (_full_stack_at_stop dbg) eqn:Hs; [rewrite ?Hs; auto|].
    destruct arg; simpl; rewrite ?Hs; auto; destruct (_ && _); simpl;
      rewrite ?Hs; auto.
  - intros _. unfold do_down_stack, move_inspection.
    destruct (_full_stack_at_stop dbg) eqn:Hs; [rewrite ?Hs; auto|].
    destruct arg; simpl; rewrite ?Hs; auto; destruct (_ && _); simpl;
      rewrite ?Hs; auto.
Qed.
End session_guarantees.

(** ** Moving the inspection cursor *)
Section navigation_guarantees.
Context `{Host}.
Import PyDebugger.

Lemma navigate_cases dir arg_str dbg :
  (navigate dir arg_str dbg).1 = dbg
  \/ exists c,
      count_of arg_str = Some c
      /\ 0 <= requested_index dir c dbg
           < Z.of_nat (length (_full_stack_at_stop dbg))
      /\ navigate dir arg_str dbg
         = (set_inspection (requested_index dir c dbg)
              (_full_stack_at_stop dbg
                 !! Z.to_nat (requested_index dir c dbg)) dbg,
            FrameLocation (requested_index dir c dbg)).
Proof.
  assert (Hmove : forall n text,
             (move_inspection n text dbg).1 = dbg
             \/ 0 <= n < Z.of_nat (length (_full_stack_at_stop dbg))
                /\ move_inspection n text dbg
                   = (set_inspection n
                        (_full_stack_at_stop dbg !! Z.to_nat n) dbg,
                      FrameLocation n)).
  { intros n text. unfold move_inspection.
    destruct (Z.leb_spec 0 n); destruct (Z.ltb_spec n
      (Z.of_nat (length (_full_stack_at_stop dbg)))); simpl; auto. }
  unfold navigate, do_up_stack, do_down_stack, requested_index.
  destruct (_full_stack_at_stop dbg) as [|f stack] eqn:Hs.
  { destruct dir; auto. }
  rewrite <- Hs in *.
  destruct dir, arg_str; try (left; reflexivity).
  all: match goal with
    | |- context [move_inspection ?n ?t ?d] =>
        destruct (Hmove n t) as [Hsame|[Hin Heq]];
          [left; exact Hsame | right]
    end.
  all: eexists; split; [reflexivity|]; split; [exact Hin | exact Heq].
Qed.

Lemma navigate_keeps_cursor dir arg_str dbg :
  cursor_in_snapshot dbg ->
  cursor_in_snapshot (navigate dir arg_str dbg).1
  /\ _full_stack_at_stop (navigate dir arg_str dbg).1 = _full_stack_at_stop dbg
  /\ execution_frame (navigate dir arg_str dbg).1 = execution_frame dbg.
Proof.
  intros Hok.
  destruct (navigate_cases dir arg_str dbg) as [->|(c & _ & Hin & ->)];
    [auto|].
  simpl. split; [|auto]. split; [exact Hin | reflexivity].
Qed.

(** X15.  However the operator moves with [up] and [down] after a stop,
    the inspection cursor stays on a frame of the captured stack: its index
    is within the bounds and the inspected frame is the frame at that
    index; the captured stack and the execution frame do not change. *)
Theorem cursor_stays_in_the_snapshot
  (dbg : PyDebugger) (frm : frame) (ev : event) (input : list line)
  (prompt : PyDebugger) (moves : list (direction * int_arg)) :
  at_prompt (trace_dispatch dbg frm ev input) = Some prompt ->
  cursor_in_snapshot (navigate_all moves prompt)
  /\ _full_stack_at_stop (navigate_all moves prompt) = caller_chain frm
  /\ execution_frame (navigate_all moves prompt) = Some frm.
Proof.
  intros Hprompt.
  assert (Hstart : cursor_in_snapshot prompt
                   /\ _full_stack_at_stop prompt = caller_chain frm
                   /\ execution_frame prompt = Some frm).
  { unfold trace_dispatch in Hprompt.
    destruct (quit_debugger dbg); [discriminate|].
    pose proof (decide_stop_execution_frame dbg frm ev) as Hex.
    destruct (decide_stop dbg frm ev) as [[dbg' stop] r]. simpl in Hex.
    destruct stop; [|discriminate]. simpl in Hprompt.
    injection Hprompt as <-.
    destruct (prepare_prompt_snapshot dbg' frm Hex) as (Hs & Hi & Hf & He).
    split; [|auto]. unfold cursor_in_snapshot. rewrite Hs, Hi, Hf.
    destruct (caller_chain_starts_with_frame frm) as [rest ->]. simpl.
    split; [lia | reflexivity]. }
  clear Hprompt. revert prompt Hstart.
  induction moves as [|[dir arg] rest IH]; intros p Hp; [exact Hp|].
  unfold navigate_all in *. simpl. apply IH.
  destruct Hp as (Hok & Hs & He).
  destruct (navigate_keeps_cursor dir arg p Hok) as (Hok' & Hs' & He').
  rewrite Hs', He'. auto.
Qed.

Lemma navigate_accepted dir arg_str c dbg :
  count_of arg_str = Some c ->
  0 <= requested_index dir c dbg
    < Z.of_nat (length (_full_stack_at_stop dbg)) ->
  navigate dir arg_str dbg
  = (set_inspection (requested_index dir c dbg)
       (_full_stack_at_stop dbg !! Z.to_nat (requested_index dir c dbg)) dbg,
     FrameLocation (requested_index dir c dbg)).
Proof.
  intros Hc Hin.
  assert (Hmove : forall n text,
             0 <= n < Z.of_nat (length (_full_stack_at_stop dbg)) ->
             move_inspection n text dbg
             = (set_inspection n (_full_stack_at_stop dbg !! Z.to_nat n) dbg,
                FrameLocation n)).
  { intros n text Hn. unfold move_inspection.
    destruct (Z.leb_spec 0 n); [|lia].
    destruct (Z.ltb_spec n (Z.of_nat (length (_full_stack_at_stop dbg))));
      [reflexivity | lia]. }
  unfold navigate, do_up_stack, do_down_stack, requested_index in *.
  destruct (_full_stack_at_stop dbg) as [|f stack] eqn:Hs;
    [simpl in Hin; lia|].
  rewrite <- Hs in *.
  destruct dir, arg_str; simpl in Hc; inversion Hc; subst c;
    apply Hmove, Hin.
Qed.

(** X16.  A move that is accepted is undone by the same move in the other
    direction: [up N] then [down N] (or [down N] then [up N]) brings the
    session back to the state it was in. *)
Theorem move_and_move_back
  (dir : direction) (arg_str : int_arg) (c : Z) (dbg : PyDebugger) :
  cursor_in_snapshot dbg -> count_of arg_str = Some c ->
  0 <= requested_index dir c dbg
    < Z.of_nat (length (_full_stack_at_stop dbg)) ->
  (navigate (opposite dir) arg_str (navigate dir arg_str dbg).1).1 = dbg.
Proof.
  intros [Hidx Hframe] Hc Hin.
  rewrite (navigate_accepted dir arg_str c dbg Hc Hin). simpl fst.
  set (moved := set_inspection (requested_index dir c dbg)
                  (_full_stack_at_stop dbg
                     !! Z.to_nat (requested_index dir c dbg)) dbg).
  assert (Hreq : requested_index (opposite dir) c moved
                 = _interaction_stack_idx dbg).
  { subst moved. destruct dir; unfold requested_index; simpl; lia. }
  rewrite (navigate_accepted (opposite dir) arg_str c moved Hc)
    by (rewrite Hreq; exact Hidx).
  rewrite Hreq. subst moved. simpl fst.
  unfold set_inspection. simpl. rewrite <- Hframe.
  destruct dbg. reflexivity.
Qed.
End navigation_guarantees.

(** ** The finder on any dotted path *)
Section finder_guarantees.
Import FunctionFinder Spec.

(** X17.  For every tree, every location text, of any number of dotted
    parts, and any number of frames left: the finder returns whenever the
    frames exceed four times the depth of the tree, and the only exception
    it raises is [RecursionError]; when it returns, an answer is the line
    where a function with exactly that nested-name path begins, and there
    is an answer whenever such a function is declared. *)
Theorem resolver_finds_exactly_the_declared_functions
  (tree : node) (func_spec : string) (frames : nat) :
  ((4 * depth tree < frames)%nat ->
   exists target,
     _find_func_lineno_using_ast frames (Some tree) func_spec = Ok target)
  /\ (forall e,
        _find_func_lineno_using_ast frames (Some tree) func_spec = Raise e ->
        e = RecursionError)
  /\ (forall target,
        _find_func_lineno_using_ast frames (Some tree) func_spec = Ok target ->
        (forall line, target = Some line ->
                      declared_at (split "." func_spec) tree line)
        /\ ((exists line, declared_at (split "." func_spec) tree line) ->
            is_Some target)).
Proof.
  destruct (resolver_sound_and_complete frames tree func_spec)
    as (Hreturns & Hraises & Hanswer).
  split; [exact Hreturns|]. split; [exact Hraises|].
  intros target Hres. specialize (Hanswer target Hres).
  destruct target as [found|].
  - split; [intros line [= <-]; exact Hanswer | eauto].
  - split; [discriminate|]. intros [line Hdecl].
    destruct (Hanswer line Hdecl).
Qed.
End finder_guarantees.

(** ** Resolving locations *)
Section resolver_guarantees.
Context `{Host} `{Runtime}.
Import Locations FunctionFinder Spec BreakpointManager.

Lemma rsplit_once_absent sep s :
  has_char sep s = false -> rsplit_once sep s = None.
Proof.
  induction s as [|c s IH]; [reflexivity|]. simpl.
  intros Hno. apply orb_false_iff in Hno as [Hc Hs].
  rewrite (IH Hs), Hc. reflexivity.
Qed.

Lemma rsplit_once_last sep a b :
  has_char sep b = false ->
  rsplit_once sep (String.append a (String sep b)) = Some (a, b).
Proof.
  intros Hb. induction a as [|c a IH]; simpl.
  - rewrite (rsplit_once_absent sep b Hb), Ascii.eqb_refl. reflexivity.
  - rewrite IH. reflexivity.
Qed.

(** X18.  A file that has just been loaded is not read again while its
    modification time stays the same: the next load returns the same tree
    from the cache, whatever the file now contains, and leaves the cache as
    it is. *)
Theorem reload_uses_the_cache
  (disk later : Disk) (ast_cache : gmap string (Mtime * node))
  (filename_abs : string) (tree : node) :
  (_load_ast_with_cache disk ast_cache filename_abs).2 = Some tree ->
  getmtime later filename_abs = getmtime disk filename_abs ->
  _load_ast_with_cache later
    (_load_ast_with_cache disk ast_cache filename_abs).1 filename_abs
  = ((_load_ast_with_cache disk ast_cache filename_abs).1, Some tree).
Proof.
  unfold _load_ast_with_cache. intros Hload ->.
  destruct (getmtime disk filename_abs) as [mtime|]; [|discriminate].
  destruct (ast_cache !! filename_abs) as [[cached_mtime cached_tree]|]
    eqn:Hcache.
  - destruct (decide (mtime = cached_mtime)) as [->|Hne].
    + simpl in *. rewrite Hcache, decide_True by reflexivity. exact (f_equal _ Hload).
    + destruct (read_and_parse disk filename_abs); [|discriminate].
      simpl in *. injection Hload as ->.
      rewrite lookup_insert_eq, decide_True by reflexivity. reflexivity.
  - destruct (read_and_parse disk filename_abs); [|discriminate].
    simpl in *. injection Hload as ->.
    rewrite lookup_insert_eq, decide_True by reflexivity. reflexivity.
Qed.

(** X19.  What a load leaves in the cache: when it returns a tree, the
    entry of the file holds that tree with the file's current modification
    time; when it returns [None], the cache is unchanged; the entries of
    other files are never touched. *)
Theorem load_records_the_current_mtime
  (disk : Disk) (ast_cache : gmap string (Mtime * node))
  (filename_abs other : string) :
  let loaded := _load_ast_with_cache disk ast_cache filename_abs in
  match loaded.2 with
  | Some tree =>
      exists mtime,
        getmtime disk filename_abs = Some mtime
        /\ loaded.1 !! filename_abs = Some (mtime, tree)
  | None => loaded.1 = ast_cache
  end
  /\ (other <> filename_abs -> loaded.1 !! other = ast_cache !! other).
Proof.
  unfold _load_ast_with_cache.
  destruct (getmtime disk filename_abs) as [mtime|]; [|simpl; auto].
  destruct (ast_cache !! filename_abs) as [[cached_mtime cached_tree]|]
    eqn:Hcache.
  - destruct (decide (mtime = cached_mtime)) as [->|Hne]; [simpl; eauto|].
    destruct (read_and_parse disk filename_abs); simpl; [|auto].
    split; [exists mtime; split; [reflexivity | apply lookup_insert_eq]|].
    intros Hother. apply lookup_insert_ne. congruence.
  - destruct (read_and_parse disk filename_abs); simpl; [|auto].
    split; [exists mtime; split; [reflexivity | apply lookup_insert_eq]|].
    intros Hother. apply lookup_insert_ne. congruence.
Qed.

(** X20.  A location whose last part is an integer is resolved without a
    look at any file: the text is cut at its last colon, so the file part
    may contain colons itself, and without a colon the file is the context
    file; the cache is untouched and nothing is raised. *)
Theorem numeric_location_needs_no_file
  (frames : nat) (disk : Disk) (ast_cache : gmap string (Mtime * node))
  (file_part text context : string) (n : Z) :
  has_char ":" text = false -> int_of text = Some n ->
  parse_location_string frames disk ast_cache
    (String.append file_part (String ":" text)) context
  = (ast_cache, Ok (Some (abspath file_part, n)))
  /\ parse_location_string frames disk ast_cache text context
     = (ast_cache, Ok (Some (abspath context, n))).
Proof.
  intros Hno Hint. unfold parse_location_string.
  rewrite (rsplit_once_last ":" file_part text Hno).
  rewrite (rsplit_once_absent ":" text Hno), Hint. split; reflexivity.
Qed.

Lemma failed_load_keeps_the_cache
  (disk : Disk) (ast_cache : gmap string (Mtime * node))
  (filename_abs : string) :
  (_load_ast_with_cache disk ast_cache filename_abs).2 = None ->
  (_load_ast_with_cache disk ast_cache filename_abs).1 = ast_cache.
Proof.
  unfold _load_ast_with_cache.
  destruct (getmtime disk filename_abs) as [mtime|]; [|reflexivity].
  destruct (ast_cache !! filename_abs) as [[cached_mtime cached_tree]|].
  - destruct (decide (mtime = cached_mtime)); [discriminate|].
    destruct (read_and_parse disk filename_abs); [discriminate | reflexivity].
  - destruct (read_and_parse disk filename_abs); [discriminate | reflexivity].
Qed.

(** X21.  A symbolic location in a file that cannot be loaded (its
    modification time cannot be read, or it cannot be read and parsed)
    does not give "not found": the resolver raises [NameError]. *)
Theorem symbolic_location_in_unloadable_file_raises
  (frames : nat) (disk : Disk) (ast_cache : gmap string (Mtime * node))
  (text context : string) :
  has_char ":" text = false -> int_of text = None ->
  (_load_ast_with_cache disk ast_cache (abspath context)).2 = None ->
  parse_location_string frames disk ast_cache text context
  = (ast_cache, Raise NameError).
Proof.
  intros Hno Hint Hload. unfold parse_location_string.
  rewrite (rsplit_once_absent ":" text Hno), Hint.
  pose proof (failed_load_keeps_the_cache disk ast_cache
                (abspath context)) as Hsame.
  destruct (_load_ast_with_cache disk ast_cache (abspath context))
    as [cache' tree]. simpl in *. subst tree. rewrite Hsame by reflexivity.
  reflexivity.
Qed.

Lemma location_without_colon_and_with_integer
  (frames : nat) (disk : Disk) (ast_cache : gmap string (Mtime * node))
  (text context : string) (n : Z) :
  has_char ":" text = false -> int_of text = Some n ->
  parse_location_string frames disk ast_cache text context
  = (ast_cache, Ok (Some (abspath context, n))).
Proof.
  intros Hno Hint. unfold parse_location_string.
  rewrite (rsplit_once_absent ":" text Hno), Hint. reflexivity.
Qed.

Lemma location_with_colon_and_integer
  (frames : nat) (disk : Disk) (ast_cache : gmap string (Mtime * node))
  (file_part text context : string) (n : Z) :
  has_char ":" text = false -> int_of text = Some n ->
  parse_location_string frames disk ast_cache
    (String.append file_part (String ":" text)) context
  = (ast_cache, Ok (Some (abspath file_part, n))).
Proof.
  intros Hno Hint. unfold parse_location_string.
  rewrite (rsplit_once_last ":" file_part text Hno), Hint. reflexivity.
Qed.

(** X22.  A symbolic location in a file that loads resolves only to
    declared functions: an answer names the context file and a line, not 0,
    where a function with exactly that dotted path begins.  When no
    function has that path and the frames left exceed four times the depth
    of the tree, the answer is "not found"; the only exception raised is
    [RecursionError], and only with fewer frames than that. *)
Theorem symbolic_location_is_a_declared_function
  (frames : nat) (disk : Disk) (ast_cache : gmap string (Mtime * node))
  (text context : string) (tree : node) :
  has_char ":" text = false -> int_of text = None ->
  (_load_ast_with_cache disk ast_cache (abspath context)).2 = Some tree ->
  (forall file line,
      (parse_location_string frames disk ast_cache text context).2
      = Ok (Some (file, line)) ->
      file = abspath context /\ line <> 0
      /\ declared_at (split "." text) tree line)
  /\ ((forall line, ~ declared_at (split "." text) tree line) ->
      (4 * depth tree < frames)%nat ->
      (parse_location_string frames disk ast_cache text context).2 = Ok None)
  /\ (forall e,
        (parse_location_string frames disk ast_cache text context).2
        = Raise e ->
        e = RecursionError /\ (frames <= 4 * depth tree)%nat).
Proof.
  intros Hno Hint Hload. unfold parse_location_string.
  rewrite (rsplit_once_absent ":" text Hno), Hint.
  destruct (_load_ast_with_cache disk ast_cache (abspath context))
    as [cache' loaded]. simpl in Hload. subst loaded.
  destruct (resolver_sound_and_complete frames tree text)
    as (Hreturns & Hraises & Hanswer).
  destruct (_find_func_lineno_using_ast frames (Some tree) text)
    as [[found|]|e]; simpl.
  - specialize (Hanswer (Some found) eq_refl). simpl in Hanswer.
    unfold truthy_int. destruct (Z.eqb_spec found 0) as [->|Hnz]; simpl.
    + split; [discriminate|]. split; [reflexivity | discriminate].
    + split; [intros file line [= <- <-]; auto|].
      split; [|discriminate].
      intros Hnone. destruct (Hnone found Hanswer).
  - split; [discriminate|]. split; [reflexivity | discriminate].
  - split; [discriminate|]. split.
    + intros _ Hroom. destruct (Hreturns Hroom) as [answer Habs].
      discriminate.
    + intros e' [= <-]. split; [apply Hraises; reflexivity|].
      destruct (Nat.le_gt_cases frames (4 * depth tree)) as [Hle|Hgt];
        [exact Hle|].
      destruct (Hreturns Hgt) as [answer Habs]. discriminate.
Qed.

Lemma listing_holds_the_indexed (m : BreakpointManager) (id : Z) (ref : nat)
  (bp : BreakpointInfo) :
  In (id, ref) (breakpoints_by_id m) -> objects m !! ref = Some bp ->
  In (id, bp) (list_breakpoints m).
Proof.
  intros Hin Hobj. unfold list_breakpoints.
  induction (breakpoints_by_id m) as [|[i r] d IH]; [destruct Hin|].
  simpl. destruct Hin as [[= -> ->]|Hin].
  - rewrite Hobj. simpl. apply insert_row_In. auto.
  - destruct (objects m !! r); simpl; [|auto].
    apply insert_row_In. auto.
Qed.

(** X23.  [clear] followed by a number always means the breakpoint with
    that id, never the line: after [break L] in the inspected file,
    [clear L] with the same text removes nothing when no breakpoint has the
    id L (the breakpoint just set has the next free id, which is not L
    either); the breakpoint at line L is still set and listed. *)
Theorem clear_with_a_number_means_the_id
  (own_file : string) (frames : nat) (disk : Disk)
  (ast_cache : gmap string (Mtime * node))
  (text : string) (L : Z) (dbg : PyDebugger) (frm : frame) :
  interaction_frame dbg = Some frm ->
  has_char ":" text = false -> int_of text = Some L ->
  text <> "" -> lower text <> "all" ->
  abspath (co_filename frm) <> "" -> L <> 0 ->
  PyDict.get (breakpoints_by_id (breakpoint_manager dbg)) L = None ->
  L <> next_bp_id (breakpoint_manager dbg) ->
  exists set_bp rows,
    do_break own_file frames disk ast_cache text None dbg
    = (ast_cache, Ok (set_bp, Some rows))
    /\ In (next_bp_id (breakpoint_manager dbg),
           BreakpointInfo.init L (abspath (co_filename frm)) None 0) rows
    /\ do_clear own_file frames disk ast_cache text set_bp
       = (ast_cache, Ok (set_bp, Some rows))
    /\ at_location (breakpoint_manager set_bp) (abspath (co_filename frm)) L
       = Some (length (objects (breakpoint_manager dbg))).
Proof.
  intros Hframe Hno Hint Htext Hall Hfile HL0 Hfree Hnext.
  set (file := abspath (co_filename frm)) in *.
  set (m := breakpoint_manager dbg) in *.
  set (m1 := (add_breakpoint m file L None 0).1).
  assert (Hbreak : do_break own_file frames disk ast_cache text None dbg
                   = (ast_cache,
                      Ok (PyDebugger.set_breakpoint_manager m1 dbg,
                          Some (list_breakpoints m1)))).
  { unfold do_break, truthy_str.
    destruct (String.eqb_spec text ""); [contradiction|].
    cbn [negb andb]. rewrite Hframe.
    rewrite (location_without_colon_and_with_integer frames disk ast_cache
               text (co_filename frm) L Hno Hint).
    fold file. unfold truthy_str, truthy_int.
    destruct (String.eqb_spec file ""); [contradiction|].
    destruct (Z.eqb_spec L 0); [contradiction|]. reflexivity. }
  assert (Hclear : clear_breakpoint m1 (ById L) = (m1, Ok false)).
  { unfold clear_breakpoint, remove_by_id, truthy_int.
    destruct (Z.eqb_spec L 0); [contradiction|]. cbn [negb].
    replace (PyDict.get (breakpoints_by_id m1) L) with (@None nat);
      [reflexivity|].
    subst m1. simpl. rewrite dict_get_set_ne by congruence.
    symmetry. exact Hfree. }
  exists (PyDebugger.set_breakpoint_manager m1 dbg), (list_breakpoints m1).
  split; [exact Hbreak|]. split; [|split].
  - apply (listing_holds_the_indexed m1 _ (length (objects m))).
    + apply dict_get_In. subst m1. simpl. apply dict_get_set_eq.
    + apply objects_added.
  - unfold do_clear, truthy_str.
    destruct (String.eqb_spec text ""); [contradiction|].
    destruct (String.eqb_spec (lower text) "all"); [contradiction|].
    cbn [negb]. rewrite Hint.
    change (breakpoint_manager (PyDebugger.set_breakpoint_manager m1 dbg))
      with m1.
    rewrite Hclear. reflexivity.
  - change (breakpoint_manager (PyDebugger.set_breakpoint_manager m1 dbg))
      with m1.
    subst m1. rewrite at_location_after_add, decide_True by auto.
    reflexivity.
Qed.

(** X24.  The commands [break L] and [clear file:L] are a round trip: when
    the line holds no breakpoint and the file named in the [clear] is the
    inspected file, the listing printed after the [clear] is the listing
    from before the [break], and every location holds what it held. *)
Theorem break_then_clear_by_file_and_line
  (own_file : string) (frames : nat) (disk : Disk)
  (ast_cache : gmap string (Mtime * node))
  (file_text text : string) (L : Z) (dbg : PyDebugger) (frm : frame) :
  interaction_frame dbg = Some frm ->
  Registry.well_formed (breakpoint_manager dbg) ->
  has_char ":" text = false -> int_of text = Some L -> text <> "" ->
  L <> 0 -> abspath (co_filename frm) <> "" ->
  abspath file_text = abspath (co_filename frm) ->
  at_location (breakpoint_manager dbg) (abspath (co_filename frm)) L = None ->
  int_of (String.append file_text (String ":" text)) = None ->
  lower (String.append file_text (String ":" text)) <> "all" ->
  exists set_bp rows cleared,
    do_break own_file frames disk ast_cache text None dbg
    = (ast_cache, Ok (set_bp, Some rows))
    /\ do_clear own_file frames disk ast_cache
         (String.append file_text (String ":" text)) set_bp
       = (ast_cache,
          Ok (cleared, Some (list_breakpoints (breakpoint_manager dbg))))
    /\ forall f l,
        at_location (breakpoint_manager cleared) f l
        = at_location (breakpoint_manager dbg) f l.
Proof.
  intros Hframe Hwf Hno Hint Htext HL0 Hfile Hsame Hfree Hnoint Hall.
  set (file := abspath (co_filename frm)) in *.
  set (m1 := (add_breakpoint (breakpoint_manager dbg) file L None 0).1).
  assert (Hbreak : do_break own_file frames disk ast_cache text None dbg
                   = (ast_cache,
                      Ok (PyDebugger.set_breakpoint_manager m1 dbg,
                          Some (list_breakpoints m1)))).
  { unfold do_break, truthy_str.
    destruct (String.eqb_spec text ""); [contradiction|].
    cbn [negb andb]. rewrite Hframe.
    rewrite (location_without_colon_and_with_integer frames disk ast_cache text
               (co_filename frm) L Hno Hint).
    fold file. unfold truthy_str, truthy_int.
    destruct (String.eqb_spec file ""); [contradiction|].
    destruct (Z.eqb_spec L 0); [contradiction|]. reflexivity. }
  destruct (add_then_clear_round_trip (breakpoint_manager dbg) file L None 0
              Hwf Hfile HL0 Hfree) as (Hres & _ & Hloc & Hlist).
  fold m1 in Hres, Hloc, Hlist.
  destruct (clear_breakpoint m1 (ByLocation (Some (file, L))))
    as [m2 res] eqn:Hclear. simpl in Hres, Hloc, Hlist. subst res.
  exists (PyDebugger.set_breakpoint_manager m1 dbg), (list_breakpoints m1),
    (PyDebugger.set_breakpoint_manager m2
       (PyDebugger.set_breakpoint_manager m1 dbg)).
  split; [exact Hbreak|]. split; [|exact Hloc].
  unfold do_clear, truthy_str.
  destruct (String.eqb_spec (String.append file_text (String ":" text)) "")
    as [Hempty|_].
  { destruct file_text; discriminate. }
  destruct (String.eqb_spec
              (lower (String.append file_text (String ":" text))) "all");
    [contradiction|].
  cbn [negb]. rewrite Hnoint.
  pose proof (location_with_colon_and_integer frames disk ast_cache file_text text
                (co_filename frm) L Hno Hint) as Hparse.
  simpl interaction_frame. rewrite Hframe, Hparse, Hsame.
  change (breakpoint_manager (PyDebugger.set_breakpoint_manager m1 dbg))
    with m1.
  fold file. rewrite Hclear, Hlist. reflexivity.
Qed.
End resolver_guarantees.

(** ** The watch list *)
Section watch_guarantees.
Context `{Runtime}.
Import WatchList.

Lemma remove_first_sublist x l : remove_first x l `sublist_of` l.
Proof.
  induction l as [|y rest IH]; simpl; [constructor|].
  destruct (String.eqb y x).
  - apply sublist_cons. reflexivity.
  - apply sublist_skip, IH.
Qed.

Lemma after_call_sublist watched c :
  after_call watched c `sublist_of` watched
  \/ exists arg, arg <> "" /\ (arg ∉ watched)
                 /\ after_call watched c = (watched ++ [arg])%list.
Proof.
  destruct c as [arg|arg]; simpl.
  - unfold do_watch_expr, truthy_str.
    destruct (String.eqb_spec arg ""); simpl; [left; reflexivity|].
    destruct (decide (arg ∈ watched)) as [Hin|Hnotin].
    + rewrite bool_decide_eq_true_2 by assumption. left. reflexivity.
    + rewrite bool_decide_eq_false_2 by assumption. right. eauto.
  - left. unfold do_unwatch_expr.
    destruct (negb (truthy_str arg)); [reflexivity|].
    destruct (int_of arg) as [idx|].
    + destruct (_ && _); [apply sublist_delete | reflexivity].
    + destruct (bool_decide _); [apply remove_first_sublist | reflexivity].
Qed.

(** X25.  The watch list is a set in order of arrival: after any sequence
    of [watch] and [unwatch] commands it holds no expression twice and
    never the empty text. *)
Theorem watch_list_has_no_duplicates (calls : list call) :
  NoDup (after_calls calls) /\ ~ In "" (after_calls calls).
Proof.
  unfold after_calls.
  assert (Hgen : forall watched,
             NoDup watched /\ ~ In "" watched ->
             NoDup (fold_left after_call calls watched)
             /\ ~ In "" (fold_left after_call calls watched)).
  { induction calls as [|c rest IH]; intros watched Hw; [exact Hw|].
    simpl. apply IH. destruct Hw as [Hnd Hne].
    destruct (after_call_sublist watched c)
      as [Hsub|(arg & Harg & Hnotin & ->)].
    - split; [eapply sublist_NoDup; eassumption|].
      intros Hin. apply Hne, list_elem_of_In.
      eapply elem_of_sublist; [apply list_elem_of_In|]; eassumption.
    - split.
      + apply NoDup_app. split; [assumption|]. split; [|apply NoDup_singleton].
        intros x Hx Hx2. apply list_elem_of_In in Hx2.
        destruct Hx2 as [<-|[]]. contradiction.
      + intros Hin. apply in_app_iff in Hin as [Hin|Hin]; [contradiction|].
        destruct Hin as [->|[]]. congruence. }
  apply Hgen. split; [constructor|]. intros [].
Qed.

Lemma remove_first_appended x l :
  x ∉ l -> remove_first x (l ++ [x]) = l.
Proof.
  induction l as [|y rest IH]; simpl; intros Hnotin.
  - rewrite String.eqb_refl. reflexivity.
  - destruct (String.eqb_spec y x) as [->|Hne].
    + exfalso. apply Hnotin. left.
    + rewrite IH; [reflexivity|]. intros Hin. apply Hnotin. right. exact Hin.
Qed.

(** X26.  Watching an expression that is not yet watched and unwatching it
    by its text restores the list - provided the text does not read as an
    integer, in which case [unwatch] goes by position instead. *)
Theorem watch_then_unwatch (arg : string) (watched : list string) :
  arg <> "" -> arg ∉ watched -> int_of arg = None ->
  do_unwatch_expr arg (do_watch_expr arg watched) = watched.
Proof.
  intros Harg Hnotin Hint. unfold do_watch_expr, do_unwatch_expr, truthy_str.
  destruct (String.eqb_spec arg ""); [contradiction|]. simpl.
  rewrite bool_decide_eq_false_2 by assumption. rewrite Hint.
  rewrite bool_decide_eq_true_2
    by (apply elem_of_app; right; apply list_elem_of_In; left; reflexivity).
  apply remove_first_appended, Hnotin.
Qed.
End watch_guarantees.

(** ** The source window *)
Section source_view_guarantees.
Context `{Host}.
Import SourceView.

Lemma window_bounds ln i :
  i ∈ window ln <-> Z.max 1 (ln - 2) <= i <= Z.max 1 (ln - 2) + 4.
Proof.
  unfold window. change (5 / 2) with 2.
  replace (Z.to_nat (Z.max 1 (ln - 2) + 5 - 1 + 1 - Z.max 1 (ln - 2)))
    with 5%nat by lia.
  rewrite list_elem_of_fmap. split.
  - intros (k & -> & Hk). apply elem_of_seq in Hk. lia.
  - intros Hi. exists (Z.to_nat (i - Z.max 1 (ln - 2))).
    split; [lia|]. apply elem_of_seq. lia.
Qed.

(** X27.  The source window of a frame at a line [ln] of at least 1: every
    printed line lies among the five lines starting at [max(1, ln - 2)] and
    has text; the current line, when it has text, is printed and coloured;
    and a printed line carries the arrow exactly when it is the current
    line and the frame shown is the execution frame. *)
Theorem source_window_marks_the_execution_line
  (getline : string -> Z -> string) (dbg : PyDebugger) (frm : frame) :
  1 <= f_lineno frm ->
  Forall (fun r =>
            Z.max 1 (f_lineno frm - 2) <= number r
              <= Z.max 1 (f_lineno frm - 2) + 4
            /\ text r = rstrip_newlines (getline (co_filename frm) (number r))
            /\ text r <> ""
            /\ highlighted r = (number r =? f_lineno frm)
            /\ marked r
               = (number r =? f_lineno frm)
                 && match execution_frame dbg with
                    | Some ef => PyDebugger.same_frame frm ef
                    | None => false
                    end)
    (source_rows getline dbg frm)
  /\ (rstrip_newlines (getline (co_filename frm) (f_lineno frm)) <> "" ->
      exists r, r ∈ source_rows getline dbg frm
                /\ number r = f_lineno frm /\ highlighted r = true).
Proof.
  intros Hln. unfold source_rows. split.
  - apply Forall_forall. intros r Hr.
    apply list_elem_of_omap in Hr as (i & Hi & Hrow).
    apply window_bounds in Hi. unfold truthy_str in Hrow.
    destruct (String.eqb_spec
                (rstrip_newlines (getline (co_filename frm) i)) "")
      as [|Htxt]; [discriminate|].
    simpl in Hrow. injection Hrow as <-. simpl. auto.
  - intros Htxt. eexists. split.
    + apply list_elem_of_omap. exists (f_lineno frm). split.
      * apply window_bounds. lia.
      * unfold truthy_str.
        destruct (String.eqb_spec
                    (rstrip_newlines
                       (getline (co_filename frm) (f_lineno frm))) "");
          [contradiction|]. reflexivity.
    + simpl. split; [reflexivity | apply Z.eqb_refl].
Qed.
End source_view_guarantees.

(** ** The [until] target *)
Section until_guarantees.
Context `{Host}.
Import PyDebugger.
Local Arguments stepping_decision : simpl never.

Lemma prepare_prompt_keeps_target dbg :
  run_until_line_info (state_manager (prepare_prompt dbg))
  = run_until_line_info (state_manager dbg).
Proof.
  unfold prepare_prompt. simpl. rewrite !capture_keeps_state_manager.
  destruct (_ || _ || _); simpl; rewrite ?capture_keeps_state_manager;
    reflexivity.
Qed.

Lemma stepping_decision_target sm ev file frm depth target_file target_line :
  run_until_line_info sm = Some (target_file, target_line) ->
  let fires :=
    match ev with
    | Line => String.eqb file target_file && (f_lineno frm =? target_line)
    | _ => false
    end in
  run_until_line_info (stepping_decision sm ev file frm depth).1.1
  = (if fires then None else Some (target_file, target_line))
  /\ (fires = true ->
      (stepping_decision sm ev file frm depth).1.2 = true
      /\ (stepping_decision sm ev file frm depth).2 = Some Until).
Proof.
  intros Htarget. unfold stepping_decision.
  destruct ev; simpl; rewrite ?Htarget.
  - destruct (step_into sm); [|destruct (step_over sm || step_out sm)];
      simpl; rewrite Htarget; split; (reflexivity || discriminate).
  - destruct (String.eqb file target_file && (f_lineno frm =? target_line));
      simpl; rewrite ?Htarget; split; auto; discriminate.
  - split; [first [exact Htarget | reflexivity] | discriminate].
  - split; [first [exact Htarget | reflexivity] | discriminate].
Qed.

(** X28.  An [until] target fires on a [line] event at exactly its file and
    line: that event stops with the label "Until" and the target is gone at
    the prompt.  Every other event, whether it stops or not, leaves the
    target as it was. *)
Theorem until_target_is_cleared_when_it_fires
  (dbg : PyDebugger) (frm : frame) (ev : event) (input : list line)
  (target_file : string) (target_line : Z) :
  quit_debugger dbg = false ->
  run_until_line_info (state_manager dbg) = Some (target_file, target_line) ->
  if match ev with
     | Line =>
         String.eqb (abspath (co_filename frm)) target_file
         && (f_lineno frm =? target_line)
     | _ => false
     end
  then
    stopped (trace_dispatch dbg frm ev input) = true
    /\ label (trace_dispatch dbg frm ev input) = Some Until
    /\ exists prompt,
        at_prompt (trace_dispatch dbg frm ev input) = Some prompt
        /\ run_until_line_info (state_manager prompt) = None
  else
    (forall prompt,
        at_prompt (trace_dispatch dbg frm ev input) = Some prompt ->
        run_until_line_info (state_manager prompt)
        = Some (target_file, target_line))
    /\ (stopped (trace_dispatch dbg frm ev input) = false ->
        run_until_line_info
          (state_manager (after (trace_dispatch dbg frm ev input)))
        = Some (target_file, target_line)).
Proof.
  intros Hq Htarget.
  destruct (stepping_decision_target (state_manager dbg) ev
              (abspath (co_filename frm)) frm (_get_frame_depth (Some frm))
              target_file target_line Htarget) as [Hafter Hfires].
  pose proof (decide_stop_state_manager dbg frm ev) as Hsm.
  rewrite <- Hsm in Hafter.
  unfold trace_dispatch. rewrite Hq.
  unfold decide_stop in *. simpl in *.
  destruct (stepping_decision _ _ _ _ _) as [[sm stop] r]. simpl in *.
  destruct (match ev with Line => _ | _ => false end) eqn:Hf.
  - destruct (Hfires eq_refl) as [-> ->]. simpl in *.
    split; [reflexivity|]. split; [reflexivity|].
    eexists. split; [reflexivity|].
    rewrite prepare_prompt_keeps_target. exact Hafter.
  - destruct stop; simpl in *.
    + split; [|discriminate]. intros prompt [= <-].
      rewrite prepare_prompt_keeps_target. exact Hafter.
    + destruct (BreakpointManager.check_breakpoint _ _ _ _ _)
        as [m [ref|]]; simpl in *.
      * split; [|discriminate]. intros prompt [= <-].
        rewrite prepare_prompt_keeps_target. exact Hafter.
      * split; [discriminate|]. intros _. exact Hafter.
Qed.
End until_guarantees.

(** ** Every breakpoint that can stop has an id *)
Section located_breakpoints.
Context `{Host}.
Import BreakpointManager Registry.
Local Arguments check_breakpoint : simpl never.

(** The instance found at a location was made for that location and is in
    the id index. *)
Definition located_have_ids (m : BreakpointManager) : Prop :=
  forall file line ref,
    at_location m file line = Some ref ->
    exists bp id,
      objects m !! ref = Some bp /\ file_abs bp = file /\ lineno bp = line
      /\ PyDict.get (breakpoints_by_id m) id = Some ref.

Lemma remove_by_id_effect m arg :
  let m' := (remove_by_id m arg).1 in
  breakpoints_by_id m' = breakpoints_by_id m
  /\ (forall file line, at_location m' file line = at_location m file line)
  \/ exists id ref,
      PyDict.get (breakpoints_by_id m) id = Some ref
      /\ breakpoints_by_id m' = PyDict.remove (breakpoints_by_id m) id
      /\ forall file line r,
          at_location m' file line = Some r ->
          at_location m file line = Some r
          /\ forall bp, objects m !! ref = Some bp ->
                        ~ (file_abs bp = file /\ lineno bp = line).
Proof.
  unfold remove_by_id.
  destruct arg as [id|]; [|simpl; auto].
  destruct (truthy_int id); [|simpl; auto].
  destruct (PyDict.get (breakpoints_by_id m) id) as [ref|] eqn:Hget;
    [|simpl; auto].
  right. exists id, ref. split; [exact Hget|]. simpl.
  destruct (objects m !! ref) as [bp|] eqn:Hobj.
  2:{ simpl. split; [reflexivity|]. intros file line r Hat.
      split; [exact Hat | discriminate]. }
  destruct (breakpoints_by_file m !! file_abs bp) as [lines|] eqn:Hlines.
  2:{ simpl. split; [reflexivity|]. intros file line r Hat.
      split; [exact Hat|]. intros bp' [= <-] [<- <-].
      unfold at_location in Hat. simpl in Hat. rewrite Hlines in Hat.
      discriminate. }
  destruct (lines !! lineno bp) as [other|] eqn:Hline.
  2:{ simpl. split; [reflexivity|]. intros file line r Hat.
      split; [exact Hat|]. intros bp' [= <-] [<- <-].
      unfold at_location in Hat. simpl in Hat. rewrite Hlines in Hat.
      congruence. }
  simpl. split; [reflexivity|]. intros file line r.
  unfold at_location. simpl.
  destruct (decide (delete (lineno bp) lines = ∅)) as [Hempty|Hne].
  - rewrite lookup_delete.
    destruct (decide (file_abs bp = file)) as [<-|Hf]; [discriminate|].
    intros Hat. split; [exact Hat|]. intros bp' [= <-] [Hf' _]. congruence.
  - rewrite lookup_insert.
    destruct (decide (file_abs bp = file)) as [<-|Hf].
    + rewrite Hlines, lookup_delete.
      destruct (decide (lineno bp = line)) as [<-|Hl]; [discriminate|].
      intros Hat. split; [exact Hat|]. intros bp' [= <-] [_ Hl']. congruence.
    + intros Hat. split; [exact Hat|]. intros bp' [= <-] [Hf' _]. congruence.
Qed.

Lemma located_have_ids_after_removal m arg :
  well_formed m -> located_have_ids m ->
  located_have_ids (remove_by_id m arg).1.
Proof.
  intros (_ & _ & Hkeys & _) Hloc.
  destruct (remove_by_id_shrinks m arg) as (Hobjs & _ & _ & _).
  destruct (remove_by_id_effect m arg)
    as [[Hby Hat]|(id & ref & Hget & Hby & Hat)];
    intros file line r Hr.
  - rewrite Hat in Hr. destruct (Hloc file line r Hr) as (bp & i & ?).
    exists bp, i. rewrite Hobjs, Hby. assumption.
  - destruct (Hat file line r Hr) as [Hold Hother].
    destruct (Hloc file line r Hold) as (bp & i & Hobj & Hf & Hl & Hi).
    exists bp, i. rewrite Hobjs, Hby. repeat split; try assumption.
    rewrite dict_get_remove by assumption.
    destruct (decide (id = i)) as [<-|]; [|exact Hi].
    exfalso. rewrite Hget in Hi. injection Hi as <-.
    apply (Hother bp Hobj). auto.
Qed.

Lemma located_have_ids_after_call m c :
  well_formed m -> located_have_ids m -> located_have_ids (after_call m c).
Proof.
  intros Hwf Hloc.
  pose proof (well_formed_keys_below m Hwf) as Hbelow.
  destruct c as [file line cond ign|arg| |file line g l|id n];
    unfold after_call.
  - (* add_breakpoint *)
    intros f l r. rewrite at_location_after_add.
    destruct (decide (file = f /\ line = l)) as [[<- <-]|Hne].
    + intros [= <-].
      exists (BreakpointInfo.init line file cond ign), (next_bp_id m).
      split; [apply objects_added|]. split; [reflexivity|].
      split; [reflexivity|]. simpl. apply dict_get_set_eq.
    + intros Hr. destruct (Hloc f l r Hr) as (bp & i & Hobj & Hf & Hl & Hi).
      exists bp, i. split; [simpl; apply lookup_app_l_Some, Hobj|].
      split; [assumption|]. split; [assumption|]. simpl.
      rewrite dict_get_set_ne; [exact Hi|].
      intros <-. apply dict_get_In in Hi.
      assert (Hin : In (next_bp_id m) (PyDict.keys (breakpoints_by_id m))).
      { unfold PyDict.keys. apply in_map_iff. exists (next_bp_id m, r). auto. }
      apply Hbelow in Hin. lia.
  - (* clear_breakpoint *)
    unfold clear_breakpoint. destruct arg as [id|[[file line]|]].
    + destruct (truthy_int id); [|exact Hloc].
      apply located_have_ids_after_removal; assumption.
    + destruct (truthy_str file && truthy_int line); [|exact Hloc].
      destruct (at_location m file line); [|exact Hloc].
      apply located_have_ids_after_removal; assumption.
    + exact Hloc.
  - (* clear_all_breakpoints *)
    intros f l r. unfold at_location. simpl. rewrite lookup_empty.
    discriminate.
  - (* check_breakpoint *)
    destruct (store_update_shape m (check_breakpoint m file line g l).1)
      as (Hbf & Hby & _ & Hlen & Hobjs); [left; eauto|].
    intros f l' r. unfold at_location. rewrite Hbf. intros Hr.
    destruct (Hloc f l' r Hr) as (bp & i & Hobj & Hf & Hl & Hi).
    destruct (lookup_lt_is_Some_2 (objects (check_breakpoint m file line g l).1)
                r) as [bp' Hbp'].
    { rewrite Hlen. eapply lookup_lt_Some, Hobj. }
    destruct (Hobjs r bp' Hbp') as (bp0 & Hbp0 & Hf' & Hl'' & _).
    rewrite Hobj in Hbp0. injection Hbp0 as <-.
    exists bp', i. rewrite Hby. repeat split; congruence.
  - (* set_ignore_count *)
    destruct (store_update_shape m (set_ignore_count m id n).1)
      as (Hbf & Hby & _ & Hlen & Hobjs); [right; eauto|].
    intros f l' r. unfold at_location. rewrite Hbf. intros Hr.
    destruct (Hloc f l' r Hr) as (bp & i & Hobj & Hf & Hl & Hi).
    destruct (lookup_lt_is_Some_2 (objects (set_ignore_count m id n).1) r)
      as [bp' Hbp'].
    { rewrite Hlen. eapply lookup_lt_Some, Hobj. }
    destruct (Hobjs r bp' Hbp') as (bp0 & Hbp0 & Hf' & Hl'' & _).
    rewrite Hobj in Hbp0. injection Hbp0 as <-.
    exists bp', i. rewrite Hby. repeat split; congruence.
Qed.

Lemma id_of_object_finds by_id id ref :
  PyDict.get by_id id = Some ref -> is_Some (id_of_object by_id ref).
Proof.
  induction by_id as [|[k v] d IH]; simpl; [discriminate|].
  destruct (decide (v = ref)); [eauto|].
  destruct (decide (k = id)); [congruence | exact IH].
Qed.

(** X29.  Whatever calls were made, duplicates included, a breakpoint
    that is found at a location was made for that location and still has
    an id, so a stop at a breakpoint is never labelled "BP ?". *)
Theorem located_breakpoint_has_an_id
  (calls : list call) (file : string) (line : Z) (ref : nat) :
  at_location (after_calls calls) file line = Some ref ->
  (exists bp, objects (after_calls calls) !! ref = Some bp
              /\ file_abs bp = file /\ lineno bp = line)
  /\ is_Some (id_of_object (breakpoints_by_id (after_calls calls)) ref).
Proof.
  assert (Hinv : forall cs m,
             well_formed m -> located_have_ids m ->
             located_have_ids (fold_left after_call cs m)).
  { induction cs as [|c rest IH]; intros m Hwf Hloc; [exact Hloc|].
    simpl. apply IH; [apply well_formed_after_call, Hwf|].
    apply located_have_ids_after_call; assumption. }
  intros Hat.
  destruct (Hinv calls BreakpointManager.init well_formed_init) with
    (file := file) (line := line) (ref := ref)
    as (bp & id & Hobj & Hf & Hl & Hget).
  - intros f l r. unfold at_location. simpl. rewrite lookup_empty.
    discriminate.
  - exact Hat.
  - split; [eauto|]. eapply id_of_object_finds, Hget.
Qed.
End located_breakpoints.

(** ** The guarantees at work on the sample program *)
Section worked_guarantees.
Import Sample Examples SampleFiles PyDebugger BreakpointManager Spec.
Import Locations.

Lemma clear_is_safe_without_duplicates_witness :
  Registry.adds_at_free_locations BreakpointManager.init calls
  /\ (clear_breakpoint (Registry.after_calls calls) (ById 2)).2
     <> Raise KeyError
  /\ (clear_breakpoint (Registry.after_calls calls) (ById 2)).2 = Ok true.
Proof.
  assert (Hfree : Registry.adds_at_free_locations BreakpointManager.init calls)
    by (vm_compute; tauto).
  split; [exact Hfree|].
  destruct (clear_is_safe_without_duplicates calls (ById 2) Hfree)
    as [Hsafe Hid].
  split; [exact Hsafe|].
  rewrite (Hid 2). reflexivity.
Defined.

Lemma add_then_clear_by_location_witness :
  at_location (Registry.after_calls calls) file 20 = None
  /\ (clear_breakpoint
        (add_breakpoint (Registry.after_calls calls) file 20 None 0).1
        (ByLocation (Some (file, 20)))).2 = Ok true
  /\ list_breakpoints
       (clear_breakpoint
          (add_breakpoint (Registry.after_calls calls) file 20 None 0).1
          (ByLocation (Some (file, 20)))).1
     = list_breakpoints (Registry.after_calls calls).
Proof.
  assert (Hfree : at_location (Registry.after_calls calls) file 20 = None)
    by (vm_compute; reflexivity).
  split; [exact Hfree|].
  destruct (add_then_clear_by_location calls file 20 None 0) as (Hok & _ & _ & Hlist).
  - discriminate.
  - discriminate.
  - exact Hfree.
  - split; [exact Hok | exact Hlist].
Defined.

Lemma failing_condition_counts_but_never_stops_witness :
  eval_bool "y > 3" no_names (x_is 5) = None
  /\ (check_breakpoint with_failing_condition file 10 no_names (x_is 5)).2
     = None
  /\ option_map hit_count
       ((objects
           (check_breakpoint with_failing_condition file 10 no_names
              (x_is 5)).1) !! 0%nat) = Some 1.
Proof.
  split; [reflexivity|].
  rewrite (failing_condition_counts_but_never_stops with_failing_condition
             file 10 0%nat (BreakpointInfo.init 10 file (Some "y > 3") 0)
             "y > 3" no_names (x_is 5)).
  - split; reflexivity.
  - vm_compute; reflexivity.
  - reflexivity.
  - reflexivity.
  - simpl; lia.
  - reflexivity.
  - discriminate.
  - reflexivity.
Defined.

Lemma ignore_count_set_by_id_applies_at_the_location_witness :
  PyDict.get (breakpoints_by_id (conditional_breakpoint 0)) 1 = Some 0%nat
  /\ at_location (conditional_breakpoint 0) file 10 = Some 0%nat
  /\ (set_ignore_count (conditional_breakpoint 0) 1 2).2 = true
  /\ (successive_hits (set_ignore_count (conditional_breakpoint 0) 1 2).1
        file 10 [(no_names, x_is 5); (no_names, x_is 7)]).2 = [None; None].
Proof.
  assert (Hat : at_location (conditional_breakpoint 0) file 10 = Some 0%nat)
    by (vm_compute; reflexivity).
  split; [reflexivity|]. split; [exact Hat|].
  destruct (ignore_count_set_by_id_applies_at_the_location
              (conditional_breakpoint 0) 1 0%nat file 10
              (BreakpointInfo.init 10 file (Some "x > 3") 0) 2
              [(no_names, x_is 5); (no_names, x_is 7)]
              eq_refl Hat eq_refl eq_refl eq_refl) as (Hset & _ & Hhits).
  split; [exact Hset | exact Hhits].
Defined.

Lemma step_stops_at_the_next_event_witness :
  quit_debugger entered = false
  /\ stopped (trace_dispatch (do_step entered).1 (in_helper 20) Return []) = true
  /\ exists prompt,
      at_prompt (trace_dispatch (do_step entered).1 (in_helper 20) Return [])
      = Some prompt
      /\ breakpoint_manager prompt = breakpoint_manager entered.
Proof.
  split; [reflexivity|].
  apply (step_stops_at_the_next_event entered (in_helper 20) Return []).
  reflexivity.
Defined.

Lemma exception_always_stops_witness :
  quit_debugger attached = false
  /\ stopped (trace_dispatch attached entry Exception [Named CmdContinue]) = true
  /\ label (trace_dispatch attached entry Exception [Named CmdContinue])
     = Some ExceptionRaised
  /\ exists prompt,
      at_prompt (trace_dispatch attached entry Exception [Named CmdContinue])
      = Some prompt
      /\ breakpoint_manager prompt = breakpoint_manager attached.
Proof.
  split; [reflexivity|].
  apply (exception_always_stops attached entry [Named CmdContinue]).
  reflexivity.
Defined.

Lemma continue_stops_only_for_breakpoints_and_exceptions_witness :
  quit_debugger with_conditional_breakpoint = false
  /\ stopped (trace_dispatch (do_continue with_conditional_breakpoint).1
                (in_work 10 (x_is 5)) Call [])
     = bool_decide
         (is_Some
            (check_breakpoint (breakpoint_manager with_conditional_breakpoint)
               file 10 no_names (x_is 5)).2).
Proof.
  split; [reflexivity|].
  destruct (continue_stops_only_for_breakpoints_and_exceptions
              with_conditional_breakpoint (in_work 10 (x_is 5)) Call []
              eq_refl) as [Hstop _].
  exact Hstop.
Defined.

Lemma quit_is_final_witness :
  stopped (trace_dispatch attached entry Call [Named CmdQuit]) = true
  /\ keeps_tracing (trace_dispatch attached entry Call [Named CmdQuit]) = false
  /\ run_session (after (trace_dispatch attached entry Call [Named CmdQuit]))
       [(in_work 10 [], Line, [Named CmdStep])]
     = after (trace_dispatch attached entry Call [Named CmdQuit]).
Proof.
  split; [reflexivity|].
  destruct (quit_is_final attached entry Call (Named CmdQuit) []
              [(in_work 10 [], Line, [Named CmdStep])]
              (or_introl eq_refl) eq_refl)
    as (Hkeeps & _ & Hrun & _).
  split; [exact Hkeeps | exact Hrun].
Defined.

Lemma stop_captures_the_stack_witness :
  at_prompt (trace_dispatch attached entry Call [Named CmdContinue]) = Some entered
  /\ _full_stack_at_stop entered = caller_chain entry
  /\ Z.of_nat (length (_full_stack_at_stop entered))
     = _get_frame_depth (Some entry)
  /\ _full_stack_at_stop entered !! 0%nat = Some entry
  /\ _interaction_stack_idx entered = 0
  /\ interaction_frame entered = Some entry
  /\ execution_frame entered = Some entry.
Proof.
  split; [reflexivity|].
  apply (stop_captures_the_stack attached entry Call [Named CmdContinue] entered).
  reflexivity.
Defined.

Lemma command_that_stays_keeps_the_session_witness :
  (onecmd (CmdUpStack NoArg) entered).2 = false
  /\ state_manager (onecmd (CmdUpStack NoArg) entered).1
     = state_manager entered
  /\ breakpoint_manager (onecmd (CmdUpStack NoArg) entered).1
     = breakpoint_manager entered
  /\ execution_frame (onecmd (CmdUpStack NoArg) entered).1
     = execution_frame entered
  /\ _full_stack_at_stop (onecmd (CmdUpStack NoArg) entered).1
     = _full_stack_at_stop entered
  /\ quit_debugger (onecmd (CmdUpStack NoArg) entered).1
     = quit_debugger entered.
Proof.
  split; [reflexivity|].
  apply (command_that_stays_keeps_the_session (CmdUpStack NoArg) entered).
  reflexivity.
Defined.

Lemma cursor_stays_in_the_snapshot_witness :
  at_prompt (trace_dispatch attached entry Call [Named CmdContinue]) = Some entered
  /\ cursor_in_snapshot
       (navigate_all [(Up, NoArg); (Up, IntArg 5); (Down, NoArg)] entered)
  /\ _full_stack_at_stop
       (navigate_all [(Up, NoArg); (Up, IntArg 5); (Down, NoArg)] entered)
     = caller_chain entry
  /\ execution_frame
       (navigate_all [(Up, NoArg); (Up, IntArg 5); (Down, NoArg)] entered)
     = Some entry.
Proof.
  split; [reflexivity|].
  apply (cursor_stays_in_the_snapshot attached entry Call [Named CmdContinue]
           entered [(Up, NoArg); (Up, IntArg 5); (Down, NoArg)]).
  reflexivity.
Defined.

Lemma move_and_move_back_witness :
  cursor_in_snapshot entered
  /\ 0 <= requested_index Up 1 entered
       < Z.of_nat (length (_full_stack_at_stop entered))
  /\ (navigate Down NoArg (navigate Up NoArg entered).1).1 = entered.
Proof.
  assert (Hcursor : cursor_in_snapshot entered).
  { split; [simpl; lia | reflexivity]. }
  assert (Hin : 0 <= requested_index Up 1 entered
                  < Z.of_nat (length (_full_stack_at_stop entered)))
    by (simpl; lia).
  split; [exact Hcursor|]. split; [exact Hin|].
  apply (move_and_move_back Up NoArg 1 entered Hcursor eq_refl Hin).
Defined.

Lemma reload_uses_the_cache_witness :
  (_load_ast_with_cache (disk 5 (Some tree)) ∅ file).2 = Some tree
  /\ _load_ast_with_cache (disk 5 None)
       (_load_ast_with_cache (disk 5 (Some tree)) ∅ file).1 file
     = ((_load_ast_with_cache (disk 5 (Some tree)) ∅ file).1, Some tree).
Proof.
  split; [reflexivity|].
  apply (reload_uses_the_cache (disk 5 (Some tree)) (disk 5 None) ∅ file tree);
    reflexivity.
Defined.

Lemma numeric_location_needs_no_file_witness :
  int_of "10" = Some 10
  /\ parse_location_string 1000 (disk 5 None) ∅ "/app/other.py:10" file
     = (∅, Ok (Some ("/app/other.py", 10)))
  /\ parse_location_string 1000 (disk 5 None) ∅ "10" file
     = (∅, Ok (Some (file, 10))).
Proof.
  split; [reflexivity|].
  exact (numeric_location_needs_no_file 1000 (disk 5 None) ∅ "/app/other.py" "10"
           file 10 eq_refl eq_refl).
Defined.

Lemma symbolic_location_in_unloadable_file_raises_witness :
  int_of "work" = None
  /\ (_load_ast_with_cache (disk 5 None) ∅ (abspath file)).2 = None
  /\ parse_location_string 1000 (disk 5 None) ∅ "work" file
     = (∅, Raise NameError).
Proof.
  split; [reflexivity|]. split; [reflexivity|].
  apply (symbolic_location_in_unloadable_file_raises 1000 (disk 5 None) ∅ "work"
           file); reflexivity.
Defined.

Lemma symbolic_location_is_a_declared_function_witness :
  (_load_ast_with_cache (disk 5 (Some tree)) ∅ (abspath file)).2 = Some tree
  /\ (parse_location_string 1000 (disk 5 (Some tree)) ∅ "A.b" file).2
     = Ok (Some (file, 4))
  /\ declared_at (FunctionFinder.split "." "A.b") tree 4.
Proof.
  assert (Hload : (_load_ast_with_cache (disk 5 (Some tree)) ∅
                     (abspath file)).2 = Some tree) by reflexivity.
  assert (Hparse : (parse_location_string 1000 (disk 5 (Some tree)) ∅ "A.b"
                      file).2 = Ok (Some (file, 4))) by reflexivity.
  split; [exact Hload|]. split; [exact Hparse|].
  destruct (symbolic_location_is_a_declared_function 1000 (disk 5 (Some tree)) ∅
              "A.b" file tree eq_refl eq_refl Hload) as [Hfound _].
  destruct (Hfound file 4 Hparse) as (_ & _ & Hdeclared).
  exact Hdeclared.
Defined.

Lemma clear_with_a_number_means_the_id_witness :
  interaction_frame once_cleared = Some entry
  /\ breakpoints_by_id (breakpoint_manager once_cleared) = []
  /\ next_bp_id (breakpoint_manager once_cleared) = 2
  /\ exists set_bp rows,
      do_break "/app/python_debugger.py" 1000 (disk 5 None) ∅ "12" None
        once_cleared
      = (∅, Ok (set_bp, Some rows))
      /\ In (2, BreakpointInfo.init 12 file None 0) rows
      /\ do_clear "/app/python_debugger.py" 1000 (disk 5 None) ∅ "12" set_bp
         = (∅, Ok (set_bp, Some rows))
      /\ at_location (breakpoint_manager set_bp) file 12 = Some 1%nat.
Proof.
  assert (Htext : "12" <> "") by discriminate.
  assert (Hall : lower "12" <> "all") by (vm_compute; discriminate).
  assert (Hfile : abspath (co_filename entry) <> "") by discriminate.
  assert (HL0 : 12 <> 0) by discriminate.
  assert (Hnext : 12 <> next_bp_id (breakpoint_manager once_cleared))
    by (vm_compute; discriminate).
  split; [reflexivity|]. split; [reflexivity|]. split; [reflexivity|].
  exact (clear_with_a_number_means_the_id "/app/python_debugger.py" 1000
           (disk 5 None) ∅ "12" 12 once_cleared entry eq_refl eq_refl eq_refl
           Htext Hall Hfile HL0 eq_refl Hnext).
Defined.

Lemma break_then_clear_by_file_and_line_witness :
  interaction_frame entered = Some entry
  /\ at_location (breakpoint_manager entered) (abspath (co_filename entry)) 10
     = None
  /\ exists set_bp rows cleared,
      do_break "/app/python_debugger.py" 1000 (disk 5 None) ∅ "10" None entered
      = (∅, Ok (set_bp, Some rows))
      /\ do_clear "/app/python_debugger.py" 1000 (disk 5 None) ∅
           (String.append file (String ":" "10")) set_bp
         = (∅, Ok (cleared,
                   Some (list_breakpoints (breakpoint_manager entered))))
      /\ forall f l,
          at_location (breakpoint_manager cleared) f l
          = at_location (breakpoint_manager entered) f l.
Proof.
  assert (Hfree : at_location (breakpoint_manager entered)
                    (abspath (co_filename entry)) 10 = None)
    by (vm_compute; reflexivity).
  assert (Hwf : Registry.well_formed (breakpoint_manager entered)).
  { split; [simpl; lia|]. split; [constructor|]. split; [constructor|].
    split; [|constructor].
    intros f l ref Hat. vm_compute in Hat. discriminate. }
  split; [reflexivity|]. split; [exact Hfree|].
  apply (break_then_clear_by_file_and_line "/app/python_debugger.py" 1000
           (disk 5 None) ∅ file "10" 10 entered entry eq_refl Hwf);
    first [exact Hfree | reflexivity | discriminate
          | (vm_compute; discriminate)].
Defined.

Lemma watch_then_unwatch_witness :
  int_of "x + 1" = None
  /\ WatchList.do_unwatch_expr "x + 1" (WatchList.do_watch_expr "x + 1" ["y"])
     = ["y"].
Proof.
  split; [reflexivity|].
  apply (watch_then_unwatch "x + 1" ["y"]).
  - discriminate.
  - apply not_elem_of_cons. split; [discriminate | apply not_elem_of_nil].
  - reflexivity.
Defined.

Lemma source_window_marks_the_execution_line_witness :
  1 <= f_lineno entry
  /\ exists r, r ∈ SourceView.source_rows getline entered entry
               /\ SourceView.number r = f_lineno entry
               /\ SourceView.highlighted r = true.
Proof.
  assert (Hline : 1 <= f_lineno entry) by (simpl; lia).
  split; [exact Hline|].
  destruct (source_window_marks_the_execution_line getline entered entry Hline)
    as [_ Hshown].
  apply Hshown. discriminate.
Defined.

Lemma until_target_is_cleared_when_it_fires_witness :
  run_until_line_info (state_manager running_until_12) = Some (file, 12)
  /\ stopped (trace_dispatch running_until_12 (in_work 12 []) Line []) = true
  /\ label (trace_dispatch running_until_12 (in_work 12 []) Line [])
     = Some Until
  /\ exists prompt,
      at_prompt (trace_dispatch running_until_12 (in_work 12 []) Line [])
      = Some prompt
      /\ run_until_line_info (state_manager prompt) = None.
Proof.
  split; [reflexivity|].
  exact (until_target_is_cleared_when_it_fires running_until_12
           (in_work 12 []) Line [] file 12 eq_refl eq_refl).
Defined.

Lemma located_breakpoint_has_an_id_witness :
  at_location (Registry.after_calls calls) file 12 = Some 1%nat
  /\ is_Some (id_of_object (breakpoints_by_id (Registry.after_calls calls))
                1%nat).
Proof.
  assert (Hat : at_location (Registry.after_calls calls) file 12 = Some 1%nat)
    by (vm_compute; reflexivity).
  split; [exact Hat|].
  destruct (located_breakpoint_has_an_id calls file 12 1%nat Hat) as [_ Hid].
  exact Hid.
Defined.
End worked_guarantees.
